(** * Holon Claude adapter: a shallow embedding and its properties

    The development follows [images/adapter-claude]: [adapter.py] (the
    permission normalizer [fix_permissions] and the orchestration in
    [run_adapter]), [fs_helpers.py] ([PermissionFixer]) and [config.py]
    ([HolonConfig]).

    Python values are modelled by inductive types, the process state
    (environment, file system, commits, clock, observable effects) by a
    record that is threaded explicitly, and exceptions, [sys.exit] and a
    never-returning [await] by the constructors of [Res]. Everything the
    source obtains from outside (the YAML loader, git, the agent SDK, the
    directory listing, [os.chown]) is read from a [World].

    What can fail. Reading a file fails when the path is a directory or
    missing, or when its content does not decode; [yaml.safe_load] may
    raise and may return a value that is no mapping; [os.chdir] fails on a
    missing directory; [subprocess.run] raises on a non-zero exit code
    under [check=True] and on undecodable output under [text=True]; the
    agent SDK and [os.chown] fail as the [World] says. Creating the output
    directories, opening a file for writing and writing to it, and
    starting the [git] executable are taken to succeed. *)

From Stdlib Require Import ZArith List Ascii String.
From stdpp Require Import base option list gmap strings pretty.

Import ListNotations.
Set Warnings "-register-all".
Local Open Scope string_scope.
Local Open Scope Z_scope.
Local Open Scope list_scope.

(** ** Python built-ins used by the adapter *)

Module Py.

(** Values produced by [yaml.safe_load]. Mappings keep their insertion
    order, as Python dictionaries do. [POther] stands for a scalar of
    another type (float, date, ...), given by its [str()] rendering. *)
Inductive pyval : Type :=
| PNone
| PBool (b : bool)
| PInt (z : Z)
| PStr (s : string)
| PList (items : list pyval)
| PDict (fields : list (string * pyval))
| POther (shown : string).

Definition pydict : Type := list (string * pyval).

(** [d[key]], when the key is present *)
Fixpoint dict_lookup (d : pydict) (key : string) : option pyval :=
  match d with
  | [] => None
  | (k, v) :: d' => if String.eqb k key then Some v else dict_lookup d' key
  end.

(** [d.get(key, default)] *)
Definition dict_get (d : pydict) (key : string) (default : pyval) : pyval :=
  match dict_lookup d key with
  | Some v => v
  | None => default
  end.

(** [sep.join(parts)] *)
Fixpoint str_join (sep : string) (parts : list string) : string :=
  match parts with
  | [] => ""
  | [p] => p
  | p :: ps => p +:+ sep +:+ str_join sep ps
  end.

Fixpoint str_contains (c : ascii) (s : string) : bool :=
  match s with
  | EmptyString => false
  | String a s' => if Ascii.eqb a c then true else str_contains c s'
  end.

Definition hex_digit (n : N) : ascii :=
  ascii_of_N (if (n <? 10)%N then 48 + n else 87 + n)%N.

(** One character of [repr(s)] for an ASCII string quoted with [q]. *)
Definition repr_char (q c : ascii) : string :=
  let n := N_of_ascii c in
  if Ascii.eqb c "\" then "\\"
  else if Ascii.eqb c q then String "\" (String q "")
  else if (n =? 10)%N then "\n"
  else if (n =? 13)%N then "\r"
  else if (n =? 9)%N then "\t"
  else if ((n <? 32) || (n =? 127))%N
       then String "\" (String "x" (String (hex_digit (n / 16)) (String (hex_digit (n mod 16)) "")))
  else String c "".

Fixpoint repr_body (q : ascii) (s : string) : string :=
  match s with
  | EmptyString => ""
  | String c s' => repr_char q c +:+ repr_body q s'
  end.

Definition dquote : ascii := ascii_of_N 34.

(** [repr(s)]: single quotes unless the string has a single quote and no
    double quote. *)
Definition repr_str (s : string) : string :=
  let q : ascii :=
    if str_contains "'" s && negb (str_contains dquote s) then dquote else "'"%char in
  String q (repr_body q s +:+ String q "").

Fixpoint py_repr (v : pyval) : string :=
  match v with
  | PNone => "None"
  | PBool true => "True"
  | PBool false => "False"
  | PInt z => pretty z
  | PStr s => repr_str s
  | PList items => "[" +:+ str_join ", " (map py_repr items) +:+ "]"
  | PDict fields =>
      "{" +:+ str_join ", "
              (map (fun kv => match kv with
                              | (k, x) => repr_str k +:+ ": " +:+ py_repr x
                              end) fields) +:+ "}"
  | POther shown => shown
  end.

(** [str(v)] *)
Definition py_str (v : pyval) : string :=
  match v with
  | PStr s => s
  | _ => py_repr v
  end.

(** [s.replace(old, new)] for a one-character [old]. *)
Fixpoint replace_char (old : ascii) (new : string) (s : string) : string :=
  match s with
  | EmptyString => ""
  | String c s' =>
      (if Ascii.eqb c old then new else String c "") +:+ replace_char old new s'
  end.

Definition newline : string := String (ascii_of_N 10) "".

(** *** [int(s)] on ASCII text

    Surrounding white space is stripped, one sign is allowed, and the
    digits may be grouped by single underscores. [None] stands for
    [ValueError]. *)
Definition is_ws (c : ascii) : bool :=
  let n := N_of_ascii c in ((n =? 32) || ((9 <=? n) && (n <=? 13)))%N.

Fixpoint lstrip (s : string) : string :=
  match s with
  | String c s' => if is_ws c then lstrip s' else s
  | EmptyString => ""
  end.

Definition strip (s : string) : string :=
  String.rev (lstrip (String.rev (lstrip s))).

Definition digit_val (c : ascii) : option Z :=
  let n := N_of_ascii c in
  if ((48 <=? n) && (n <=? 57))%N then Some (Z.of_N n - 48) else None.

Fixpoint digits (acc : Z) (after_digit : bool) (s : string) : option Z :=
  match s with
  | EmptyString => if after_digit then Some acc else None
  | String c s' =>
      match digit_val c with
      | Some d => digits (10 * acc + d) true s'
      | None =>
          if Ascii.eqb c "_" && after_digit then digits acc false s' else None
      end
  end.

Definition py_int (s : string) : option Z :=
  match strip s with
  | String "+" r => digits 0 false r
  | String "-" r => Z.opp <$> digits 0 false r
  | t => digits 0 false t
  end.

(** Truthiness of an optional string: [None] and [""] are falsy. *)
Definition truthy (o : option string) : bool :=
  match o with
  | Some (String _ _) => true
  | _ => false
  end.

(** [os.path.join(a, b)] (POSIX). *)
Definition ends_with_slash (s : string) : bool :=
  match String.rev s with
  | String "/" _ => true
  | _ => false
  end.

Definition path_join (a b : string) : string :=
  match b with
  | String "/" _ => b
  | _ =>
      match a with
      | EmptyString => b
      | _ => if ends_with_slash a then a +:+ b else a +:+ "/" +:+ b
      end
  end.

End Py.

Import Py.

(** ** Process state, effects and control *)

(** An exception object (a subclass of [Exception]); [str(e)] is [exn_msg]. *)
Record Exn : Type := mkExn { exn_type : string; exn_msg : string }.

(** JSON documents handed to [json.dump]. Objects keep the insertion order of
    the dictionary. [JSeconds us] is the float [total_seconds()], kept as its
    exact number of microseconds; [JOther] is any other scalar (number,
    boolean, null). *)
Inductive json : Type :=
| JStr (s : string)
| JSeconds (micros : Z)
| JArr (items : list json)
| JObj (fields : list (string * json))
| JOther (shown : string).

Fixpoint json_get (fields : list (string * json)) (key : string) : option json :=
  match fields with
  | [] => None
  | (k, v) :: rest => if String.eqb k key then Some v else json_get rest key
  end.

Definition json_field (j : json) (key : string) : option json :=
  match j with
  | JObj fields => json_get fields key
  | _ => None
  end.

(** What a file holds: text, as reading it in text mode returns it (after
    decoding and newline translation), or a document serialised by
    [json.dump]. *)
Inductive FileContent : Type :=
| Text (s : string)
| Json (j : json).

(** Effects of the adapter on its surroundings, in program order. *)
Inductive Effect : Type :=
| EPrint (line : string)
| EPrintErr (line : string)
| ERun (argv : list string)
| EMakedirs (path : string)
| EChdir (path : string)
| EOpenWrite (path : string)
| EWrite (path : string) (text : string)
| EAppend (path : string) (text : string)
| EJsonDump (path : string) (doc : json)
| EChown (path : string) (uid gid : Z)
| EConnect
| EQuery (prompt : string).

Record State : Type := mkState {
  st_env : gmap string string;
  st_files : gmap string FileContent;
  st_dirs : gset string;
  st_commits : list string;
  st_cwd : string;
  st_clock : Z;
  st_trace : list Effect
}.

Definition set_env (f : gmap string string → gmap string string) (s : State) : State :=
  mkState (f (st_env s)) (st_files s) (st_dirs s) (st_commits s) (st_cwd s) (st_clock s) (st_trace s).

Definition set_files (f : gmap string FileContent → gmap string FileContent) (s : State) : State :=
  mkState (st_env s) (f (st_files s)) (st_dirs s) (st_commits s) (st_cwd s) (st_clock s) (st_trace s).

Definition set_dirs (f : gset string → gset string) (s : State) : State :=
  mkState (st_env s) (st_files s) (f (st_dirs s)) (st_commits s) (st_cwd s) (st_clock s) (st_trace s).

Definition set_commits (f : list string → list string) (s : State) : State :=
  mkState (st_env s) (st_files s) (st_dirs s) (f (st_commits s)) (st_cwd s) (st_clock s) (st_trace s).

Definition set_cwd (d : string) (s : State) : State :=
  mkState (st_env s) (st_files s) (st_dirs s) (st_commits s) d (st_clock s) (st_trace s).

Definition set_clock (f : Z → Z) (s : State) : State :=
  mkState (st_env s) (st_files s) (st_dirs s) (st_commits s) (st_cwd s) (f (st_clock s)) (st_trace s).

Definition emit (e : Effect) (s : State) : State :=
  mkState (st_env s) (st_files s) (st_dirs s) (st_commits s) (st_cwd s) (st_clock s) (st_trace s ++ [e]).

(** How a computation ends: normally, by an exception, by [sys.exit(code)]
    ([SystemExit] is not an [Exception], so [except Exception] lets it
    through), or never (an [await] that is never resumed). *)
Inductive Res (A : Type) : Type :=
| Ok (a : A)
| Raise (e : Exn)
| Exit (code : Z)
| Hang.

Arguments Ok {A} a.
Arguments Raise {A} e.
Arguments Exit {A} code.
Arguments Hang {A}.

Definition M (A : Type) : Type := State → Res A * State.

#[global] Instance M_ret : MRet M := λ A a s, (Ok a, s).

#[global] Instance M_bind : MBind M := λ A B k m s,
  match m s with
  | (Ok a, s') => k a s'
  | (Raise e, s') => (Raise e, s')
  | (Exit c, s') => (Exit c, s')
  | (Hang, s') => (Hang, s')
  end.

Definition raise {A} (e : Exn) : M A := λ s, (Raise e, s).
Definition sys_exit {A} (code : Z) : M A := λ s, (Exit code, s).
Definition hang {A} : M A := λ s, (Hang, s).
Definition get : M State := λ s, (Ok s, s).
Definition modify (f : State → State) : M unit := λ s, (Ok tt, f s).

(** [try: body except Exception as e: handler(e)] *)
Definition try_except {A} (body : M A) (handler : Exn → M A) : M A := λ s,
  match body s with
  | (Raise e, s') => handler e s'
  | r => r
  end.

(** [for x in xs: body(x)] *)
Fixpoint for_each {A} (xs : list A) (body : A → M unit) : M unit :=
  match xs with
  | [] => mret tt
  | x :: xs' => body x;; for_each xs' body
  end.

Definition print (line : string) : M unit := modify (emit (EPrint line)).
Definition print_err (line : string) : M unit := modify (emit (EPrintErr line)).

(** [os.path.exists] *)
Definition path_exists (s : State) (path : string) : bool :=
  bool_decide (is_Some (st_files s !! path)) || bool_decide (path ∈ st_dirs s).

(** [os.makedirs(path, exist_ok=True)] *)
Definition makedirs (path : string) : M unit :=
  modify (λ s, emit (EMakedirs path) (set_dirs (λ d, {[path]} ∪ d) s)).

Definition wait (micros : Z) : M unit := modify (set_clock (λ t, t + micros)).

(** ** The surroundings *)

(** Messages of the agent SDK, with the fields the adapter reads. *)
Inductive ContentBlock : Type :=
| TextBlock (text : string)
| ToolUseBlock (id name : string) (input : pydict)
| OtherBlock (shown : string).

Inductive Message : Type :=
| AssistantMessage (content : list ContentBlock)
| ResultMessage (subtype : string) (is_error : bool)
| OtherMessage (shown : string).

(** How [client.receive_response()] ends after its last message: the
    iterator is exhausted, it raises, or it never yields again. *)
Inductive StreamEnd : Type :=
| Exhausted
| Raises (e : Exn)
| Stalls.

(** A directory tree as [os.scandir] lists it. *)
Inductive Tree : Type :=
| File (name : string)
| Dir (name : string) (children : list Tree).

(** Everything the adapter obtains from outside. Waits are in microseconds
    of wall-clock time. *)
Record World : Type := mkWorld {
  (** [yaml.safe_load] of the spec file's text: the value of the document,
      of whatever type, or the error the loader raises *)
  w_yaml_load : string → Exn + pyval;
  (** [json.loads] and [json.dumps(indent=2)] *)
  w_json_loads : string → Exn + json;
  w_json_dumps : json → string;
  (** [os.path.expanduser("~/.claude/settings.json")] *)
  w_settings_path : string;
  (** the [n]-th subprocess: return code and captured standard output, as
      [subprocess.run] returns it (under [text=True] the decoded text) *)
  w_proc : nat → list string → Z * string;
  (** the error of decoding the output of the [n]-th subprocess under
      [text=True], when it is not valid text *)
  w_decode_error : nat → list string → option Exn;
  (** the error of reading the file at a path as text, when what it holds
      does not decode *)
  w_read_error : string → option Exn;
  (** [client.connect()] and [client.query()] *)
  w_connect_wait : Z;
  w_connect : option Exn;
  w_query_wait : Z;
  w_query : option Exn;
  (** the response stream: each message with the wait before it arrives *)
  w_stream : list (Z * Message);
  w_stream_end_wait : Z;
  w_stream_end : StreamEnd;
  (** a summary the agent itself wrote into the output directory *)
  w_agent_summary : option string;
  (** [str(msg)] of an SDK message *)
  w_msg_str : Message → string;
  (** the entries under a directory when it is walked *)
  w_tree : string → list Tree;
  (** the error [os.chown(path, uid, gid)] raises, if any *)
  w_chown_error : string → Z → Z → option Exn
}.

Definition text_of (w : World) (c : option FileContent) : string :=
  match c with
  | Some (Text t) => t
  | Some (Json j) => w_json_dumps w j
  | None => ""
  end.

Definition dir_names (children : list Tree) : list string :=
  flat_map (λ t, match t with Dir n _ => [n] | File _ => [] end) children.

Definition file_names (children : list Tree) : list string :=
  flat_map (λ t, match t with File n => [n] | Dir _ _ => [] end) children.

(** [os.walk(top)], top-down: the triples [(root, dirs, files)]. *)
Fixpoint walk_tree (top : string) (t : Tree) : list (string * list string * list string) :=
  match t with
  | File _ => []
  | Dir n children =>
      let p := path_join top n in
      (p, dir_names children, file_names children) :: flat_map (walk_tree p) children
  end.

Definition os_walk (top : string) (children : list Tree) : list (string * list string * list string) :=
  (top, dir_names children, file_names children) :: flat_map (walk_tree top) children.

Definition is_run (e : Effect) : bool :=
  match e with ERun _ => true | _ => false end.

(** Number of subprocesses started so far. *)
Definition run_count (t : list Effect) : nat :=
  length (List.filter is_run t).

(** ** File, process and ownership primitives *)

Section Primitives.
Context (w : World).

(** [open(path, 'r')] on a path that is no file *)
Definition open_error (s : State) (path : string) : Exn :=
  if bool_decide (path ∈ st_dirs s)
  then mkExn "IsADirectoryError" ("[Errno 21] Is a directory: " +:+ repr_str path)
  else mkExn "FileNotFoundError" ("[Errno 2] No such file or directory: " +:+ repr_str path).

(** [with open(path, 'r') as f: f.read()] *)
Definition read_text (path : string) : M string :=
  s ← get;
  match st_files s !! path with
  | Some c =>
      match w_read_error w path with
      | Some e => raise e
      | None => mret (text_of w (Some c))
      end
  | None => raise (open_error s path)
  end.

(** [os.chdir(path)] *)
Definition chdir (path : string) : M unit :=
  s ← get;
  if bool_decide (path ∈ st_dirs s)
  then modify (λ s, emit (EChdir path) (set_cwd path s))
  else if bool_decide (is_Some (st_files s !! path))
       then raise (mkExn "NotADirectoryError" ("[Errno 20] Not a directory: " +:+ repr_str path))
       else raise (mkExn "FileNotFoundError"
                     ("[Errno 2] No such file or directory: " +:+ repr_str path)).

(** [open(path, 'w')]: the file is created or truncated *)
Definition open_write (path : string) : M unit :=
  modify (λ s, emit (EOpenWrite path) (set_files (<[path := Text ""]>) s)).

(** [f.write(text)] on a file opened for writing *)
Definition file_write (path text : string) : M unit :=
  modify (λ s, emit (EWrite path text)
                 (set_files (λ fs, <[path := Text (text_of w (fs !! path) +:+ text)]> fs) s)).

(** [json.dump(doc, f, indent=2)] on a file just opened for writing *)
Definition json_dump (path : string) (doc : json) : M unit :=
  modify (λ s, emit (EJsonDump path doc) (set_files (<[path := Json doc]>) s)).

(** [with open(path, 'a') as f: f.write(text)] *)
Definition file_append (path text : string) : M unit :=
  modify (λ s, emit (EAppend path text)
                 (set_files (λ fs, <[path := Text (text_of w (fs !! path) +:+ text)]> fs) s)).

(** What a successful git command does to the repository. *)
Definition git_effect (argv : list string) (s : State) : State :=
  match argv with
  | [_; sub] =>
      if String.eqb sub "init" then set_dirs (λ d, {[path_join (st_cwd s) ".git"]} ∪ d) s else s
  | [_; sub; _; msg] =>
      if String.eqb sub "commit" then set_commits (λ c, (c ++ [msg])%list) s else s
  | _ => s
  end.

(** [subprocess.run(argv, check=check, text=text, ...)]: the process runs
    to its end; under [text=True] its output is decoded while it is
    collected, which may raise; then the exit code is checked. *)
Definition subprocess_run (argv : list string) (check text : bool) : M (Z * string) := λ s,
  let n := run_count (st_trace s) in
  let r := w_proc w n argv in
  let s1 := emit (ERun argv) (if fst r =? 0 then git_effect argv s else s) in
  match (if text then w_decode_error w n argv else None) with
  | Some e => (Raise e, s1)
  | None =>
      if check && negb (fst r =? 0)
      then (Raise (mkExn "CalledProcessError"
                     ("Command '" +:+ py_repr (PList (map PStr argv)) +:+
                      "' returned non-zero exit status " +:+ pretty (fst r) +:+ ".")), s1)
      else (Ok r, s1)
  end.

(** [os.chown(path, uid, gid)] *)
Definition chown (path : string) (uid gid : Z) : M unit := λ s,
  match w_chown_error w path uid gid with
  | Some e => (Raise e, s)
  | None => (Ok tt, emit (EChown path uid gid) s)
  end.

(** [int(text)] *)
Definition int_ (text : string) : M Z :=
  match py_int text with
  | Some z => mret z
  | None => raise (mkExn "ValueError"
                     ("invalid literal for int() with base 10: " +:+ repr_str text))
  end.

(** The traversal shared by both permission normalizers: the directory
    itself, then every entry [os.walk] reports. *)
Definition chown_walk (directory : string) (uid gid : Z) : M unit :=
  chown directory uid gid;;
  for_each (os_walk directory (w_tree w directory)) (λ entry,
    match entry with
    | (root, dirs, files) =>
        for_each dirs (λ d, chown (path_join root d) uid gid);;
        for_each files (λ f, chown (path_join root f) uid gid)
    end).

(** ** [adapter.py]: [fix_permissions] *)

Definition fix_permissions (directory : string) : M unit :=
  s ← get;
  let uid_str := st_env s !! "HOST_UID" in
  let gid_str := st_env s !! "HOST_GID" in
  if negb (truthy uid_str) || negb (truthy gid_str) then mret tt
  else
    try_except
      (uid ← int_ (default "" uid_str);
       gid ← int_ (default "" gid_str);
       print ("Fixing permissions for " +:+ directory +:+ " to " +:+ pretty uid +:+ ":" +:+ pretty gid);;
       chown_walk directory uid gid)
      (λ e, print ("Warning: Failed to fix permissions: " +:+ exn_msg e)).

End Primitives.

(** ** [fs_helpers.py]: [PermissionFixer.fix_permissions] *)

Module PermissionFixer.
Section Fixer.
Context (w : World).

(** [uid] and [gid] are the optional arguments; [None] means "read the
    environment". The conversions by [int] stand before the [try]. *)
Definition fix_permissions (directory : string) (uid gid : option Z) : M unit :=
  s ← get;
  uid ← match uid with
        | Some u => mret (Some u)
        | None =>
            let uid_str := st_env s !! "HOST_UID" in
            if truthy uid_str then u ← int_ (default "" uid_str); mret (Some u)
            else mret None
        end;
  gid ← match gid with
        | Some g => mret (Some g)
        | None =>
            let gid_str := st_env s !! "HOST_GID" in
            if truthy gid_str then g ← int_ (default "" gid_str); mret (Some g)
            else mret None
        end;
  match uid, gid with
  | Some u, Some g =>
      try_except
        (chown_walk w directory u g)
        (λ e, print_err ("Warning: Failed to fix permissions: " +:+ exn_msg e))
  | _, _ => mret tt
  end.

End Fixer.
End PermissionFixer.

(** ** [config.py]: [HolonConfig] *)

Module HolonConfig.

(** [_int_env(name, default)]; Python's [None] is [None]. *)
Definition _int_env (env : gmap string string) (name : string) (default : option Z) : option Z :=
  match env !! name with
  | None => default
  | Some value =>
      if String.eqb value "" then default
      else match py_int value with
           | Some z => Some z
           | None => default
           end
  end.

Definition get_env_timeout_seconds (env : gmap string string) : option Z :=
  _int_env env "HOLON_QUERY_TIMEOUT_SECONDS" (Some 300).

Definition get_env_heartbeat_seconds (env : gmap string string) : option Z :=
  _int_env env "HOLON_HEARTBEAT_SECONDS" (Some 60).

Definition get_env_idle_timeout_seconds (env : gmap string string) : option Z :=
  _int_env env "HOLON_RESPONSE_IDLE_TIMEOUT_SECONDS" (Some 1800).

Definition get_env_total_timeout_seconds (env : gmap string string) : option Z :=
  _int_env env "HOLON_RESPONSE_TOTAL_TIMEOUT_SECONDS" (Some 7200).

Definition get_env_host_uid (env : gmap string string) : option Z :=
  _int_env env "HOST_UID" None.

Definition get_env_host_gid (env : gmap string string) : option Z :=
  _int_env env "HOST_GID" None.

(** [os.environ.get(a) or os.environ.get(b)] *)
Definition get_env_auth_token (env : gmap string string) : option string :=
  if truthy (env !! "ANTHROPIC_AUTH_TOKEN") then env !! "ANTHROPIC_AUTH_TOKEN"
  else env !! "ANTHROPIC_API_KEY".

(** The first non-empty of the two variables, else the public endpoint. *)
Definition get_env_base_url (env : gmap string string) : string :=
  if truthy (env !! "ANTHROPIC_BASE_URL") then default "" (env !! "ANTHROPIC_BASE_URL")
  else if truthy (env !! "ANTHROPIC_API_URL") then default "" (env !! "ANTHROPIC_API_URL")
  else "https://api.anthropic.com".

Definition get_env_model (env : gmap string string) : option string :=
  env !! "HOLON_MODEL".

Definition get_env_fallback_model (env : gmap string string) : option string :=
  env !! "HOLON_FALLBACK_MODEL".

(** [os.environ.get("LOG_LEVEL", "progress")]: the default only replaces
    an absent variable. *)
Definition get_env_log_level (env : gmap string string) : string :=
  default "progress" (env !! "LOG_LEVEL").

End HolonConfig.

(** ** [subprocess_helpers.py]: [SubprocessRunner] *)

Module SubprocessRunner.
Section Runner.
Context (w : World).

(** [run(cmd, check=..., text=...)]; [capture_output] only selects where
    the output goes. *)
Definition run (cmd : list string) (check text : bool) : M (Z * string) :=
  subprocess_run w cmd check text.

Definition run_git_config (workspace_path : string) : M unit :=
  run ["git"; "config"; "--global"; "--add"; "safe.directory"; workspace_path] false false;;
  run ["git"; "config"; "--global"; "user.name"; "holon-adapter"] false false;;
  run ["git"; "config"; "--global"; "user.email"; "adapter@holon.local"] false false;;
  mret tt.

Definition run_git_init : M (Z * string) :=
  run ["git"; "init"] true false.

(** [files] is [None] for "everything" ([-A]). *)
Definition run_git_add (files : option (list string)) : M (Z * string) :=
  let cmd := ["git"; "add"] in
  let cmd := match files with
             | None => cmd ++ ["-A"]
             | Some fs => cmd ++ fs
             end in
  run cmd false false.

Definition run_git_commit (message : string) : M (Z * string) :=
  run ["git"; "commit"; "-m"; message] true false.

Definition run_git_diff_cached : M (Z * string) :=
  run ["git"; "diff"; "--cached"; "--patch"; "--binary"; "--full-index"] false true.

End Runner.
End SubprocessRunner.

(** ** [network_helpers.py]: [NetworkClient] *)

Module NetworkClient.

(** [test_connectivity(url, timeout)]; [urlopen url timeout] is the status
    of the response, or the exception [urllib.request.urlopen] raises. *)
Definition test_connectivity (urlopen : string → Z → Exn + Z) (url : string) (timeout : Z)
  : M bool :=
  try_except
    (match urlopen url timeout with
     | inr status => mret (status =? 200)
     | inl e => raise e
     end)
    (λ _, mret false).

End NetworkClient.

(** ** [adapter.py]: [run_adapter] *)

Definition output_dir : string := "/holon/output".
Definition evidence_dir : string := Eval vm_compute in path_join output_dir "evidence".
Definition spec_path : string := "/holon/input/spec.yaml".
Definition prompt_path : string := "/holon/input/prompts/system.md".
Definition user_prompt_path : string := "/holon/input/prompts/user.md".
Definition workspace_path : string := "/holon/workspace".
Definition log_file_path : string := Eval vm_compute in path_join evidence_dir "execution.log".
Definition manifest_path : string := Eval vm_compute in path_join output_dir "manifest.json".
Definition diff_path : string := Eval vm_compute in path_join output_dir "diff.patch".
Definition summary_out : string := Eval vm_compute in path_join output_dir "summary.md".

(** Lines 59-63: the goal of the task. *)
Definition extract_goal (spec : pydict) : pyval :=
  let goal_val := dict_get spec "goal" (PStr "") in
  match goal_val with
  | PDict d => dict_get d "description" (PStr "")
  | _ => PStr (py_str goal_val)
  end.

Definition bool_str (b : bool) : string := if b then "True" else "False".

(** [final_output += block.text] for every [TextBlock] of a message *)
Definition add_text_blocks (content : list ContentBlock) (final_output : string) : string :=
  fold_left (λ acc b, match b with TextBlock t => acc +:+ t | _ => acc end) content final_output.

(** The line the evidence log gets for a message. *)
Definition log_line (w : World) (msg : Message) : string :=
  "Message: " +:+ w_msg_str w msg +:+ newline.

Definition final_output_trailer (result : string) : string :=
  "--- FINAL OUTPUT ---" +:+ newline +:+ result +:+ newline.

Definition success_manifest (success : bool) (duration : Z) : json :=
  JObj [("metadata", JObj [("adapter", JStr "claude-code"); ("version", JStr "0.1.0")]);
        ("status", JStr "completed");
        ("outcome", JStr (if success then "success" else "failure"));
        ("duration", JSeconds duration);
        ("artifacts", JArr [JObj [("name", JStr "diff.patch"); ("path", JStr "diff.patch")];
                            JObj [("name", JStr "summary.md"); ("path", JStr "summary.md")];
                            JObj [("name", JStr "evidence"); ("path", JStr "evidence/")]])].

Definition failure_manifest (e : Exn) : json :=
  JObj [("status", JStr "completed");
        ("outcome", JStr "failure");
        ("error", JStr (exn_msg e))].

Definition fallback_summary (goal : pyval) (success : bool) (result : string) : string :=
  let display_goal := replace_char (ascii_of_N 10) " " (py_str goal) in
  "# Task Summary" +:+ newline +:+ newline +:+
  "Goal: " +:+ display_goal +:+ newline +:+ newline +:+
  "Outcome: " +:+ (if success then "Success" else "Failure") +:+ newline +:+ newline +:+
  "## Actions" +:+ newline +:+ result +:+ newline.

(** [d[key] = v] on an insertion-ordered dictionary *)
Fixpoint json_set (fields : list (string * json)) (key : string) (v : json) : list (string * json) :=
  match fields with
  | [] => [(key, v)]
  | (k, x) :: rest => if String.eqb k key then (k, v) :: rest else (k, x) :: json_set rest key v
  end.

(** [os.environ.get(a) or os.environ.get(b)] *)
Definition env_or (env : gmap string string) (a b : string) : option string :=
  if truthy (env !! a) then env !! a else env !! b.

Section Adapter.
Context (w : World).

(** Lines 98-113: git identity and the baseline commit. *)
Definition workspace_baseline : M unit :=
  subprocess_run w ["git"; "config"; "--global"; "--add"; "safe.directory"; "/holon/workspace"]
    false false;;
  subprocess_run w ["git"; "config"; "--global"; "user.name"; "holon-adapter"] false false;;
  subprocess_run w ["git"; "config"; "--global"; "user.email"; "adapter@holon.local"] false false;;
  s ← get;
  let has_git := path_exists s (path_join workspace_path ".git") in
  if negb has_git then
    print "No git repo found in workspace. Initializing temporary baseline...";;
    subprocess_run w ["git"; "init"] true false;;
    file_append w (path_join (st_cwd s) ".gitignore")
      (newline +:+ "__pycache__/" +:+ newline +:+ "*.pyc" +:+ newline +:+ "*.pyo" +:+ newline +:+
       ".DS_Store" +:+ newline);;
    subprocess_run w ["git"; "add"; "-A"] true false;;
    subprocess_run w ["git"; "commit"; "-m"; "holon-baseline"] true false;;
    mret tt
  else
    print "Existing git repo found. Baseline established.".

(** [json.load] of a file *)
Definition read_json (path : string) : M json :=
  s ← get;
  match st_files s !! path with
  | Some (Json j) => mret j
  | Some (Text t) =>
      match w_json_loads w t with
      | inr j => mret j
      | inl e => raise e
      end
  | None => raise (mkExn "IsADirectoryError" ("[Errno 21] Is a directory: " +:+ repr_str path))
  end.

(** Lines 116-141: copy the credentials of the environment into the Claude
    settings file, when there is one. *)
Definition sync_claude_settings : M unit :=
  s ← get;
  let claude_settings_path := w_settings_path w in
  if path_exists s claude_settings_path then
    try_except
      (settings ← read_json claude_settings_path;
       match settings with
       | JObj fields =>
           let auth_token := env_or (st_env s) "ANTHROPIC_AUTH_TOKEN" "ANTHROPIC_API_KEY" in
           let base_url := env_or (st_env s) "ANTHROPIC_BASE_URL" "ANTHROPIC_API_URL" in
           match default (JObj []) (json_get fields "env") with
           | JObj env0 =>
               let env1 :=
                 if truthy auth_token
                 then json_set (json_set env0 "ANTHROPIC_AUTH_TOKEN" (JStr (default "" auth_token)))
                               "ANTHROPIC_API_KEY" (JStr (default "" auth_token))
                 else env0 in
               let env2 :=
                 if truthy base_url
                 then json_set (json_set (json_set env1 "ANTHROPIC_BASE_URL" (JStr (default "" base_url)))
                                         "ANTHROPIC_API_URL" (JStr (default "" base_url)))
                               "CLAUDE_CODE_API_URL" (JStr (default "" base_url))
                 else env1 in
               let env3 := json_set env2 "IS_SANDBOX" (JStr "1") in
               open_write claude_settings_path;;
               json_dump claude_settings_path (JObj (json_set fields "env" (JObj env3)));;
               print ("Synced environment to " +:+ claude_settings_path)
           | _ => raise (mkExn "TypeError" "object does not support item assignment")
           end
       | _ => raise (mkExn "AttributeError" "object has no attribute 'get'")
       end)
      (λ e, print ("Warning: Failed to sync Claude settings: " +:+ exn_msg e))
  else mret tt.

(** [await client.connect()] *)
Definition client_connect : M unit :=
  wait (w_connect_wait w);;
  match w_connect w with
  | Some e => raise e
  | None => modify (emit EConnect)
  end.

(** [await client.query(prompt)] *)
Definition client_query (prompt : string) : M unit :=
  wait (w_query_wait w);;
  match w_query w with
  | Some e => raise e
  | None => modify (emit (EQuery prompt))
  end.

(** While the session runs, the agent may write its own summary into the
    output directory. *)
Definition agent_acts : M unit :=
  match w_agent_summary w with
  | Some text => modify (set_files (<[summary_out := Text text]>))
  | None => mret tt
  end.

(** Lines 173-185: the loop over [client.receive_response()]. The result
    is the pair of [final_output] and [success] when the loop is left. *)
Fixpoint receive_response (items : list (Z * Message)) (final_output : string) (success : bool)
  : M (string * bool) :=
  match items with
  | [] =>
      wait (w_stream_end_wait w);;
      match w_stream_end w with
      | Exhausted => mret (final_output, success)
      | Raises e => raise e
      | Stalls => hang
      end
  | (d, msg) :: rest =>
      wait d;;
      file_write w log_file_path (log_line w msg);;
      match msg with
      | AssistantMessage content =>
          receive_response rest (add_text_blocks content final_output) success
      | ResultMessage subtype is_error =>
          print ("Task result: " +:+ subtype +:+ ", is_error: " +:+ bool_str is_error);;
          mret (final_output, if is_error then false else success)
      | OtherMessage _ => receive_response rest final_output success
      end
  end.

(** Lines 164-190: connect, query and consume the response stream. The
    result is the pair of [result] and [success]. *)
Definition stream_phase (user_msg : string) : M (string * bool) :=
  print "Connecting to Claude Code...";;
  client_connect;;
  print "Session established. Running query...";;
  open_write log_file_path;;
  client_query user_msg;;
  agent_acts;;
  r ← receive_response (w_stream w) "" true;
  let result := fst r in
  let success := snd r in
  file_write w log_file_path (final_output_trailer result);;
  print ("Claude Code execution finished. Success: " +:+ bool_str success);;
  mret (result, success).

(** Lines 192-250: patch, manifest, summary and ownership. *)
Definition generate_artifacts (goal : pyval) (result : string) (success : bool) (start_time : Z)
  : M unit :=
  s ← get;
  let duration := st_clock s - start_time in
  subprocess_run w ["git"; "add"; "-A"] false false;;
  diff_proc ← subprocess_run w ["git"; "diff"; "--cached"; "--patch"; "--binary"; "--full-index"]
                false true;
  let patch_content := snd diff_proc in
  print ("Generated patch: size=" +:+ pretty (String.length patch_content) +:+ " characters");;
  open_write manifest_path;;
  json_dump manifest_path (success_manifest success duration);;
  open_write diff_path;;
  file_write w diff_path patch_content;;
  s ← get;
  summary_text ←
    (if path_exists s summary_out then
       print "Found user-generated summary.md in /holon/output.";;
       read_text w summary_out
     else
       print "No summary.md found. Falling back to execution log.";;
       mret (fallback_summary goal success result));
  open_write summary_out;;
  file_write w summary_out summary_text;;
  print ("Artifacts written to " +:+ output_dir);;
  fix_permissions w output_dir.

(** Lines 164-250: the body of the [try]. *)
Definition session_body (goal : pyval) (user_msg : string) (start_time : Z) : M unit :=
  r ← stream_phase user_msg;
  generate_artifacts goal (fst r) (snd r) start_time.

(** Lines 158-263: the session under its failure boundary. *)
Definition run_session (goal : pyval) (user_msg : string) : M unit :=
  s ← get;
  let start_time := st_clock s in
  try_except
    (session_body goal user_msg start_time)
    (λ e,
      print ("Execution failed: " +:+ exn_msg e);;
      open_write manifest_path;;
      json_dump manifest_path (failure_manifest e);;
      fix_permissions w output_dir;;
      sys_exit 1).

(** Lines 55-63: load the spec and take its goal. [spec.get] exists on a
    mapping only; the message of the [AttributeError] names the type of the
    value, which is not modelled. *)
Definition load_goal : M pyval :=
  spec_text ← read_text w spec_path;
  spec ← match w_yaml_load w spec_text with
         | inr v => mret v
         | inl e => raise e
         end;
  match spec with
  | PDict fields => mret (extract_goal fields)
  | _ => raise (mkExn "AttributeError" "object has no attribute 'get'")
  end.

Definition run_adapter : M unit :=
  print "Holon Claude Adapter Starting...";;
  makedirs output_dir;;
  makedirs evidence_dir;;
  s ← get;
  if negb (path_exists s spec_path) then
    print ("Error: Spec not found at " +:+ spec_path);;
    sys_exit 1
  else
    goal ← load_goal;
    print ("Task Goal: " +:+ py_str goal);;
    s ← get;
    if negb (path_exists s prompt_path) then
      print ("Error: Compiled system prompt not found at " +:+ prompt_path);;
      sys_exit 1
    else
      print ("Loading compiled system prompt from " +:+ prompt_path);;
      system_instruction ← read_text w prompt_path;
      s ← get;
      if negb (path_exists s user_prompt_path) then
        print ("Error: Compiled user prompt not found at " +:+ user_prompt_path);;
        sys_exit 1
      else
        print ("Loading compiled user prompt from " +:+ user_prompt_path);;
        user_msg ← read_text w user_prompt_path;
        chdir workspace_path;;
        modify (set_env (<["IS_SANDBOX" := "1"]>));;
        workspace_baseline;;
        sync_claude_settings;;
        run_session goal user_msg.

End Adapter.

(** ** Observations on a run *)

(** The documents dumped into [manifest.json], oldest first. *)
Definition manifest_dumps (t : list Effect) : list json :=
  flat_map (λ e, match e with
                 | EJsonDump p d => if String.eqb p manifest_path then [d] else []
                 | _ => []
                 end) t.

(** The paths opened for writing. *)
Definition opened_paths (t : list Effect) : list string :=
  flat_map (λ e, match e with EOpenWrite p => [p] | _ => [] end) t.

(** The entries whose owner was changed. *)
Definition chowned (t : list Effect) : list string :=
  flat_map (λ e, match e with EChown p _ _ => [p] | _ => [] end) t.

(** The subprocesses started. *)
Definition commands (t : list Effect) : list (list string) :=
  flat_map (λ e, match e with ERun argv => [argv] | _ => [] end) t.

Definition add_trace (t : list Effect) (s : State) : State :=
  mkState (st_env s) (st_files s) (st_dirs s) (st_commits s) (st_cwd s) (st_clock s)
          (st_trace s ++ t)%list.

(** Every entry the normalizer tries to re-own, in the order of the code:
    the directory, then per walked directory its sub-directories and its
    files. *)
Definition chown_targets (w : World) (directory : string) : list string :=
  directory ::
  flat_map (λ entry, match entry with
                     | (root, dirs, files) =>
                         (map (path_join root) dirs ++ map (path_join root) files)%list
                     end)
           (os_walk directory (w_tree w directory)).

(** The entries before the first one whose [chown] fails. *)
Fixpoint reowned (w : World) (uid gid : Z) (paths : list string) : list string :=
  match paths with
  | [] => []
  | p :: rest =>
      match w_chown_error w p uid gid with
      | Some _ => []
      | None => p :: reowned w uid gid rest
      end
  end.

(** The first [chown] error along the entries. *)
Fixpoint first_chown_error (w : World) (uid gid : Z) (paths : list string) : option Exn :=
  match paths with
  | [] => None
  | p :: rest =>
      match w_chown_error w p uid gid with
      | Some e => Some e
      | None => first_chown_error w uid gid rest
      end
  end.

(** * Specification-side definitions

    Closed forms of the loops, the states between the phases of a session,
    sample surroundings, and the claims in the form they are stated. *)

(** ** Ownership *)

(** The outcome of a sequence of [chown] calls over [paths]. *)
Definition chown_result (w : World) (uid gid : Z) (paths : list string) : Res unit :=
  match first_chown_error w uid gid paths with
  | Some e => Raise e
  | None => Ok tt
  end.

(** The ownership changes of a sequence of [chown] calls over [paths]. *)
Definition chown_effects (w : World) (uid gid : Z) (paths : list string) : list Effect :=
  map (λ p, EChown p uid gid) (reowned w uid gid paths).

(** [m] behaves as the calls [chown p uid gid] for [p] along [paths],
    stopping at the first error. *)
Definition chowns_along (w : World) (uid gid : Z) (m : M unit) (paths : list string) : Prop :=
  ∀ s, m s = (chown_result w uid gid paths, add_trace (chown_effects w uid gid paths) s).

(** What [fix_permissions] prints when an identity value does not parse. *)
Definition value_error_warning (text : string) : Effect :=
  EPrint ("Warning: Failed to fix permissions: " +:+
          "invalid literal for int() with base 10: " +:+ repr_str text).

(** The warning [fix_permissions] prints after a failed [chown]. *)
Definition chown_warning (w : World) (uid gid : Z) (paths : list string) : list Effect :=
  match first_chown_error w uid gid paths with
  | Some e => [EPrint ("Warning: Failed to fix permissions: " +:+ exn_msg e)]
  | None => []
  end.

(** A trace of prints and ownership changes only. *)
Definition quiet (t : list Effect) : Prop :=
  Forall (λ e, match e with EPrint _ | EChown _ _ _ => True | _ => False end) t.

(** ** Sample surroundings *)

(** A rendering of messages for the samples. *)
Definition render_msg (m : Message) : string :=
  match m with
  | AssistantMessage _ => "AssistantMessage"
  | ResultMessage subtype is_error =>
      "ResultMessage(subtype=" +:+ subtype +:+ ", is_error=" +:+ bool_str is_error +:+ ")"
  | OtherMessage shown => shown
  end.

(** A world in which the spec loads, every file reads, git succeeds with
    empty output, the output directory holds the adapter's files plus [a]
    and [b], and the rest is given. *)
Definition sample_world (connect : option Exn) (stream : list (Z * Message)) (ending : StreamEnd)
    (chown_error : string → option Exn) : World :=
  {| w_yaml_load := λ _, inr (PDict [("goal", PStr "Add a README")]);
     w_json_loads := λ _, inl (mkExn "JSONDecodeError" "Expecting value");
     w_json_dumps := λ _, "{}";
     w_settings_path := "/root/.claude/settings.json";
     w_proc := λ _ _, (0, "");
     w_decode_error := λ _ _, None;
     w_read_error := λ _, None;
     w_connect_wait := 0;
     w_connect := connect;
     w_query_wait := 0;
     w_query := None;
     w_stream := stream;
     w_stream_end_wait := 0;
     w_stream_end := ending;
     w_agent_summary := None;
     w_msg_str := render_msg;
     w_tree := λ _, [File "a"; File "b"];
     w_chown_error := λ p _ _, chown_error p |}.

(** An environment with the host identity set. *)
Definition host_env : gmap string string :=
  {[ "HOST_UID" := "1000"; "HOST_GID" := "1000" ]}.

(** A state with the three input files and the workspace directory. *)
Definition sample_state (env : gmap string string) : State :=
  {| st_env := env;
     st_files := {[ spec_path := Text "goal: Add a README";
                    prompt_path := Text "system";
                    user_prompt_path := Text "user" ]};
     st_dirs := {[ workspace_path ]};
     st_commits := [];
     st_cwd := "/";
     st_clock := 0;
     st_trace := [] |}.

(** The error of a refused [chown]. *)
Definition eperm : Exn := mkExn "PermissionError" "[Errno 1] Operation not permitted".

(** [chown] fails on [/holon/output/a] only. *)
Definition a_fails (p : string) : option Exn :=
  if String.eqb p "/holon/output/a" then Some eperm else None.

(** ** The claims on ownership and goal, as stated *)

(** C2 as stated: with both identities configured, every entry whose own
    [chown] does not fail ends up re-owned. *)
Definition every_other_entry_reowned (w : World) (directory : string) (s : State) : Prop :=
  ∀ us gs uid gid,
    st_env s !! "HOST_UID" = Some us → py_int us = Some uid →
    st_env s !! "HOST_GID" = Some gs → py_int gs = Some gid →
    ∀ p, In p (chown_targets w directory) →
         w_chown_error w p uid gid = None →
         In p (chowned (st_trace (snd (fix_permissions w directory s)))).

(** A host identity value that is set, not empty and not an integer. *)
Definition unparsable (value : option string) : Prop :=
  ∃ a r, value = Some (String a r) ∧ py_int (String a r) = None.

(** C9 as stated: a plain string is returned unchanged, the description of
    a mapping that has one is returned, and any other value is stringified. *)
Definition goal_as_claimed (spec : pydict) : Prop :=
  let goal_val := dict_get spec "goal" (PStr "") in
  match goal_val with
  | PStr s => extract_goal spec = PStr s
  | PDict d =>
      match dict_lookup d "description" with
      | Some v => extract_goal spec = v
      | None => extract_goal spec = PStr (py_str goal_val)
      end
  | _ => extract_goal spec = PStr (py_str goal_val)
  end.

(** ** The response loop *)

(** The items the loop takes from the stream: up to and including the
    first [ResultMessage]. *)
Fixpoint consumed (items : list (Z * Message)) : list (Z * Message) :=
  match items with
  | [] => []
  | (d, ResultMessage subtype is_error) :: _ => [(d, ResultMessage subtype is_error)]
  | item :: rest => item :: consumed rest
  end.

(** The [is_error] flag of the first [ResultMessage], if the stream has one. *)
Fixpoint terminal (items : list (Z * Message)) : option bool :=
  match items with
  | [] => None
  | (_, ResultMessage _ is_error) :: _ => Some is_error
  | _ :: rest => terminal rest
  end.

(** [final_output] after the messages [msgs]. *)
Definition accumulate (msgs : list Message) (final_output : string) : string :=
  fold_left (λ acc m, match m with
                      | AssistantMessage content => add_text_blocks content acc
                      | _ => acc
                      end) msgs final_output.

(** The state after one message was taken after a wait of [d]. *)
Definition message_state (w : World) (d : Z) (msg : Message) (s : State) : State :=
  let s1 := set_clock (λ t, t + d) s in
  let s2 := emit (EWrite log_file_path (log_line w msg))
              (set_files (λ fs, <[log_file_path :=
                                   Text (text_of w (fs !! log_file_path) +:+ log_line w msg)]> fs) s1) in
  match msg with
  | ResultMessage subtype is_error =>
      emit (EPrint ("Task result: " +:+ subtype +:+ ", is_error: " +:+ bool_str is_error)) s2
  | _ => s2
  end.

(** The state when the loop is left (or hangs). *)
Fixpoint loop_state (w : World) (items : list (Z * Message)) (s : State) : State :=
  match items with
  | [] => set_clock (λ t, t + w_stream_end_wait w) s
  | (d, ResultMessage subtype is_error) :: _ =>
      message_state w d (ResultMessage subtype is_error) s
  | (d, msg) :: rest => loop_state w rest (message_state w d msg s)
  end.

(** How the loop ends, and with which [final_output] and [success]. *)
Definition loop_result (w : World) (items : list (Z * Message)) (final_output : string)
    (success : bool) : Res (string * bool) :=
  match terminal items with
  | Some is_error =>
      Ok (accumulate (map snd (consumed items)) final_output,
          if is_error then false else success)
  | None =>
      match w_stream_end w with
      | Exhausted => Ok (accumulate (map snd (consumed items)) final_output, success)
      | Raises e => Raise e
      | Stalls => Hang
      end
  end.

(** The effects of the loop. *)
Definition loop_trace (w : World) (items : list (Z * Message)) : list Effect :=
  flat_map (λ item, match snd item with
                    | ResultMessage subtype is_error =>
                        [EWrite log_file_path (log_line w (snd item));
                         EPrint ("Task result: " +:+ subtype +:+ ", is_error: " +:+
                                 bool_str is_error)]
                    | msg => [EWrite log_file_path (log_line w msg)]
                    end) (consumed items).

(** The lines the loop writes to the evidence log. *)
Definition log_lines (w : World) (items : list (Z * Message)) : string :=
  fold_right (λ item text, log_line w (snd item) +:+ text) "" (consumed items).

(** ** The states of a session *)

(** The state in which [client.connect()] returns or raises. *)
Definition connecting_state (w : World) (s : State) : State :=
  set_clock (λ t, t + w_connect_wait w) (emit (EPrint "Connecting to Claude Code...") s).

(** The state in which [client.query()] returns or raises. *)
Definition querying_state (w : World) (s : State) : State :=
  set_clock (λ t, t + w_query_wait w)
    (emit (EOpenWrite log_file_path)
       (set_files (<[log_file_path := Text ""]>)
          (emit (EPrint "Session established. Running query...")
             (emit EConnect (connecting_state w s))))).

(** The agent's own summary, if it wrote one. *)
Definition agent_state (w : World) (s : State) : State :=
  match w_agent_summary w with
  | Some text => set_files (<[summary_out := Text text]>) s
  | None => s
  end.

(** The state in which the loop over the stream starts. *)
Definition streaming_state (w : World) (user_msg : string) (s : State) : State :=
  agent_state w (emit (EQuery user_msg) (querying_state w s)).

(** The state after the final output was logged and announced. *)
Definition finished_state (w : World) (result : string) (success : bool) (s : State) : State :=
  emit (EPrint ("Claude Code execution finished. Success: " +:+ bool_str success))
    (emit (EWrite log_file_path (final_output_trailer result))
       (set_files (λ fs, <[log_file_path :=
                            Text (text_of w (fs !! log_file_path) +:+ final_output_trailer result)]> fs)
          s)).


(** ** Manifests and session errors *)




(** The error of a refused connection. *)
Definition connection_refused : Exn := mkExn "CLIConnectionError" "Connection refused".

(** A session error: the connection fails, the query fails, or the stream
    raises before a result arrived. *)
Inductive session_error (w : World) : Exn → Prop :=
| connect_error (e : Exn) :
    w_connect w = Some e → session_error w e
| query_error (e : Exn) :
    w_connect w = None → w_query w = Some e → session_error w e
| stream_error (e : Exn) :
    w_connect w = None → w_query w = None →
    terminal (w_stream w) = None → w_stream_end w = Raises e → session_error w e.


(** ** Accumulated text, streams and time *)

(** The text payloads of the [TextBlock]s of a message, in order. *)
Definition block_texts (content : list ContentBlock) : list string :=
  flat_map (λ b, match b with TextBlock t => [t] | _ => [] end) content.

(** The text payloads of a sequence of messages, in order. *)
Definition text_payloads (msgs : list Message) : list string :=
  flat_map (λ m, match m with AssistantMessage content => block_texts content | _ => [] end) msgs.

(** Concatenation of strings, in order. *)
Definition concat_strings (l : list string) : string := fold_right String.append "" l.

(** The world [w] with another response stream. *)
Definition with_stream (w : World) (items : list (Z * Message)) (end_wait : Z)
    (ending : StreamEnd) : World :=
  mkWorld (w_yaml_load w) (w_json_loads w) (w_json_dumps w) (w_settings_path w) (w_proc w)
          (w_decode_error w) (w_read_error w)
          (w_connect_wait w) (w_connect w) (w_query_wait w) (w_query w)
          items end_wait ending
          (w_agent_summary w) (w_msg_str w) (w_tree w) (w_chown_error w).

(** A stream with every wait set to zero. *)
Definition zero_waits (items : list (Z * Message)) : list (Z * Message) :=
  map (λ item, (0, snd item)) items.

(** The world [w] with every wait set to zero. *)
Definition untimed (w : World) : World :=
  mkWorld (w_yaml_load w) (w_json_loads w) (w_json_dumps w) (w_settings_path w) (w_proc w)
          (w_decode_error w) (w_read_error w)
          0 (w_connect w) 0 (w_query w)
          (zero_waits (w_stream w)) 0 (w_stream_end w)
          (w_agent_summary w) (w_msg_str w) (w_tree w) (w_chown_error w).

(** A state without its clock. *)
Definition clock_erased (s : State) : State := set_clock (λ _, 0) s.

(** The outcome recorded in [manifest.json]. *)
Definition manifest_outcome (s : State) : option json :=
  match st_files s !! manifest_path with
  | Some (Json m) => json_field m "outcome"
  | _ => None
  end.

(** The configured idle timeout, in microseconds. *)
Definition idle_timeout_micros (s : State) : Z :=
  default 1800 (HolonConfig.get_env_idle_timeout_seconds (st_env s)) * 1000000.

(** The configured total timeout, in microseconds. *)
Definition total_timeout_micros (s : State) : Z :=
  default 7200 (HolonConfig.get_env_total_timeout_seconds (st_env s)) * 1000000.

(** Time spent in the streaming phase when the whole stream is consumed. *)
Definition stream_elapsed (w : World) : Z :=
  fold_right (λ item acc, fst item + acc) (w_stream_end_wait w) (w_stream w).

(** C1 as stated: once the session streams, a wait longer than the idle
    timeout, or a streaming phase longer than the total timeout, makes the
    run end with outcome ["failure"]. *)
Definition timeouts_enforced (w : World) (goal : pyval) (user_msg : string) (s : State) : Prop :=
  w_connect w = None → w_query w = None →
  Exists (λ item, idle_timeout_micros s < fst item) (w_stream w) ∨
  idle_timeout_micros s < w_stream_end_wait w ∨
  total_timeout_micros s < stream_elapsed w →
  manifest_outcome (snd (run_session w goal user_msg s)) = Some (JStr "failure").

(** ** Closed forms for the whole run *)

(** The state after [open(path, 'w')]. *)
Definition open_write_state (path : string) (s : State) : State :=
  emit (EOpenWrite path) (set_files (<[path := Text ""]>) s).

(** The state after [f.write(text)]. *)
Definition file_write_state (w : World) (path text : string) (s : State) : State :=
  emit (EWrite path text)
    (set_files (λ fs, <[path := Text (text_of w (fs !! path) +:+ text)]> fs) s).

(** The state after [json.dump(doc, f, indent=2)]. *)
Definition json_dump_state (path : string) (doc : json) (s : State) : State :=
  emit (EJsonDump path doc) (set_files (<[path := Json doc]>) s).

(** The prompts sent by [client.query]. *)
Definition queries (t : list Effect) : list string :=
  flat_map (λ e, match e with EQuery p => [p] | _ => [] end) t.

(** ** Loading the inputs *)

(** The mapping the spec file loads to, when it is a file that reads and
    loads to a mapping. *)
Definition loaded_spec (w : World) (s : State) : option pydict :=
  match st_files s !! spec_path, w_read_error w spec_path with
  | Some c, None =>
      match w_yaml_load w (text_of w (Some c)) with
      | inr (PDict fields) => Some fields
      | _ => None
      end
  | _, _ => None
  end.

(** The path is a file that reads as text. *)
Definition readable (w : World) (s : State) (path : string) : Prop :=
  is_Some (st_files s !! path) ∧ w_read_error w path = None.

(** The three inputs load and the workspace directory exists: the run
    reaches the workspace baseline. *)
Definition inputs_load (w : World) (s : State) : Prop :=
  is_Some (loaded_spec w s) ∧
  readable w s prompt_path ∧
  readable w s user_prompt_path ∧
  workspace_path ∈ st_dirs s.

(** The state in which [run_adapter] reaches the workspace baseline, when
    its inputs load. *)
Definition preflight_state (w : World) (s : State) : State :=
  let goal := extract_goal (default [] (loaded_spec w s)) in
  set_env (<["IS_SANDBOX" := "1"]>)
    (emit (EChdir workspace_path)
       (set_cwd workspace_path
          (emit (EPrint ("Loading compiled user prompt from " +:+ user_prompt_path))
             (emit (EPrint ("Loading compiled system prompt from " +:+ prompt_path))
                (emit (EPrint ("Task Goal: " +:+ py_str goal))
                   (emit (EMakedirs evidence_dir)
                      (set_dirs (λ d, {[evidence_dir]} ∪ d)
                         (emit (EMakedirs output_dir)
                            (set_dirs (λ d, {[output_dir]} ∪ d)
                               (emit (EPrint "Holon Claude Adapter Starting...") s)))))))))).

(** The goal and the user prompt [run_adapter] hands to the session. *)
Definition spec_goal (w : World) (s : State) : pyval :=
  extract_goal (default [] (loaded_spec w s)).

Definition user_prompt (w : World) (s : State) : string :=
  text_of w (st_files s !! user_prompt_path).

(** The three input files exist. *)
Definition inputs_present (s : State) : Prop :=
  path_exists s spec_path = true ∧
  path_exists s prompt_path = true ∧
  path_exists s user_prompt_path = true.

(** The command line of the patch. *)
Definition diff_argv : list string :=
  ["git"; "diff"; "--cached"; "--patch"; "--binary"; "--full-index"].

(** ** The claims on the outcome, as stated *)



(** The error of decoding bytes that are no UTF-8. *)
Definition invalid_utf8 : Exn :=
  mkExn "UnicodeDecodeError"
        "'utf-8' codec can't decode byte 0xff in position 0: invalid start byte".

(** The world [w] in which the output of [git diff] does not decode: a
    text file in an encoding other than UTF-8 is staged, and the patch
    holds its lines byte for byte. *)
Definition with_undecodable_diff (w : World) : World :=
  mkWorld (w_yaml_load w) (w_json_loads w) (w_json_dumps w) (w_settings_path w) (w_proc w)
          (λ n argv, if decide (argv = diff_argv) then Some invalid_utf8
                     else w_decode_error w n argv)
          (w_read_error w)
          (w_connect_wait w) (w_connect w) (w_query_wait w) (w_query w)
          (w_stream w) (w_stream_end_wait w) (w_stream_end w)
          (w_agent_summary w) (w_msg_str w) (w_tree w) (w_chown_error w).

(** The standard output of the patch command, the second subprocess of
    artifact generation. *)
Definition patch_of (w : World) (s : State) : string :=
  snd (w_proc w (S (run_count (st_trace s))) diff_argv).

(** The text written to [summary.md]. *)
Definition summary_text_of (w : World) (goal : pyval) (result : string) (success : bool)
    (s : State) : string :=
  if path_exists s summary_out then text_of w (st_files s !! summary_out)
  else fallback_summary goal success result.

(** The state in which the permission normalizer starts on the success
    path. *)
Definition artifact_state (w : World) (goal : pyval) (result : string) (success : bool)
    (start_time : Z) (s : State) : State :=
  let patch := patch_of w s in
  let s1 := emit (EPrint ("Generated patch: size=" +:+ pretty (String.length patch) +:+
                          " characters"))
              (emit (ERun diff_argv) (emit (ERun ["git"; "add"; "-A"]) s)) in
  let s2 := json_dump_state manifest_path (success_manifest success (st_clock s - start_time))
              (open_write_state manifest_path s1) in
  let s3 := file_write_state w diff_path patch (open_write_state diff_path s2) in
  let s4 := emit (EPrint (if path_exists s summary_out
                          then "Found user-generated summary.md in /holon/output."
                          else "No summary.md found. Falling back to execution log.")) s3 in
  let s5 := file_write_state w summary_out (summary_text_of w goal result success s)
              (open_write_state summary_out s4) in
  emit (EPrint ("Artifacts written to " +:+ output_dir)) s5.

(** The state in which the permission normalizer starts on the failure
    path. *)
Definition failure_state (e : Exn) (s : State) : State :=
  json_dump_state manifest_path (failure_manifest e)
    (open_write_state manifest_path (emit (EPrint ("Execution failed: " +:+ exn_msg e)) s)).

(** ** Errors of artifact generation *)

(** The error of decoding the output of [git diff], the second subprocess
    of artifact generation, if it does not decode. *)
Definition diff_decode_error (w : World) (s : State) : option Exn :=
  w_decode_error w (S (run_count (st_trace s))) diff_argv.

(** The error of reading a [summary.md] that exists, if it cannot be read:
    it is a directory, or what it holds does not decode. *)
Definition summary_read_error (w : World) (s : State) : option Exn :=
  if path_exists s summary_out then
    match st_files s !! summary_out with
    | Some _ => w_read_error w summary_out
    | None => Some (open_error s summary_out)
    end
  else None.

(** The error that ends artifact generation, if any: the patch is made
    before the summary is read. *)
Definition artifact_error (w : World) (s : State) : option Exn :=
  match diff_decode_error w s with
  | Some e => Some e
  | None => summary_read_error w s
  end.

(** The state in which [git diff] has run. *)
Definition staged_state (s : State) : State :=
  emit (ERun diff_argv) (emit (ERun ["git"; "add"; "-A"]) s).

(** The state in which an existing [summary.md] is read: the manifest of
    the success path and the patch are written. *)
Definition unread_state (w : World) (success : bool) (start_time : Z) (s : State) : State :=
  let patch := patch_of w s in
  emit (EPrint "Found user-generated summary.md in /holon/output.")
    (file_write_state w diff_path patch
       (open_write_state diff_path
          (json_dump_state manifest_path (success_manifest success (st_clock s - start_time))
             (open_write_state manifest_path
                (emit (EPrint ("Generated patch: size=" +:+ pretty (String.length patch) +:+
                               " characters"))
                   (staged_state s)))))).

(** The state in which artifact generation raises. *)
Definition failed_artifacts_state (w : World) (success : bool) (start_time : Z) (s : State)
  : State :=
  match diff_decode_error w s with
  | Some _ => staged_state s
  | None => unread_state w success start_time s
  end.

(** Wall-clock time the loop spends: the waits of the consumed messages,
    and the final wait when no result arrives. *)
Fixpoint loop_elapsed (w : World) (items : list (Z * Message)) : Z :=
  match items with
  | [] => w_stream_end_wait w
  | (d, ResultMessage _ _) :: _ => d
  | (d, _) :: rest => d + loop_elapsed w rest
  end.

(** Sum of a list of waits. *)
Definition total_wait (items : list (Z * Message)) : Z :=
  fold_right (λ item acc, fst item + acc) 0 items.

(** The ignore patterns of the baseline. *)
Definition gitignore_patterns : string :=
  newline +:+ "__pycache__/" +:+ newline +:+ "*.pyc" +:+ newline +:+ "*.pyo" +:+ newline +:+
  ".DS_Store" +:+ newline.

(** The [env] section [sync_claude_settings] writes, from the environment
    and the section [env0] it found. *)
Definition synced_env (env : gmap string string) (env0 : list (string * json))
  : list (string * json) :=
  let auth_token := env_or env "ANTHROPIC_AUTH_TOKEN" "ANTHROPIC_API_KEY" in
  let base_url := env_or env "ANTHROPIC_BASE_URL" "ANTHROPIC_API_URL" in
  let env1 :=
    if truthy auth_token
    then json_set (json_set env0 "ANTHROPIC_AUTH_TOKEN" (JStr (default "" auth_token)))
                  "ANTHROPIC_API_KEY" (JStr (default "" auth_token))
    else env0 in
  let env2 :=
    if truthy base_url
    then json_set (json_set (json_set env1 "ANTHROPIC_BASE_URL" (JStr (default "" base_url)))
                            "ANTHROPIC_API_URL" (JStr (default "" base_url)))
                  "CLAUDE_CODE_API_URL" (JStr (default "" base_url))
    else env1 in
  json_set env2 "IS_SANDBOX" (JStr "1").

(** ** Directory trees *)

(** The path of an entry under the directory [top]. *)
Definition entry_path (top : string) (t : Tree) : string :=
  match t with
  | File n => path_join top n
  | Dir n _ => path_join top n
  end.

(** Every entry of a tree under [top], each once: the entry, then what is
    below it. *)
Fixpoint tree_paths (top : string) (t : Tree) : list string :=
  match t with
  | File n => [path_join top n]
  | Dir n children => path_join top n :: flat_map (tree_paths (path_join top n)) children
  end.

(** The entries one triple of [os.walk] makes the normalizer re-own. *)
Definition walked_entries (entry : string * list string * list string) : list string :=
  match entry with
  | (root, dirs, files) => map (path_join root) dirs ++ map (path_join root) files
  end.

(** What [json.load] returns for the Claude settings file, when it
    returns. *)
Definition loaded_settings (w : World) (s : State) : option json :=
  match st_files s !! w_settings_path w with
  | Some (Json j) => Some j
  | Some (Text t) =>
      match w_json_loads w t with
      | inr j => Some j
      | inl _ => None
      end
  | None => None
  end.

(** The keys of the [env] section the sync may assign. *)
Definition synced_keys : list string :=
  ["ANTHROPIC_AUTH_TOKEN"; "ANTHROPIC_API_KEY"; "ANTHROPIC_BASE_URL"; "ANTHROPIC_API_URL";
   "CLAUDE_CODE_API_URL"; "IS_SANDBOX"].

(** A state with a Claude settings file and a token in the environment. *)
Definition settings_state : State :=
  set_files (<["/root/.claude/settings.json" :=
                Json (JObj [("theme", JStr "dark"); ("env", JObj [("EDITOR", JStr "vi")])])]>)
    (sample_state {[ "ANTHROPIC_API_KEY" := "sk-test" ]}).

(** ** What the preparatory phases leave alone *)

(** [s'] has the environment and the working directory of [s], at least
    its directories, and no query or ownership change beyond those of
    [s]. *)
Definition same_process (s s' : State) : Prop :=
  st_env s' = st_env s ∧
  st_cwd s' = st_cwd s ∧
  st_dirs s ⊆ st_dirs s' ∧
  queries (st_trace s') = queries (st_trace s) ∧
  chowned (st_trace s') = chowned (st_trace s).

(** A computation that keeps the process as it is and neither exits nor
    hangs. *)
Definition preparatory {A} (m : M A) : Prop :=
  ∀ s, same_process s (snd (m s)) ∧ (∀ c, fst (m s) ≠ Exit c) ∧ fst (m s) ≠ Hang.

(** The lines printed to standard output. *)
Definition printed (t : list Effect) : list string :=
  flat_map (λ e, match e with EPrint line => [line] | _ => [] end) t.

(** ** The preamble of a run *)

(** What the preamble of [run_adapter] leaves alone: everything but the two
    output directories it creates and the lines it prints. *)
Definition only_prepared (s s' : State) : Prop :=
  st_env s' = st_env s ∧
  st_files s' = st_files s ∧
  st_commits s' = st_commits s ∧
  st_cwd s' = st_cwd s ∧
  st_clock s' = st_clock s ∧
  st_dirs s' = {[evidence_dir]} ∪ ({[output_dir]} ∪ st_dirs s) ∧
  ∃ t, st_trace s' = st_trace s ++ t ∧
       Forall (λ e, match e with EPrint _ | EMakedirs _ => True | _ => False end) t.

(** The run reaches a missing input file before any input that fails to
    load: the spec file is missing, or it loads and the system prompt is
    missing, or both load and the user prompt is missing. *)
Definition exits_on_missing_input (w : World) (s : State) : Prop :=
  path_exists s spec_path = false ∨
  (is_Some (loaded_spec w s) ∧
   (path_exists s prompt_path = false ∨
    (readable w s prompt_path ∧ path_exists s user_prompt_path = false))).

(** The world [w] in which the spec file is no YAML document. *)
Definition with_yaml_error (w : World) : World :=
  mkWorld (λ _, inl (mkExn "YAMLError" "could not parse the spec"))
          (w_json_loads w) (w_json_dumps w) (w_settings_path w) (w_proc w)
          (w_decode_error w) (w_read_error w)
          (w_connect_wait w) (w_connect w) (w_query_wait w) (w_query w)
          (w_stream w) (w_stream_end_wait w) (w_stream_end w)
          (w_agent_summary w) (w_msg_str w) (w_tree w) (w_chown_error w).

(** The world [w] in which [git init] fails. *)
Definition with_failing_init (w : World) : World :=
  mkWorld (w_yaml_load w) (w_json_loads w) (w_json_dumps w) (w_settings_path w)
          (λ n argv, if decide (argv = ["git"; "init"]) then (128, "") else w_proc w n argv)
          (w_decode_error w) (w_read_error w)
          (w_connect_wait w) (w_connect w) (w_query_wait w) (w_query w)
          (w_stream w) (w_stream_end_wait w) (w_stream_end w)
          (w_agent_summary w) (w_msg_str w) (w_tree w) (w_chown_error w).

(** An environment variable that [or] skips: unset, or set to the empty
    string. *)
Definition unset_or_empty (o : option string) : Prop := o = None ∨ o = Some "".

(** * Properties *)

(** ** Stepping through the monad *)

Lemma add_trace_nil (s : State) : add_trace [] s = s.
Proof. destruct s. unfold add_trace. simpl. by rewrite app_nil_r. Qed.

Lemma add_trace_emit (e : Effect) (t : list Effect) (s : State) :
  add_trace t (emit e s) = add_trace (e :: t) s.
Proof. unfold add_trace, emit. simpl. by rewrite <- app_assoc. Qed.

Lemma add_trace_add_trace (t1 t2 : list Effect) (s : State) :
  add_trace t2 (add_trace t1 s) = add_trace (t1 ++ t2) s.
Proof. unfold add_trace. simpl. by rewrite <- app_assoc. Qed.

Lemma st_trace_add_trace (t : list Effect) (s : State) :
  st_trace (add_trace t s) = st_trace s ++ t.
Proof. reflexivity. Qed.

Lemma emit_add_trace (e : Effect) (s : State) : emit e s = add_trace [e] s.
Proof. reflexivity. Qed.

Lemma manifest_dumps_app (t1 t2 : list Effect) :
  manifest_dumps (t1 ++ t2) = manifest_dumps t1 ++ manifest_dumps t2.
Proof. apply flat_map_app. Qed.

Lemma opened_paths_app (t1 t2 : list Effect) :
  opened_paths (t1 ++ t2) = opened_paths t1 ++ opened_paths t2.
Proof. apply flat_map_app. Qed.

Lemma chowned_app (t1 t2 : list Effect) : chowned (t1 ++ t2) = chowned t1 ++ chowned t2.
Proof. apply flat_map_app. Qed.

Lemma commands_app (t1 t2 : list Effect) : commands (t1 ++ t2) = commands t1 ++ commands t2.
Proof. apply flat_map_app. Qed.

(** ** The permission normalizer *)

Section ChownLoops.
Context (w : World) (uid gid : Z).

Lemma first_chown_error_app (l1 l2 : list string) :
  first_chown_error w uid gid (l1 ++ l2) =
  match first_chown_error w uid gid l1 with
  | Some e => Some e
  | None => first_chown_error w uid gid l2
  end.
Proof.
  induction l1 as [|p l1 IH]; simpl; [done|].
  destruct (w_chown_error w p uid gid); [done | apply IH].
Qed.

Lemma reowned_app (l1 l2 : list string) :
  reowned w uid gid (l1 ++ l2) =
  reowned w uid gid l1 ++
  match first_chown_error w uid gid l1 with
  | Some _ => []
  | None => reowned w uid gid l2
  end.
Proof.
  induction l1 as [|p l1 IH]; simpl; [done|].
  destruct (w_chown_error w p uid gid); [done|]. by rewrite IH.
Qed.

Lemma chowns_along_nil : chowns_along w uid gid (mret tt) [].
Proof. intros s. unfold chown_result, chown_effects. simpl. by rewrite add_trace_nil. Qed.

Lemma chowns_along_one (p : string) : chowns_along w uid gid (chown w p uid gid) [p].
Proof.
  intros s. unfold chown, chown_result, chown_effects. simpl.
  destruct (w_chown_error w p uid gid); simpl; [by rewrite add_trace_nil | done].
Qed.

Lemma chowns_along_seq (m1 m2 : M unit) (l1 l2 : list string) :
  chowns_along w uid gid m1 l1 → chowns_along w uid gid m2 l2 → chowns_along w uid gid (m1;; m2) (l1 ++ l2).
Proof.
  intros H1 H2 s. unfold mbind, M_bind. rewrite H1.
  unfold chown_result, chown_effects.
  rewrite first_chown_error_app, reowned_app.
  destruct (first_chown_error w uid gid l1) as [e|]; simpl.
  - by rewrite app_nil_r.
  - rewrite H2. unfold chown_result, chown_effects.
    by rewrite add_trace_add_trace, map_app.
Qed.

Lemma chowns_along_for_each {A} (xs : list A) (body : A → M unit) (g : A → list string) :
  (∀ x, chowns_along w uid gid (body x) (g x)) → chowns_along w uid gid (for_each xs body) (flat_map g xs).
Proof.
  intros Hbody. induction xs as [|x xs IH]; simpl.
  - apply chowns_along_nil.
  - by apply chowns_along_seq.
Qed.

Lemma flat_map_singleton {A B} (f : A → B) (l : list A) : flat_map (λ x, [f x]) l = map f l.
Proof. induction l; simpl; congruence. Qed.

Lemma chowns_along_names (root : string) (names : list string) :
  chowns_along w uid gid (for_each names (λ n, chown w (path_join root n) uid gid))
               (map (path_join root) names).
Proof.
  rewrite <- flat_map_singleton.
  apply chowns_along_for_each. intros n. apply chowns_along_one.
Qed.

(** The traversal of both normalizers: one [chown] per target, in order,
    up to the first error. *)
Lemma chown_walk_along (directory : string) :
  chowns_along w uid gid (chown_walk w directory uid gid) (chown_targets w directory).
Proof.
  unfold chown_walk, chown_targets.
  apply (chowns_along_seq _ _ [directory]); [apply chowns_along_one|].
  apply chowns_along_for_each. intros [[root dirs] files].
  apply chowns_along_seq; apply chowns_along_names.
Qed.

End ChownLoops.

(** [fix_permissions] in closed form, case by case. *)
Lemma fix_permissions_cases (w : World) (directory : string) (s : State) :
  fix_permissions w directory s =
  match st_env s !! "HOST_UID", st_env s !! "HOST_GID" with
  | Some (String a u), Some (String b g) =>
      match py_int (String a u), py_int (String b g) with
      | Some uid, Some gid =>
          (Ok tt,
           add_trace (EPrint ("Fixing permissions for " +:+ directory +:+ " to " +:+
                              pretty uid +:+ ":" +:+ pretty gid)
                      :: chown_effects w uid gid (chown_targets w directory)
                      ++ chown_warning w uid gid (chown_targets w directory)) s)
      | Some _, None => (Ok tt, add_trace [value_error_warning (String b g)] s)
      | None, _ => (Ok tt, add_trace [value_error_warning (String a u)] s)
      end
  | _, _ => (Ok tt, s)
  end.
Proof.
  unfold fix_permissions, mbind, M_bind, get. simpl.
  destruct (st_env s !! "HOST_UID") as [[|a u]|]; simpl; try done.
  destruct (st_env s !! "HOST_GID") as [[|b g]|]; simpl; try done.
  unfold try_except, int_, mbind, M_bind.
  destruct (py_int (String a u)) as [uid|]; simpl; [|done].
  destruct (py_int (String b g)) as [gid|]; simpl; [|done].
  rewrite (chown_walk_along w uid gid directory).
  unfold chown_result, chown_warning.
  rewrite add_trace_emit.
  destruct (first_chown_error w uid gid (chown_targets w directory)); simpl.
  - unfold print, modify. by rewrite emit_add_trace, add_trace_add_trace.
  - by rewrite app_nil_r.
Qed.


Lemma chown_effects_quiet (w : World) (uid gid : Z) (paths : list string) :
  quiet (chown_effects w uid gid paths).
Proof. unfold quiet, chown_effects. apply Forall_map, Forall_forall. by intros. Qed.

(** [fix_permissions] always returns, and it only prints and re-owns. *)
Lemma fix_permissions_frame (w : World) (directory : string) (s : State) :
  ∃ t, fix_permissions w directory s = (Ok tt, add_trace t s) ∧ quiet t.
Proof.
  rewrite fix_permissions_cases.
  destruct (st_env s !! "HOST_UID") as [[|a u]|];
    try (exists []; rewrite add_trace_nil; split; [done | constructor]).
  destruct (st_env s !! "HOST_GID") as [[|b g]|];
    try (exists []; rewrite add_trace_nil; split; [done | constructor]).
  destruct (py_int (String a u)) as [uid|]; [destruct (py_int (String b g)) as [gid|]|];
    eexists; (split; [reflexivity|]).
  - constructor; [done|]. apply Forall_app. split; [apply chown_effects_quiet|].
    unfold chown_warning. destruct (first_chown_error _ _ _ _); repeat constructor.
  - repeat constructor.
  - repeat constructor.
Qed.

Lemma chowned_chown_effects (w : World) (uid gid : Z) (paths : list string) :
  chowned (chown_effects w uid gid paths) = reowned w uid gid paths.
Proof.
  unfold chowned, chown_effects. induction (reowned w uid gid paths); simpl; congruence.
Qed.

Lemma chowned_chown_warning (w : World) (uid gid : Z) (paths : list string) :
  chowned (chown_warning w uid gid paths) = [].
Proof. unfold chown_warning. by destruct (first_chown_error _ _ _ _). Qed.

(** The entries re-owned are those before the first failing one. *)
Lemma reowned_until_failure (w : World) (uid gid : Z) (pre post : list string) (p : string) (e : Exn) :
  (∀ q, In q pre → w_chown_error w q uid gid = None) →
  w_chown_error w p uid gid = Some e →
  reowned w uid gid (pre ++ p :: post) = pre ∧
  first_chown_error w uid gid (pre ++ p :: post) = Some e.
Proof.
  intros Hpre Hp. induction pre as [|q pre IH]; simpl.
  - by rewrite Hp.
  - rewrite (Hpre q) by (by left).
    destruct IH as [-> ->]; [|done]. intros q' Hq'. apply Hpre. by right.
Qed.

Lemma reowned_all (w : World) (uid gid : Z) (paths : list string) :
  (∀ q, In q paths → w_chown_error w q uid gid = None) →
  reowned w uid gid paths = paths ∧ first_chown_error w uid gid paths = None.
Proof.
  intros Hall. induction paths as [|q paths IH]; simpl; [done|].
  rewrite (Hall q) by (by left).
  destruct IH as [-> ->]; [|done]. intros q' Hq'. apply Hall. by right.
Qed.

Lemma py_int_some_nonempty (text : string) (z : Z) :
  py_int text = Some z → ∃ a r, text = String a r.
Proof. destruct text; [discriminate | eauto]. Qed.

(** *** C2 *)

(** C2, counterexample: the output directory holds [a] and [b], [chown]
    fails on [a]; the whole traversal sits in one [try], so [b] is never
    visited although its own [chown] would succeed. *)
Lemma fix_permissions_skips_after_failure :
  ¬ every_other_entry_reowned (sample_world None [] Exhausted a_fails) output_dir
      (sample_state host_env).
Proof.
  intros H.
  assert (Hin : In "/holon/output/b"
                  (chowned (st_trace (snd (fix_permissions
                     (sample_world None [] Exhausted a_fails) output_dir
                     (sample_state host_env)))))).
  { apply (H "1000" "1000" 1000 1000); try reflexivity. vm_compute. auto. }
  vm_compute in Hin. destruct Hin as [Hin|[]]. discriminate Hin.
Qed.

(** C2, amended: with both identities configured, [fix_permissions] never
    raises; a [chown] failure is caught and printed as a warning, and it
    ends the traversal: exactly the entries before the first failing one
    (the directory first, then per walked directory its sub-directories and
    files) are re-owned. Without a failure every entry is re-owned. *)
Theorem fix_permissions_stops_at_first_failure
    (w : World) (directory : string) (s : State) (us gs : string) (uid gid : Z) :
  st_env s !! "HOST_UID" = Some us → py_int us = Some uid →
  st_env s !! "HOST_GID" = Some gs → py_int gs = Some gid →
  let r := fix_permissions w directory s in
  fst r = Ok tt ∧
  st_files (snd r) = st_files s ∧
  ((∀ q, In q (chown_targets w directory) → w_chown_error w q uid gid = None) →
   chowned (st_trace (snd r)) = chowned (st_trace s) ++ chown_targets w directory) ∧
  (∀ pre p post e,
     chown_targets w directory = pre ++ p :: post →
     (∀ q, In q pre → w_chown_error w q uid gid = None) →
     w_chown_error w p uid gid = Some e →
     chowned (st_trace (snd r)) = chowned (st_trace s) ++ pre ∧
     last (st_trace (snd r)) =
       Some (EPrint ("Warning: Failed to fix permissions: " +:+ exn_msg e))).
Proof.
  intros Hu Hpu Hg Hpg r. subst r.
  destruct (py_int_some_nonempty _ _ Hpu) as (a & u & ->).
  destruct (py_int_some_nonempty _ _ Hpg) as (b & g & ->).
  rewrite fix_permissions_cases, Hu, Hg, Hpu, Hpg. cbn [fst snd].
  rewrite st_trace_add_trace.
  split; [done|]. split; [done|]. split.
  - intros Hall. destruct (reowned_all w uid gid _ Hall) as [Hre Hfirst].
    rewrite chowned_app. simpl. f_equal.
    by rewrite chowned_app, chowned_chown_effects, chowned_chown_warning, Hre, app_nil_r.
  - intros pre p post e Htargets Hpre Hp.
    destruct (reowned_until_failure w uid gid pre post p e Hpre Hp) as [Hre Hfirst].
    rewrite Htargets. split.
    + rewrite chowned_app. simpl. f_equal.
      by rewrite chowned_app, chowned_chown_effects, chowned_chown_warning, Hre, app_nil_r.
    + unfold chown_warning. rewrite Hfirst.
      rewrite app_comm_cons, app_assoc. apply last_snoc.
Qed.

(** C2, witness: [chown] fails on [a]; only the directory itself is
    re-owned and the warning is the last effect. *)
Lemma fix_permissions_stops_at_first_failure_witness :
  chowned (st_trace (snd (fix_permissions (sample_world None [] Exhausted a_fails) output_dir
                            (sample_state host_env)))) = [output_dir] ∧
  last (st_trace (snd (fix_permissions (sample_world None [] Exhausted a_fails) output_dir
                         (sample_state host_env)))) =
    Some (EPrint "Warning: Failed to fix permissions: [Errno 1] Operation not permitted").
Proof.
  exact (proj2 (proj2 (proj2
    (fix_permissions_stops_at_first_failure
       (sample_world None [] Exhausted a_fails) output_dir (sample_state host_env)
       "1000" "1000" 1000 1000 eq_refl eq_refl eq_refl eq_refl)))
    [output_dir] "/holon/output/a" ["/holon/output/b"] eperm eq_refl
    (λ q Hq, match Hq with
             | or_introl Heq => eq_ind output_dir (λ x, a_fails x = None) eq_refl q Heq
             | or_intror F => match F with end
             end)
    eq_refl).
Defined.

(** *** C10 *)

(** [adapter.py]: without a usable identity [fix_permissions] changes no
    owner, touches no file and returns. *)
Lemma adapter_fix_permissions_noop (w : World) (directory : string) (s : State) :
  HolonConfig.get_env_host_uid (st_env s) = None ∨
  HolonConfig.get_env_host_gid (st_env s) = None →
  let r := fix_permissions w directory s in
  fst r = Ok tt ∧
  chowned (st_trace (snd r)) = chowned (st_trace s) ∧
  st_files (snd r) = st_files s.
Proof.
  intros H r. subst r.
  unfold HolonConfig.get_env_host_uid, HolonConfig.get_env_host_gid, HolonConfig._int_env in H.
  rewrite fix_permissions_cases.
  destruct (st_env s !! "HOST_UID") as [[|a u]|]; [done| |done].
  destruct (st_env s !! "HOST_GID") as [[|b g]|]; [done| |done].
  simpl in H.
  destruct (py_int (String a u)) as [uid|], (py_int (String b g)) as [gid|];
    cbn [fst snd]; rewrite ?st_trace_add_trace, ?chowned_app; simpl;
    rewrite ?app_nil_r; try done.
  by destruct H.
Qed.

(** [fs_helpers.py]: the optional arguments win over the environment, and
    with both identities present the traversal is the one of [adapter.py]. *)
Lemma permission_fixer_with_ids (w : World) (directory : string) (uid gid : Z) (s : State) :
  PermissionFixer.fix_permissions w directory (Some uid) (Some gid) s =
  (Ok tt,
   add_trace (chown_effects w uid gid (chown_targets w directory) ++
              match first_chown_error w uid gid (chown_targets w directory) with
              | Some e => [EPrintErr ("Warning: Failed to fix permissions: " +:+ exn_msg e)]
              | None => []
              end) s).
Proof.
  unfold PermissionFixer.fix_permissions, mbind, M_bind, get, mret, M_ret, try_except.
  rewrite (chown_walk_along w uid gid directory). unfold chown_result.
  destruct (first_chown_error w uid gid (chown_targets w directory)).
  - unfold print_err, modify. by rewrite emit_add_trace, add_trace_add_trace.
  - by rewrite app_nil_r.
Qed.

(** [fs_helpers.py]: an absent or empty identity makes the call a no-op. *)
Lemma permission_fixer_noop_when_absent (w : World) (directory : string) (s : State) :
  truthy (st_env s !! "HOST_UID") = false →
  truthy (st_env s !! "HOST_GID") = false →
  PermissionFixer.fix_permissions w directory None None s = (Ok tt, s).
Proof.
  intros Hu Hg.
  unfold PermissionFixer.fix_permissions, mbind, M_bind, get, mret, M_ret.
  by rewrite Hu, Hg.
Qed.

(** C10, at the failing input: [PermissionFixer.fix_permissions] called
    without explicit identities converts the environment values with [int]
    before its [try], so a value that is set but is not an integer makes the
    call raise [ValueError] instead of returning. (The sibling
    [fix_permissions] of [adapter.py] converts inside its [try] and returns:
    [adapter_fix_permissions_noop].) *)
Theorem permission_fixer_raises_on_unparsable
    (w : World) (directory : string) (s : State) :
  unparsable (st_env s !! "HOST_UID") ∨ unparsable (st_env s !! "HOST_GID") →
  ∃ e, PermissionFixer.fix_permissions w directory None None s = (Raise e, s) ∧
       exn_type e = "ValueError".
Proof.
  intros H.
  unfold PermissionFixer.fix_permissions, mbind, M_bind, get, mret, M_ret, int_, raise.
  assert (Huid : unparsable (st_env s !! "HOST_UID") ∨ ¬ unparsable (st_env s !! "HOST_UID")).
  { unfold unparsable. destruct (st_env s !! "HOST_UID") as [[|a r]|].
    - right. by intros (? & ? & ? & ?).
    - destruct (py_int (String a r)) eqn:E; [right | left; eauto].
      intros (? & ? & [= <- <-] & ?). congruence.
    - right. by intros (? & ? & ? & ?). }
  destruct Huid as [(a & r & -> & Hp) | Hnu].
  - simpl. rewrite Hp. eauto.
  - destruct H as [H|(b & g & Hg & Hp)]; [done|].
    rewrite Hg. simpl (default _ _). simpl (truthy _). rewrite Hp.
    destruct (st_env s !! "HOST_UID") as [[|a r]|]; simpl; eauto.
    destruct (py_int (String a r)) eqn:E; simpl; eauto.
Qed.

(** C10, witness: [HOST_UID=abc]. *)
Lemma permission_fixer_raises_on_unparsable_witness :
  ∃ e, PermissionFixer.fix_permissions (sample_world None [] Exhausted (λ _, None)) output_dir
         None None (sample_state {[ "HOST_UID" := "abc"; "HOST_GID" := "1000" ]})
       = (Raise e, sample_state {[ "HOST_UID" := "abc"; "HOST_GID" := "1000" ]}) ∧
       exn_type e = "ValueError".
Proof.
  apply permission_fixer_raises_on_unparsable.
  left. exists "a"%char, "bc". split; reflexivity.
Defined.

(** ** Goal extraction *)

(** C9, counterexample: a goal that is a mapping without [description] is
    not stringified ([str] of the empty mapping is ["{}"]); the [get] with
    its default yields the empty string. *)
Lemma goal_mapping_without_description :
  ¬ goal_as_claimed [("goal", PDict [])].
Proof. unfold goal_as_claimed. simpl. discriminate. Qed.

(** C9, amended: a plain-string goal is returned unchanged; for a mapping
    with [description] that value is returned as it is; a mapping without
    [description] yields the empty string; every value that is not a
    mapping is stringified. *)
Theorem extract_goal_cases (spec : pydict) :
  let goal_val := dict_get spec "goal" (PStr "") in
  (∀ s, goal_val = PStr s → extract_goal spec = PStr s) ∧
  (∀ d v, goal_val = PDict d → dict_lookup d "description" = Some v →
          extract_goal spec = v) ∧
  (∀ d, goal_val = PDict d → dict_lookup d "description" = None →
        extract_goal spec = PStr "") ∧
  ((∀ d, goal_val ≠ PDict d) → extract_goal spec = PStr (py_str goal_val)).
Proof.
  intros goal_val. unfold extract_goal. fold goal_val.
  repeat split.
  - by intros s ->.
  - intros d v -> Hv. unfold dict_get. by rewrite Hv.
  - intros d -> Hv. unfold dict_get. by rewrite Hv.
  - intros Hnd. destruct goal_val; try done. by destruct (Hnd fields).
Qed.

(** C9, witness: the two shapes of a valid spec, a mapping without
    [description], and a number. *)
Lemma extract_goal_cases_witness :
  extract_goal [("goal", PStr "Add a README")] = PStr "Add a README" ∧
  extract_goal [("goal", PDict [("description", PStr "Fix bug")])] = PStr "Fix bug" ∧
  extract_goal [("goal", PDict [("title", PStr "x")])] = PStr "" ∧
  extract_goal [("goal", PInt 5)] = PStr "5".
Proof.
  split; [|split; [|split]].
  - exact (proj1 (extract_goal_cases [("goal", PStr "Add a README")]) _ eq_refl).
  - exact (proj1 (proj2 (extract_goal_cases [("goal", PDict [("description", PStr "Fix bug")])]))
             _ _ eq_refl eq_refl).
  - exact (proj1 (proj2 (proj2 (extract_goal_cases [("goal", PDict [("title", PStr "x")])])))
             _ eq_refl eq_refl).
  - refine (proj2 (proj2 (proj2 (extract_goal_cases [("goal", PInt 5)]))) _).
    intros d. discriminate.
Defined.

(** ** The workspace baseline *)

Lemma subprocess_run_unchecked (w : World) (argv : list string) (s : State) :
  subprocess_run w argv false false s =
  (Ok (w_proc w (run_count (st_trace s)) argv),
   emit (ERun argv)
        (if fst (w_proc w (run_count (st_trace s)) argv) =? 0 then git_effect argv s else s)).
Proof. reflexivity. Qed.

(** With [.git] in place the baseline step only configures git. *)
Lemma workspace_baseline_with_git (w : World) (s : State) :
  path_exists s "/holon/workspace/.git" = true →
  workspace_baseline w s =
  (Ok tt,
   add_trace [ERun ["git"; "config"; "--global"; "--add"; "safe.directory"; "/holon/workspace"];
              ERun ["git"; "config"; "--global"; "user.name"; "holon-adapter"];
              ERun ["git"; "config"; "--global"; "user.email"; "adapter@holon.local"];
              EPrint "Existing git repo found. Baseline established."] s).
Proof.
  intros Hgit.
  unfold workspace_baseline, mbind, M_bind.
  rewrite !subprocess_run_unchecked.
  cbn [git_effect]. rewrite !Tauto.if_same.
  unfold get.
  replace (path_exists _ (path_join workspace_path ".git")) with true.
  cbn [negb]. unfold print, modify. f_equal.
  unfold add_trace, emit. cbn [st_env st_files st_dirs st_commits st_cwd st_clock st_trace].
  by rewrite <- !app_assoc.
Qed.

(** C8: on a workspace that already has its [.git], the baseline step
    returns normally, runs only the three [git config --global] commands
    (no [init], no [add], no [commit]), and leaves the commits, the files
    (so no [.gitignore] is written) and the directories as they were; run
    a second time on the result it again adds no commit. *)
Theorem baseline_keeps_existing_repository (w : World) (s : State) :
  path_exists s "/holon/workspace/.git" = true →
  let r := workspace_baseline w s in
  fst r = Ok tt ∧
  st_commits (snd r) = st_commits s ∧
  st_files (snd r) = st_files s ∧
  st_dirs (snd r) = st_dirs s ∧
  commands (st_trace (snd r)) =
    commands (st_trace s) ++
    [["git"; "config"; "--global"; "--add"; "safe.directory"; "/holon/workspace"];
     ["git"; "config"; "--global"; "user.name"; "holon-adapter"];
     ["git"; "config"; "--global"; "user.email"; "adapter@holon.local"]] ∧
  fst (workspace_baseline w (snd r)) = Ok tt ∧
  st_commits (snd (workspace_baseline w (snd r))) = st_commits s.
Proof.
  intros Hgit r. subst r.
  rewrite (workspace_baseline_with_git w s Hgit). cbn [fst snd].
  rewrite workspace_baseline_with_git by exact Hgit.
  rewrite st_trace_add_trace, commands_app.
  repeat split.
Qed.

(** After a baseline step that had to initialise the repository and
    returned, [.git] exists (the successful [git init] created it in the
    working directory), so a second step adds no commit. *)
Lemma baseline_after_init_exists (w : World) (s : State) :
  st_cwd s = workspace_path →
  fst (workspace_baseline w s) = Ok tt →
  path_exists (snd (workspace_baseline w s)) "/holon/workspace/.git" = true.
Proof.
  intros Hcwd.
  destruct (path_exists s "/holon/workspace/.git") eqn:Hgit.
  { intros _. by rewrite (workspace_baseline_with_git w s Hgit). }
  unfold workspace_baseline, mbind, M_bind.
  rewrite !subprocess_run_unchecked.
  cbn [git_effect]. rewrite !Tauto.if_same.
  unfold get.
  replace (path_exists _ (path_join workspace_path ".git")) with false.
  cbn [negb]. unfold print, file_append, modify, subprocess_run. cbn [andb negb fst snd].
  destruct (fst (w_proc w _ ["git"; "init"]) =? 0); cbn [negb fst snd]; [|discriminate].
  destruct (fst (w_proc w _ ["git"; "add"; "-A"]) =? 0); cbn [negb fst snd]; [|discriminate].
  destruct (fst (w_proc w _ ["git"; "commit"; "-m"; "holon-baseline"]) =? 0);
    cbn [negb fst snd]; [|discriminate].
  intros _. cbn [mret M_ret snd].
  unfold path_exists. apply orb_true_intro. right.
  apply bool_decide_eq_true.
  cbn. rewrite Hcwd. cbn. set_solver.
Qed.

Lemma baseline_twice_adds_no_commit (w : World) (s : State) :
  st_cwd s = workspace_path →
  fst (workspace_baseline w s) = Ok tt →
  st_commits (snd (workspace_baseline w (snd (workspace_baseline w s)))) =
  st_commits (snd (workspace_baseline w s)).
Proof.
  intros Hcwd Hok.
  by rewrite (workspace_baseline_with_git w _ (baseline_after_init_exists w s Hcwd Hok)).
Qed.

(** C8, witness: a workspace whose [.git] directory exists. *)
Lemma baseline_keeps_existing_repository_witness :
  st_commits (snd (workspace_baseline (sample_world None [] Exhausted (λ _, None))
                     (set_dirs (λ d, {["/holon/workspace/.git"]} ∪ d) (sample_state host_env))))
  = [].
Proof.
  exact (proj1 (proj2
    (baseline_keeps_existing_repository (sample_world None [] Exhausted (λ _, None))
       (set_dirs (λ d, {["/holon/workspace/.git"]} ∪ d) (sample_state host_env))
       eq_refl))).
Defined.

(** ** The response loop in closed form *)

Lemma receive_response_spec (w : World) (items : list (Z * Message)) :
  ∀ final_output success s,
    receive_response w items final_output success s =
    (loop_result w items final_output success, loop_state w items s).
Proof.
  induction items as [|[d msg] rest IH]; intros final_output success s.
  - unfold loop_result. simpl.
    unfold mbind, M_bind, wait, modify. by destruct (w_stream_end w).
  - destruct msg as [content|subtype is_error|shown].
    + simpl receive_response.
      unfold mbind, M_bind, wait, file_write, modify. rewrite IH. reflexivity.
    + reflexivity.
    + simpl receive_response.
      unfold mbind, M_bind, wait, file_write, modify. rewrite IH. reflexivity.
Qed.

Lemma append_cons (x : ascii) (a b : string) : String x a +:+ b = String x (a +:+ b).
Proof. reflexivity. Qed.

Lemma append_empty_l (a : string) : "" +:+ a = a.
Proof. reflexivity. Qed.

Lemma append_assoc (a b c : string) : (a +:+ b) +:+ c = a +:+ b +:+ c.
Proof.
  induction a as [|x a IH]; [done|].
  rewrite !append_cons. by rewrite IH.
Qed.

Lemma append_empty_r (a : string) : a +:+ "" = a.
Proof.
  induction a as [|x a IH]; [done|].
  rewrite append_cons. by rewrite IH.
Qed.

Lemma loop_state_trace (w : World) (items : list (Z * Message)) :
  ∀ s, st_trace (loop_state w items s) = st_trace s ++ loop_trace w items.
Proof.
  unfold loop_trace.
  induction items as [|[d msg] rest IH]; intros s.
  - simpl. by rewrite app_nil_r.
  - destruct msg; simpl; rewrite ?IH; simpl; by rewrite <- ?app_assoc.
Qed.

Lemma loop_state_files (w : World) (items : list (Z * Message)) :
  ∀ s text,
    st_files s !! log_file_path = Some (Text text) →
    st_files (loop_state w items s) =
    <[log_file_path := Text (text +:+ log_lines w items)]> (st_files s).
Proof.
  unfold log_lines.
  induction items as [|[d msg] rest IH]; intros s text Hlog.
  - simpl. rewrite append_empty_r. symmetry. by apply insert_id.
  - destruct msg; simpl.
    + rewrite (IH _ (text +:+ log_line w (AssistantMessage content))).
      * simpl. by rewrite insert_insert_eq, append_assoc.
      * simpl. by rewrite Hlog, lookup_insert_eq.
    + by rewrite Hlog, append_empty_r.
    + rewrite (IH _ (text +:+ log_line w (OtherMessage shown))).
      * simpl. by rewrite insert_insert_eq, append_assoc.
      * simpl. by rewrite Hlog, lookup_insert_eq.
Qed.

Lemma loop_state_rest (w : World) (items : list (Z * Message)) :
  ∀ s, st_env (loop_state w items s) = st_env s ∧
       st_dirs (loop_state w items s) = st_dirs s ∧
       st_commits (loop_state w items s) = st_commits s ∧
       st_cwd (loop_state w items s) = st_cwd s.
Proof.
  induction items as [|[d msg] rest IH]; intros s; [done|].
  destruct msg as [content|subtype is_error|shown]; [|done|].
  - by destruct (IH (message_state w d (AssistantMessage content) s)) as (? & ? & ? & ?).
  - by destruct (IH (message_state w d (OtherMessage shown) s)) as (? & ? & ? & ?).
Qed.

(** ** The streaming phase in closed form *)

Lemma stream_phase_spec (w : World) (user_msg : string) (s : State) :
  stream_phase w user_msg s =
  match w_connect w with
  | Some e => (Raise e, connecting_state w s)
  | None =>
      match w_query w with
      | Some e => (Raise e, querying_state w s)
      | None =>
          let s1 := loop_state w (w_stream w) (streaming_state w user_msg s) in
          match loop_result w (w_stream w) "" true with
          | Ok r => (Ok r, finished_state w (fst r) (snd r) s1)
          | Raise e => (Raise e, s1)
          | Exit c => (Exit c, s1)
          | Hang => (Hang, s1)
          end
      end
  end.
Proof.
  unfold stream_phase, client_connect, client_query, agent_acts, streaming_state, agent_state.
  unfold mbind, M_bind, print, wait, open_write, file_write, modify, raise.
  destruct (w_connect w) as [e|]; [done|].
  destruct (w_query w) as [e|]; [done|].
  destruct (w_agent_summary w) as [text|];
    unfold modify, mret, M_ret; rewrite receive_response_spec;
    by destruct (loop_result w (w_stream w) "" true) as [[result success]| | |].
Qed.

Lemma streaming_state_log (w : World) (user_msg : string) (s : State) :
  st_files (streaming_state w user_msg s) !! log_file_path = Some (Text "").
Proof.
  unfold streaming_state, agent_state.
  destruct (w_agent_summary w); simpl.
  - rewrite lookup_insert_ne by discriminate. apply lookup_insert_eq.
  - apply lookup_insert_eq.
Qed.

(** ** Artifact generation *)

(** Resolve lookups through inserts at the fixed paths of the adapter. *)
Ltac lookup_path :=
  repeat (rewrite lookup_insert; case_decide; [try discriminate | try congruence]).

Lemma run_count_snoc_run (t : list Effect) (argv : list string) :
  run_count (t ++ [ERun argv]) = S (run_count t).
Proof.
  unfold run_count. rewrite List.filter_app, length_app. cbn. lia.
Qed.

(** An unchecked command whose output is decoded raises exactly when the
    output does not decode. *)
Lemma subprocess_run_text (w : World) (argv : list string) (s : State) :
  subprocess_run w argv false true s =
  let s1 := emit (ERun argv)
              (if fst (w_proc w (run_count (st_trace s)) argv) =? 0
               then git_effect argv s else s) in
  match w_decode_error w (run_count (st_trace s)) argv with
  | Some e => (Raise e, s1)
  | None => (Ok (w_proc w (run_count (st_trace s)) argv), s1)
  end.
Proof. reflexivity. Qed.

(** Artifact generation in closed form: it raises when the output of
    [git diff] does not decode (nothing is written then) or when an
    existing [summary.md] cannot be read (the manifest and the patch are
    written by then); otherwise it is the permission normalizer started
    from [artifact_state]. *)
Lemma generate_artifacts_cases (w : World) (goal : pyval) (result : string) (success : bool)
    (start_time : Z) (s : State) :
  generate_artifacts w goal result success start_time s =
  match artifact_error w s with
  | Some e => (Raise e, failed_artifacts_state w success start_time s)
  | None => fix_permissions w output_dir (artifact_state w goal result success start_time s)
  end.
Proof.
  unfold generate_artifacts, artifact_error, failed_artifacts_state, diff_decode_error.
  unfold mbind at 1, M_bind at 1, get.
  unfold mbind at 1, M_bind at 1. rewrite subprocess_run_unchecked.
  cbn [git_effect]. rewrite Tauto.if_same.
  unfold mbind at 1, M_bind at 1. rewrite subprocess_run_text. cbn zeta.
  cbn [git_effect st_trace emit]. rewrite Tauto.if_same, run_count_snoc_run.
  fold diff_argv.
  destruct (w_decode_error w (S (run_count (st_trace s))) diff_argv) as [e|]; [done|].
  unfold mbind, M_bind, print, open_write, json_dump, file_write, modify, get.
  cbn [snd]. fold (patch_of w s).
  match goal with
  | |- context [path_exists ?S summary_out] =>
      replace (path_exists S summary_out) with (path_exists s summary_out)
  end.
  2:{ unfold path_exists. cbn [st_files st_dirs emit set_files].
      by lookup_path. }
  unfold summary_read_error.
  destruct (path_exists s summary_out) eqn:Hsum.
  - unfold read_text, mbind, M_bind, get, raise, mret, M_ret, print, modify.
    cbn [st_files emit set_files]. rewrite !lookup_insert_ne by discriminate.
    destruct (st_files s !! summary_out) as [c|] eqn:Hfile.
    + destruct (w_read_error w summary_out) as [e|]; [done|].
      unfold artifact_state, summary_text_of, json_dump_state, open_write_state,
        file_write_state, staged_state.
      by rewrite Hsum, Hfile.
    + done.
  - unfold mret, M_ret, print, modify.
    unfold artifact_state, summary_text_of, json_dump_state, open_write_state,
      file_write_state, staged_state.
    by rewrite Hsum.
Qed.

(** ** The session under its failure boundary *)

(** The stream returned and the artifacts were generated. *)
Lemma run_session_returns (w : World) (goal : pyval) (user_msg : string) (s s1 : State)
    (result : string) (success : bool) :
  stream_phase w user_msg s = (Ok (result, success), s1) →
  artifact_error w s1 = None →
  run_session w goal user_msg s =
  fix_permissions w output_dir (artifact_state w goal result success (st_clock s) s1).
Proof.
  intros Hstream Hnone.
  unfold run_session, session_body, try_except, mbind, M_bind, get.
  rewrite Hstream. cbn [fst snd]. rewrite generate_artifacts_cases, Hnone.
  destruct (fix_permissions_frame w output_dir
              (artifact_state w goal result success (st_clock s) s1)) as (t & -> & _).
  done.
Qed.

(** The [except] branch from the state [s1] in which [e] was raised. *)
Lemma except_branch (w : World) (e : Exn) (s1 : State) :
  (print ("Execution failed: " +:+ exn_msg e);;
   open_write manifest_path;;
   json_dump manifest_path (failure_manifest e);;
   fix_permissions w output_dir;;
   sys_exit 1) s1 =
  (Exit 1 : Res unit, snd (fix_permissions w output_dir (failure_state e s1))).
Proof.
  unfold mbind, M_bind, print, open_write, json_dump, modify, sys_exit.
  fold (open_write_state manifest_path (emit (EPrint ("Execution failed: " +:+ exn_msg e)) s1)).
  fold (json_dump_state manifest_path (failure_manifest e)
          (open_write_state manifest_path (emit (EPrint ("Execution failed: " +:+ exn_msg e)) s1))).
  fold (failure_state e s1).
  by destruct (fix_permissions_frame w output_dir (failure_state e s1)) as (t & -> & _).
Qed.

(** The stream returned and artifact generation raised: the error reaches
    the [except] branch like a session error. *)
Lemma run_session_artifact_error (w : World) (goal : pyval) (user_msg : string) (s s1 : State)
    (result : string) (success : bool) (e : Exn) :
  stream_phase w user_msg s = (Ok (result, success), s1) →
  artifact_error w s1 = Some e →
  run_session w goal user_msg s =
  (Exit 1,
   snd (fix_permissions w output_dir
          (failure_state e (failed_artifacts_state w success (st_clock s) s1)))).
Proof.
  intros Hstream Herr.
  unfold run_session, session_body, try_except.
  unfold mbind at 1, M_bind at 1, get. unfold mbind at 1, M_bind at 1.
  rewrite Hstream. cbn [fst snd]. rewrite generate_artifacts_cases, Herr.
  apply except_branch.
Qed.

Lemma run_session_raise_closed (w : World) (goal : pyval) (user_msg : string) (s s1 : State)
    (e : Exn) :
  stream_phase w user_msg s = (Raise e, s1) →
  run_session w goal user_msg s =
  (Exit 1, snd (fix_permissions w output_dir (failure_state e s1))).
Proof.
  intros Hstream.
  unfold run_session, session_body, try_except.
  unfold mbind at 1, M_bind at 1, get. unfold mbind at 1, M_bind at 1.
  rewrite Hstream. apply except_branch.
Qed.


Lemma run_session_hang (w : World) (goal : pyval) (user_msg : string) (s s1 : State) :
  stream_phase w user_msg s = (Hang, s1) →
  run_session w goal user_msg s = (Hang, s1).
Proof.
  intros Hstream.
  unfold run_session, session_body, try_except, mbind, M_bind, get.
  by rewrite Hstream.
Qed.

Lemma loop_result_no_exit (w : World) (items : list (Z * Message)) (acc : string) (b : bool)
    (c : Z) :
  loop_result w items acc b ≠ Exit c.
Proof.
  unfold loop_result. destruct (terminal items); [done|]. by destruct (w_stream_end w).
Qed.

Lemma stream_phase_no_exit (w : World) (user_msg : string) (s : State) (c : Z) :
  fst (stream_phase w user_msg s) ≠ Exit c.
Proof.
  rewrite stream_phase_spec.
  destruct (w_connect w); [done|]. destruct (w_query w); [done|].
  cbn zeta.
  destruct (loop_result w (w_stream w) "" true) eqn:E; try done.
  by apply loop_result_no_exit in E.
Qed.

(** The effects of [loop_trace] are log writes and prints. *)
Lemma loop_trace_no_writes (w : World) (items : list (Z * Message)) :
  manifest_dumps (loop_trace w items) = [] ∧
  opened_paths (loop_trace w items) = [] ∧
  commands (loop_trace w items) = [].
Proof.
  unfold loop_trace.
  induction (consumed items) as [|[d msg] l (IH1 & IH2 & IH3)]; [done|].
  unfold manifest_dumps, opened_paths, commands in *.
  cbn [flat_map snd]. rewrite !flat_map_app, IH1, IH2, IH3.
  by destruct msg.
Qed.

(** The trace of the streaming phase: it dumps no manifest, runs no
    command, and opens the evidence log once the connection is up. *)
Lemma stream_phase_trace (w : World) (user_msg : string) (s : State) :
  ∃ t, st_trace (snd (stream_phase w user_msg s)) = st_trace s ++ t ∧
       manifest_dumps t = [] ∧
       commands t = [] ∧
       opened_paths t = match w_connect w with Some _ => [] | None => [log_file_path] end.
Proof.
  rewrite stream_phase_spec.
  destruct (w_connect w) as [e|].
  { exists [EPrint "Connecting to Claude Code..."]. by repeat split. }
  destruct (w_query w) as [e|].
  { exists [EPrint "Connecting to Claude Code..."; EConnect;
            EPrint "Session established. Running query..."; EOpenWrite log_file_path].
    repeat split. cbn. by rewrite <- !app_assoc. }
  cbn zeta.
  destruct (loop_trace_no_writes w (w_stream w)) as (Hm & Ho & Hc).
  assert (Hpre : st_trace (streaming_state w user_msg s) =
                 st_trace s ++ [EPrint "Connecting to Claude Code..."; EConnect;
                                EPrint "Session established. Running query...";
                                EOpenWrite log_file_path; EQuery user_msg]).
  { unfold streaming_state, agent_state.
    destruct (w_agent_summary w); cbn; by rewrite <- !app_assoc. }
  destruct (loop_result w (w_stream w) "" true) as [[result success]|e|c|] eqn:E;
    cbn [snd fst finished_state emit st_trace set_files];
    rewrite loop_state_trace, Hpre, <- ?app_assoc;
    (eexists; split; [reflexivity|]);
    rewrite ?manifest_dumps_app, ?opened_paths_app, ?commands_app, Hm, Ho, Hc;
    by repeat split.
Qed.

(** ** What the phases of a session leave alone *)

Lemma queries_app (t1 t2 : list Effect) : queries (t1 ++ t2) = queries t1 ++ queries t2.
Proof. apply flat_map_app. Qed.

Lemma loop_trace_quiet (w : World) (items : list (Z * Message)) :
  chowned (loop_trace w items) = [] ∧ queries (loop_trace w items) = [].
Proof.
  unfold loop_trace.
  induction (consumed items) as [|[d msg] l (IH1 & IH2)]; [done|].
  unfold chowned, queries in *.
  cbn [flat_map snd]. rewrite !flat_map_app, IH1, IH2.
  by destruct msg.
Qed.

Lemma stream_phase_frame (w : World) (user_msg : string) (s : State) :
  let s1 := snd (stream_phase w user_msg s) in
  st_env s1 = st_env s ∧
  st_dirs s1 = st_dirs s ∧
  st_commits s1 = st_commits s ∧
  chowned (st_trace s1) = chowned (st_trace s) ∧
  commands (st_trace s1) = commands (st_trace s) ∧
  run_count (st_trace s1) = run_count (st_trace s) ∧
  queries (st_trace s1) =
    queries (st_trace s) ++
    match w_connect w, w_query w with
    | None, None => [user_msg]
    | _, _ => []
    end.
Proof.
  intros s1. subst s1. rewrite stream_phase_spec.
  assert (Hrc : ∀ t l, Forall (λ e, is_run e = false) l → run_count (t ++ l) = run_count t).
  { intros t l Hl. unfold run_count. rewrite List.filter_app, length_app.
    replace (List.filter is_run l) with (@nil Effect); [cbn; lia|].
    induction Hl as [|e l He _ IH]; [done|]. cbn. by rewrite He. }
  destruct (w_connect w) as [e|].
  { cbn. rewrite chowned_app, commands_app, queries_app. cbn. rewrite !app_nil_r.
    repeat split. apply Hrc. by repeat constructor. }
  destruct (w_query w) as [e|].
  { cbn. rewrite !chowned_app, !commands_app, !queries_app. cbn. rewrite !app_nil_r.
    repeat split. rewrite <- !app_assoc. apply Hrc. by repeat constructor. }
  cbn zeta.
  destruct (loop_state_rest w (w_stream w) (streaming_state w user_msg s)) as (He & Hd & Hc & _).
  destruct (loop_trace_quiet w (w_stream w)) as (Hch & Hq).
  destruct (loop_trace_no_writes w (w_stream w)) as (_ & _ & Hcmd).
  assert (Hrun : Forall (λ e, is_run e = false) (loop_trace w (w_stream w))).
  { unfold loop_trace. apply Forall_flat_map, Forall_forall. intros [d msg] _.
    destruct msg; by repeat constructor. }
  assert (Hpre : st_trace (streaming_state w user_msg s) =
                 st_trace s ++ [EPrint "Connecting to Claude Code..."; EConnect;
                                EPrint "Session established. Running query...";
                                EOpenWrite log_file_path; EQuery user_msg]).
  { unfold streaming_state, agent_state.
    destruct (w_agent_summary w); cbn; by rewrite <- !app_assoc. }
  assert (Hstart : st_env (streaming_state w user_msg s) = st_env s ∧
                   st_dirs (streaming_state w user_msg s) = st_dirs s ∧
                   st_commits (streaming_state w user_msg s) = st_commits s).
  { unfold streaming_state, agent_state. by destruct (w_agent_summary w). }
  destruct Hstart as (He' & Hd' & Hc').
  destruct (loop_result w (w_stream w) "" true) as [[result success]|e|c|];
    cbn [snd fst finished_state emit set_files st_env st_dirs st_commits st_trace];
    rewrite ?He, ?Hd, ?Hc, ?He', ?Hd', ?Hc', loop_state_trace, Hpre;
    rewrite ?chowned_app, ?commands_app, ?queries_app, Hch, Hq, Hcmd;
    cbn [chowned commands queries flat_map app]; rewrite ?app_nil_r;
    (repeat split; try done);
    rewrite <- ?app_assoc; apply Hrc; repeat (apply Forall_app; split);
    try exact Hrun; by repeat constructor.
Qed.

Lemma stream_phase_cwd (w : World) (user_msg : string) (s : State) :
  st_cwd (snd (stream_phase w user_msg s)) = st_cwd s.
Proof.
  rewrite stream_phase_spec.
  destruct (w_connect w); [done|]. destruct (w_query w); [done|]. cbn zeta.
  destruct (loop_state_rest w (w_stream w) (streaming_state w user_msg s)) as (_ & _ & _ & Hc).
  assert (st_cwd (streaming_state w user_msg s) = st_cwd s) as Hs.
  { unfold streaming_state, agent_state. by destruct (w_agent_summary w). }
  destruct (loop_result w (w_stream w) "" true); cbn [snd finished_state emit set_files st_cwd];
    congruence.
Qed.

Lemma fix_permissions_keeps_files (w : World) (directory : string) (s : State) :
  st_files (snd (fix_permissions w directory s)) = st_files s.
Proof. by destruct (fix_permissions_frame w directory s) as (t & -> & _). Qed.


Lemma fix_permissions_rest (w : World) (directory : string) (s : State) :
  let s' := snd (fix_permissions w directory s) in
  st_env s' = st_env s ∧ st_dirs s' = st_dirs s ∧ st_cwd s' = st_cwd s ∧
  st_commits s' = st_commits s ∧
  queries (st_trace s') = queries (st_trace s).
Proof.
  destruct (fix_permissions_frame w directory s) as (t & -> & Hq).
  cbn [snd]. rewrite st_trace_add_trace, queries_app.
  repeat split. replace (queries t) with (@nil string); [by rewrite app_nil_r|].
  induction Hq as [|e t He _ IH]; [done|]. unfold queries in *. cbn [flat_map].
  rewrite <- IH. by destruct e.
Qed.

Lemma artifact_state_files (w : World) (goal : pyval) (result : string) (success : bool)
    (start_time : Z) (s : State) :
  st_files (artifact_state w goal result success start_time s) =
  <[summary_out := Text (summary_text_of w goal result success s)]>
    (<[diff_path := Text (patch_of w s)]>
       (<[manifest_path := Json (success_manifest success (st_clock s - start_time))]>
          (st_files s))).
Proof.
  unfold artifact_state, json_dump_state, file_write_state, open_write_state.
  cbn [st_files emit set_files].
  rewrite !insert_insert_eq. rewrite !lookup_insert_eq. cbn [text_of].
  by rewrite !append_empty_l.
Qed.

Lemma artifact_state_rest (w : World) (goal : pyval) (result : string) (success : bool)
    (start_time : Z) (s : State) :
  let s' := artifact_state w goal result success start_time s in
  st_env s' = st_env s ∧ st_dirs s' = st_dirs s ∧ st_cwd s' = st_cwd s ∧
  st_commits s' = st_commits s ∧
  chowned (st_trace s') = chowned (st_trace s) ∧
  queries (st_trace s') = queries (st_trace s).
Proof.
  unfold artifact_state, json_dump_state, file_write_state, open_write_state.
  cbn [st_env st_dirs st_cwd st_commits st_trace emit set_files].
  rewrite <- !app_assoc, chowned_app, queries_app. cbn. by rewrite !app_nil_r.
Qed.


Lemma failure_state_rest (e : Exn) (s : State) :
  let s' := failure_state e s in
  st_env s' = st_env s ∧ st_dirs s' = st_dirs s ∧ st_cwd s' = st_cwd s ∧
  st_commits s' = st_commits s ∧
  chowned (st_trace s') = chowned (st_trace s) ∧
  queries (st_trace s') = queries (st_trace s).
Proof.
  unfold failure_state, json_dump_state, open_write_state.
  cbn [st_env st_dirs st_cwd st_commits st_trace emit set_files].
  rewrite <- !app_assoc, chowned_app, queries_app. cbn. by rewrite !app_nil_r.
Qed.

Lemma failure_state_trace (e : Exn) (s : State) :
  let s' := failure_state e s in
  st_files s' = <[manifest_path := Json (failure_manifest e)]> (st_files s) ∧
  manifest_dumps (st_trace s') = manifest_dumps (st_trace s) ++ [failure_manifest e] ∧
  opened_paths (st_trace s') = opened_paths (st_trace s) ++ [manifest_path] ∧
  commands (st_trace s') = commands (st_trace s).
Proof.
  unfold failure_state, json_dump_state, open_write_state.
  cbn [st_files st_trace emit set_files].
  rewrite <- !app_assoc, manifest_dumps_app, opened_paths_app, commands_app.
  cbn. by rewrite insert_insert_eq, app_nil_r.
Qed.

(** The state in which artifact generation raises: nothing is written when
    the patch could not be made; the manifest of the success path and the
    patch are written when the summary could not be read. *)
Lemma failed_artifacts_state_rest (w : World) (success : bool) (start_time : Z) (s : State) :
  let s' := failed_artifacts_state w success start_time s in
  st_env s' = st_env s ∧ st_dirs s' = st_dirs s ∧ st_cwd s' = st_cwd s ∧
  st_commits s' = st_commits s ∧
  chowned (st_trace s') = chowned (st_trace s) ∧
  queries (st_trace s') = queries (st_trace s) ∧
  commands (st_trace s') = commands (st_trace s) ++ [["git"; "add"; "-A"]; diff_argv].
Proof.
  unfold failed_artifacts_state, unread_state, staged_state, json_dump_state, file_write_state,
    open_write_state.
  destruct (diff_decode_error w s);
    cbn [st_env st_dirs st_cwd st_commits st_trace emit set_files];
    rewrite <- !app_assoc, chowned_app, queries_app, commands_app; cbn;
    by rewrite !app_nil_r.
Qed.

Lemma failed_artifacts_state_writes (w : World) (success : bool) (start_time : Z) (s : State) :
  let s' := failed_artifacts_state w success start_time s in
  match diff_decode_error w s with
  | Some _ =>
      st_files s' = st_files s ∧
      manifest_dumps (st_trace s') = manifest_dumps (st_trace s) ∧
      opened_paths (st_trace s') = opened_paths (st_trace s)
  | None =>
      st_files s' =
        <[diff_path := Text (patch_of w s)]>
          (<[manifest_path := Json (success_manifest success (st_clock s - start_time))]>
             (st_files s)) ∧
      manifest_dumps (st_trace s') =
        manifest_dumps (st_trace s) ++ [success_manifest success (st_clock s - start_time)] ∧
      opened_paths (st_trace s') = opened_paths (st_trace s) ++ [manifest_path; diff_path]
  end.
Proof.
  unfold failed_artifacts_state, unread_state, staged_state, json_dump_state, file_write_state,
    open_write_state.
  destruct (diff_decode_error w s);
    cbn [st_files st_trace emit set_files];
    rewrite <- ?app_assoc, manifest_dumps_app, opened_paths_app; cbn.
  - by rewrite !app_nil_r.
  - rewrite !insert_insert_eq, lookup_insert_eq. cbn [text_of]. by rewrite append_empty_l.
Qed.

(** The four ways a session ends. *)
Lemma run_session_closed (w : World) (goal : pyval) (user_msg : string) (s : State) :
  let s1 := snd (stream_phase w user_msg s) in
  let r := run_session w goal user_msg s in
  (∃ result success,
     fst (stream_phase w user_msg s) = Ok (result, success) ∧
     artifact_error w s1 = None ∧
     fst r = Ok tt ∧
     snd r = snd (fix_permissions w output_dir
                    (artifact_state w goal result success (st_clock s) s1))) ∨
  (∃ result success e,
     fst (stream_phase w user_msg s) = Ok (result, success) ∧
     artifact_error w s1 = Some e ∧
     fst r = Exit 1 ∧
     snd r = snd (fix_permissions w output_dir
                    (failure_state e (failed_artifacts_state w success (st_clock s) s1)))) ∨
  (∃ e,
     fst (stream_phase w user_msg s) = Raise e ∧
     fst r = Exit 1 ∧
     snd r = snd (fix_permissions w output_dir (failure_state e s1))) ∨
  (fst (stream_phase w user_msg s) = Hang ∧ fst r = Hang ∧ snd r = s1).
Proof.
  pose proof (stream_phase_no_exit w user_msg s) as Hne.
  destruct (stream_phase w user_msg s) as [[[result success]|e|c|] s1] eqn:Hstream; cbn [fst snd].
  - destruct (artifact_error w s1) as [e|] eqn:Herr.
    + right. left. exists result, success, e. split; [done|]. split; [done|].
      by rewrite (run_session_artifact_error w goal user_msg s s1 result success e Hstream Herr).
    + left. exists result, success. split; [done|]. split; [done|].
      rewrite (run_session_returns w goal user_msg s s1 result success Hstream Herr).
      by destruct (fix_permissions_frame w output_dir
                     (artifact_state w goal result success (st_clock s) s1)) as (t & -> & _).
  - right. right. left. exists e. split; [done|].
    by rewrite (run_session_raise_closed w goal user_msg s s1 e Hstream).
  - by destruct (Hne c).
  - right. right. right. split; [done|].
    by rewrite (run_session_hang w goal user_msg s s1 Hstream).
Qed.

(** Whatever follows the streaming phase leaves the evidence log as the
    streaming phase left it. *)
Lemma run_session_keeps_log (w : World) (goal : pyval) (user_msg : string) (s : State) :
  st_files (snd (run_session w goal user_msg s)) !! log_file_path =
  st_files (snd (stream_phase w user_msg s)) !! log_file_path.
Proof.
  destruct (run_session_closed w goal user_msg s)
    as [(result & success & _ & _ & _ & ->)|[(result & success & e & _ & _ & _ & ->)|
        [(e & _ & _ & ->)|(_ & _ & ->)]]];
    rewrite ?fix_permissions_keeps_files; [| | |done].
  - rewrite artifact_state_files. by lookup_path.
  - destruct (failure_state_trace e
                (failed_artifacts_state w success (st_clock s)
                   (snd (stream_phase w user_msg s)))) as (-> & _).
    rewrite lookup_insert_ne by discriminate.
    pose proof (failed_artifacts_state_writes w success (st_clock s)
                  (snd (stream_phase w user_msg s))) as Hw.
    cbn zeta in Hw.
    destruct (diff_decode_error w (snd (stream_phase w user_msg s)));
      destruct Hw as (-> & _); [done|]. by lookup_path.
  - destruct (failure_state_trace e (snd (stream_phase w user_msg s))) as (-> & _).
    by rewrite lookup_insert_ne by discriminate.
Qed.

(** The manifest a session leaves: the one of the success path when it
    returns, the one of the failure path when it exits. *)
Lemma run_session_manifest (w : World) (goal : pyval) (user_msg : string) (s : State) :
  let r := run_session w goal user_msg s in
  match fst r with
  | Ok _ =>
      ∃ result success,
        fst (stream_phase w user_msg s) = Ok (result, success) ∧
        st_files (snd r) !! manifest_path =
          Some (Json (success_manifest success
                        (st_clock (snd (stream_phase w user_msg s)) - st_clock s)))
  | Exit code =>
      code = 1 ∧ ∃ e, st_files (snd r) !! manifest_path = Some (Json (failure_manifest e))
  | Raise _ => False
  | Hang => fst (stream_phase w user_msg s) = Hang
  end.
Proof.
  intros r. subst r.
  destruct (run_session_closed w goal user_msg s)
    as [(result & success & Hs & _ & Hf & Hr)|[(result & success & e & _ & _ & Hf & Hr)|
        [(e & _ & Hf & Hr)|(Hs & Hf & Hr)]]];
    rewrite Hf; cbv iota beta; rewrite ?Hr, ?fix_permissions_keeps_files; [| | |done].
  - exists result, success. split; [done|]. rewrite artifact_state_files. by lookup_path.
  - split; [done|]. exists e.
    destruct (failure_state_trace e
                (failed_artifacts_state w success (st_clock s)
                   (snd (stream_phase w user_msg s)))) as (-> & _).
    apply lookup_insert_eq.
  - split; [done|]. exists e.
    destruct (failure_state_trace e (snd (stream_phase w user_msg s))) as (-> & _).
    apply lookup_insert_eq.
Qed.

(** *** C3 *)





(** *** C5 *)





(** ** Accumulated output and evidence log *)

Lemma concat_strings_app (l1 l2 : list string) :
  concat_strings (l1 ++ l2) = concat_strings l1 +:+ concat_strings l2.
Proof.
  induction l1 as [|x l1 IH]; [done|].
  cbn [app concat_strings fold_right]. fold (concat_strings (l1 ++ l2)).
  fold (concat_strings l1). by rewrite IH, append_assoc.
Qed.

Lemma add_text_blocks_concat (content : list ContentBlock) :
  ∀ acc, add_text_blocks content acc = acc +:+ concat_strings (block_texts content).
Proof.
  unfold add_text_blocks, block_texts.
  induction content as [|b content IH]; intros acc.
  - cbn. by rewrite append_empty_r.
  - cbn [fold_left flat_map]. rewrite IH, concat_strings_app.
    destruct b; cbn [concat_strings fold_right]; by rewrite ?append_empty_l, ?append_empty_r, ?append_assoc.
Qed.

Lemma accumulate_concat (msgs : list Message) :
  ∀ acc, accumulate msgs acc = acc +:+ concat_strings (text_payloads msgs).
Proof.
  unfold accumulate, text_payloads.
  induction msgs as [|m msgs IH]; intros acc.
  - cbn. by rewrite append_empty_r.
  - cbn [fold_left flat_map]. rewrite IH, concat_strings_app.
    destruct m; rewrite ?add_text_blocks_concat;
      cbn [concat_strings fold_right]; by rewrite ?append_empty_l, ?append_assoc.
Qed.

Lemma log_lines_concat (w : World) (items : list (Z * Message)) :
  log_lines w items = concat_strings (map (log_line w) (map snd (consumed items))).
Proof.
  unfold log_lines. induction (consumed items) as [|item l IH]; [done|].
  cbn [fold_right map concat_strings]. by rewrite IH.
Qed.

(** A stream whose first result comes after [pre]. *)
Lemma first_result_after (pre rest : list (Z * Message)) (d : Z) (subtype : string) (is_error : bool) :
  terminal pre = None →
  terminal (pre ++ (d, ResultMessage subtype is_error) :: rest) = Some is_error ∧
  consumed (pre ++ (d, ResultMessage subtype is_error) :: rest) =
    pre ++ [(d, ResultMessage subtype is_error)].
Proof.
  induction pre as [|[d0 m0] pre IH]; intros Hpre; [done|].
  destruct m0; try discriminate; simpl in Hpre; simpl;
    by destruct (IH Hpre) as [-> ->].
Qed.

Lemma consumed_without_result (items : list (Z * Message)) :
  terminal items = None → consumed items = items.
Proof.
  induction items as [|[d0 m0] items IH]; intros Hpre; [done|].
  destruct m0; try discriminate; simpl in Hpre; simpl; by rewrite IH.
Qed.


(** When the loop is left normally the streaming phase returns its result,
    and the evidence log holds the lines of the consumed messages followed
    by the final output. *)
Lemma stream_phase_returns (w : World) (user_msg : string) (s : State)
    (result : string) (success : bool) :
  w_connect w = None → w_query w = None →
  loop_result w (w_stream w) "" true = Ok (result, success) →
  ∃ s1, stream_phase w user_msg s = (Ok (result, success), s1) ∧
        st_files s1 !! log_file_path =
          Some (Text (log_lines w (w_stream w) +:+ final_output_trailer result)).
Proof.
  intros Hc Hq Hloop. rewrite stream_phase_spec, Hc, Hq. cbn zeta. rewrite Hloop.
  eexists. split; [reflexivity|].
  cbn [finished_state emit set_files st_files fst snd].
  rewrite lookup_insert_eq.
  rewrite (loop_state_files w (w_stream w) _ "" (streaming_state_log w user_msg s)).
  by rewrite lookup_insert_eq.
Qed.

Lemma loop_result_with_result (w : World) (pre rest : list (Z * Message)) (d : Z)
    (subtype : string) (is_error : bool) :
  terminal pre = None →
  loop_result w (pre ++ (d, ResultMessage subtype is_error) :: rest) "" true =
  Ok (concat_strings (text_payloads (map snd pre)), negb is_error).
Proof.
  intros Hpre. unfold loop_result.
  destruct (first_result_after pre rest d subtype is_error Hpre) as [-> ->].
  rewrite accumulate_concat, append_empty_l, map_app.
  unfold text_payloads. rewrite flat_map_app. cbn [map flat_map snd].
  rewrite !app_nil_r. by destruct is_error.
Qed.

Lemma loop_result_exhausted (w : World) :
  terminal (w_stream w) = None → w_stream_end w = Exhausted →
  loop_result w (w_stream w) "" true =
  Ok (concat_strings (text_payloads (map snd (w_stream w))), true).
Proof.
  intros Hterm Hend. unfold loop_result. rewrite Hterm, Hend.
  by rewrite (consumed_without_result _ Hterm), accumulate_concat, append_empty_l.
Qed.

(** *** C7 *)

(** C7: for a stream whose first result comes after the messages [pre],
    the streaming phase returns as accumulated output the concatenation, in
    arrival order, of the text payloads of [pre], and the evidence log the
    run leaves, whether artifact generation succeeds or not, holds one line
    [Message: <str(msg)>] per message, [pre] and then the result, in that
    order, followed by the final-output section. *)
Theorem output_and_log_follow_arrival_order
    (w : World) (goal : pyval) (user_msg : string) (s : State)
    (pre rest : list (Z * Message)) (d : Z) (subtype : string) (is_error : bool) :
  w_connect w = None → w_query w = None →
  w_stream w = pre ++ (d, ResultMessage subtype is_error) :: rest →
  terminal pre = None →
  let seen := map snd pre in
  let output := concat_strings (text_payloads seen) in
  let line := λ msg, "Message: " +:+ w_msg_str w msg +:+ newline in
  fst (stream_phase w user_msg s) = Ok (output, negb is_error) ∧
  st_files (snd (run_session w goal user_msg s)) !! log_file_path =
    Some (Text (concat_strings (map line (seen ++ [ResultMessage subtype is_error]))
                +:+ "--- FINAL OUTPUT ---" +:+ newline +:+ output +:+ newline)).
Proof.
  intros Hc Hq Hstream Hpre seen output line.
  pose proof (loop_result_with_result w pre rest d subtype is_error Hpre) as Hloop.
  rewrite <- Hstream in Hloop.
  destruct (stream_phase_returns w user_msg s _ _ Hc Hq Hloop) as (s1 & Hphase & Hlog).
  rewrite run_session_keeps_log, Hphase. split; [done|].
  cbn [snd]. rewrite Hlog, log_lines_concat, Hstream.
  destruct (first_result_after pre rest d subtype is_error Hpre) as [_ ->].
  by rewrite map_app.
Qed.

(** C7, witness: two text messages, then a result. *)
Lemma output_and_log_follow_arrival_order_witness :
  let w := sample_world None
             [(1000000, AssistantMessage [TextBlock "Creating file"]);
              (2000000, AssistantMessage [TextBlock "Done"]);
              (5, ResultMessage "success" false)] Exhausted (λ _, None) in
  fst (stream_phase w "user" (sample_state host_env)) = Ok ("Creating fileDone", true) ∧
  st_files (snd (run_session w (PStr "Add a README") "user" (sample_state host_env)))
    !! log_file_path =
    Some (Text ("Message: AssistantMessage" +:+ newline +:+
                "Message: AssistantMessage" +:+ newline +:+
                "Message: ResultMessage(subtype=success, is_error=False)" +:+ newline +:+
                "--- FINAL OUTPUT ---" +:+ newline +:+ "Creating fileDone" +:+ newline)).
Proof.
  exact (output_and_log_follow_arrival_order
    (sample_world None
       [(1000000, AssistantMessage [TextBlock "Creating file"]);
        (2000000, AssistantMessage [TextBlock "Done"]);
        (5, ResultMessage "success" false)] Exhausted (λ _, None))
    (PStr "Add a README") "user" (sample_state host_env)
    [(1000000, AssistantMessage [TextBlock "Creating file"]);
     (2000000, AssistantMessage [TextBlock "Done"])] [] 5 "success" false
    eq_refl eq_refl eq_refl eq_refl).
Defined.

(** Replacing the response stream leaves everything outside the loop as
    it was. *)
Section WithStream.
Context (w : World) (items : list (Z * Message)) (end_wait : Z) (ending : StreamEnd).





End WithStream.

(** ** How a session ends and what its manifest says *)

(** The ending of a session and the outcome in its manifest, from the
    ending of the streaming phase and the error of artifact generation. *)
Lemma run_session_result (w : World) (goal : pyval) (user_msg : string) (s : State) :
  let r := run_session w goal user_msg s in
  let s1 := snd (stream_phase w user_msg s) in
  fst r =
    match fst (stream_phase w user_msg s), artifact_error w s1 with
    | Ok _, None => Ok tt
    | Ok _, Some _ => Exit 1
    | Raise _, _ => Exit 1
    | Exit c, _ => Exit c
    | Hang, _ => Hang
    end ∧
  manifest_outcome (snd r) =
    match fst (stream_phase w user_msg s), artifact_error w s1 with
    | Ok (_, success), None => Some (JStr (if success then "success" else "failure"))
    | Ok _, Some _ => Some (JStr "failure")
    | Raise _, _ => Some (JStr "failure")
    | _, _ => manifest_outcome s1
    end.
Proof.
  intros r s1. subst r s1.
  pose proof (run_session_manifest w goal user_msg s) as Hm. cbn zeta in Hm.
  destruct (run_session_closed w goal user_msg s)
    as [(result & success & Hs & Herr & Hf & Hr)|[(result & success & e & Hs & Herr & Hf & Hr)|
        [(e & Hs & Hf & Hr)|(Hs & Hf & Hr)]]];
    rewrite Hf in Hm |- *; rewrite Hs, ?Herr; cbv iota beta.
  - split; [done|]. destruct Hm as (result' & success' & Hs' & Hfile).
    rewrite Hs in Hs'. injection Hs' as <- <-.
    unfold manifest_outcome. rewrite Hfile. by destruct success.
  - split; [done|]. destruct Hm as (_ & e' & Hfile).
    unfold manifest_outcome. by rewrite Hfile.
  - destruct Hm as (_ & e' & Hfile).
    unfold manifest_outcome. rewrite Hfile.
    by destruct (artifact_error w (snd (stream_phase w user_msg s))).
  - rewrite Hr. by destruct (artifact_error w (snd (stream_phase w user_msg s))).
Qed.

(** Once the streaming phase has returned, the session returns exactly
    when artifact generation does not fail; then the manifest carries the
    outcome of the stream, and otherwise the session exits with status 1
    and the manifest says ["failure"]. *)
Lemma run_session_outcome (w : World) (goal : pyval) (user_msg : string) (s : State)
    (result : string) (success : bool) :
  fst (stream_phase w user_msg s) = Ok (result, success) →
  let r := run_session w goal user_msg s in
  (fst r = Ok tt ↔ artifact_error w (snd (stream_phase w user_msg s)) = None) ∧
  (fst r = Ok tt →
   manifest_outcome (snd r) = Some (JStr (if success then "success" else "failure"))) ∧
  (fst r ≠ Ok tt → fst r = Exit 1 ∧ manifest_outcome (snd r) = Some (JStr "failure")).
Proof.
  intros Hs r. subst r.
  destruct (run_session_result w goal user_msg s) as (Hf & Hm).
  rewrite Hs in Hf, Hm.
  destruct (artifact_error w (snd (stream_phase w user_msg s))) as [e|];
    rewrite Hf, Hm; repeat split; try done.
Qed.

(** *** C4 *)




(** *** C6 *)




(** ** Time *)

Lemma terminal_zero_waits (items : list (Z * Message)) :
  terminal (zero_waits items) = terminal items.
Proof. induction items as [|[d []] items IH]; simpl; congruence. Qed.

Lemma consumed_zero_waits (items : list (Z * Message)) :
  map snd (consumed (zero_waits items)) = map snd (consumed items).
Proof. induction items as [|[d []] items IH]; simpl; congruence. Qed.

Lemma loop_result_untimed (w : World) (items : list (Z * Message)) (acc : string) (b : bool) :
  loop_result (untimed w) (zero_waits items) acc b = loop_result w items acc b.
Proof.
  unfold loop_result. by rewrite terminal_zero_waits, consumed_zero_waits.
Qed.

Lemma clock_erased_fields (s s' : State) :
  clock_erased s = clock_erased s' →
  st_env s = st_env s' ∧ st_files s = st_files s' ∧ st_dirs s = st_dirs s' ∧
  st_commits s = st_commits s' ∧ st_cwd s = st_cwd s' ∧ st_trace s = st_trace s'.
Proof. destruct s, s'. unfold clock_erased, set_clock. simpl. by intros [= -> -> -> -> -> ->]. Qed.

Lemma message_state_untimed (w : World) (d d' : Z) (msg : Message) (s s' : State) :
  clock_erased s = clock_erased s' →
  clock_erased (message_state w d msg s) = clock_erased (message_state (untimed w) d' msg s').
Proof.
  intros H. destruct (clock_erased_fields s s' H) as (He & Hf & Hd & Hcm & Hcw & Ht).
  destruct s, s'. simpl in *. subst. by destruct msg.
Qed.

Lemma loop_state_untimed (w : World) (items : list (Z * Message)) :
  ∀ s s', clock_erased s = clock_erased s' →
          clock_erased (loop_state w items s) =
          clock_erased (loop_state (untimed w) (zero_waits items) s').
Proof.
  induction items as [|[d msg] items IH]; intros s s' H.
  - destruct (clock_erased_fields s s' H) as (He & Hf & Hd & Hcm & Hcw & Ht).
    destruct s, s'. simpl in *. by subst.
  - destruct msg; cbn [zero_waits map loop_state snd];
      try (apply IH); by apply message_state_untimed.
Qed.

Lemma finished_state_untimed (w : World) (result : string) (success : bool) (s s' : State) :
  clock_erased s = clock_erased s' →
  clock_erased (finished_state w result success s) =
  clock_erased (finished_state (untimed w) result success s').
Proof.
  intros H. destruct (clock_erased_fields s s' H) as (He & Hf & Hd & Hcm & Hcw & Ht).
  destruct s, s'. simpl in *. by subst.
Qed.

Lemma streaming_state_untimed (w : World) (user_msg : string) (s : State) :
  clock_erased (streaming_state w user_msg s) =
  clock_erased (streaming_state (untimed w) user_msg s).
Proof.
  unfold streaming_state, agent_state. cbn [w_agent_summary untimed].
  by destruct (w_agent_summary w).
Qed.

(** The streaming phase does not look at the clock: with all waits set to
    zero it ends the same way and leaves the same state, clock apart. *)
Lemma stream_phase_untimed (w : World) (user_msg : string) (s : State) :
  fst (stream_phase w user_msg s) = fst (stream_phase (untimed w) user_msg s) ∧
  clock_erased (snd (stream_phase w user_msg s)) =
  clock_erased (snd (stream_phase (untimed w) user_msg s)).
Proof.
  rewrite !stream_phase_spec. cbn [w_connect w_query w_stream untimed].
  destruct (w_connect w); [done|]. destruct (w_query w); [done|].
  cbn zeta. rewrite loop_result_untimed.
  pose proof (loop_state_untimed w (w_stream w) _ _ (streaming_state_untimed w user_msg s)) as Hs.
  destruct (loop_result w (w_stream w) "" true) as [[result success]| | |];
    cbn [fst snd]; (split; [done|]); try exact Hs.
  by apply finished_state_untimed.
Qed.

Lemma artifact_error_untimed (w : World) (s s' : State) :
  clock_erased s = clock_erased s' →
  artifact_error w s = artifact_error (untimed w) s'.
Proof.
  intros H. destruct (clock_erased_fields s s' H) as (_ & Hf & Hd & _ & _ & Ht).
  unfold artifact_error, diff_decode_error, summary_read_error, path_exists, open_error.
  cbn [untimed w_decode_error w_read_error]. by rewrite Hf, Hd, Ht.
Qed.

(** *** C1 *)

(** C1, counterexample: the only event, a result without error, arrives
    after 2000 seconds, beyond the idle timeout of 1800 seconds; the loop
    has no timer, takes the event when it comes, and the outcome is
    ["success"]. *)
Lemma late_result_still_succeeds :
  ¬ timeouts_enforced
      (sample_world None [(2000000000, ResultMessage "success" false)] Exhausted (λ _, None))
      (PStr "Add a README") "user" (sample_state host_env).
Proof.
  intros H.
  assert (Hout : manifest_outcome
                   (snd (run_session
                           (sample_world None [(2000000000, ResultMessage "success" false)]
                              Exhausted (λ _, None))
                           (PStr "Add a README") "user" (sample_state host_env)))
                 = Some (JStr "failure")).
  { apply H; [reflexivity | reflexivity |]. left. constructor. vm_compute. reflexivity. }
  vm_compute in Hout. discriminate Hout.
Qed.

(** C1, amended: the streaming phase has no idle timeout, no total timeout
    and no heartbeat. However long the waits for the connection, the query
    and the stream events, the streaming phase ends the same way and has
    the same effects as with all waits set to zero (only the clock
    differs), the run ends the same way and records the same outcome. A
    run that receives zero events leaves an evidence log without any
    message line. When the stream is then exhausted the streaming phase
    returns with success, the log holds the empty final-output section, and
    the outcome is ["success"] if the run returns and ["failure"], with
    exit status 1, if artifact generation fails; when the stream raises the
    run exits with status 1 and outcome ["failure"]; when the stream never
    ends, the run never ends and writes no manifest. *)
Theorem streaming_ignores_waits (w : World) (goal : pyval) (user_msg : string) (s : State) :
  let r := run_session w goal user_msg s in
  let r0 := run_session (untimed w) goal user_msg s in
  fst (stream_phase w user_msg s) = fst (stream_phase (untimed w) user_msg s) ∧
  clock_erased (snd (stream_phase w user_msg s)) =
    clock_erased (snd (stream_phase (untimed w) user_msg s)) ∧
  fst r = fst r0 ∧
  manifest_outcome (snd r) = manifest_outcome (snd r0) ∧
  (w_connect w = None → w_query w = None → w_stream w = [] →
   match w_stream_end w with
   | Exhausted =>
       fst (stream_phase w user_msg s) = Ok ("", true) ∧
       st_files (snd r) !! log_file_path =
         Some (Text ("--- FINAL OUTPUT ---" +:+ newline +:+ newline)) ∧
       (fst r = Ok tt → manifest_outcome (snd r) = Some (JStr "success")) ∧
       (fst r ≠ Ok tt → fst r = Exit 1 ∧ manifest_outcome (snd r) = Some (JStr "failure"))
   | Raises e =>
       fst r = Exit 1 ∧
       manifest_outcome (snd r) = Some (JStr "failure") ∧
       st_files (snd r) !! log_file_path = Some (Text "")
   | Stalls =>
       fst r = Hang ∧
       manifest_dumps (st_trace (snd r)) = manifest_dumps (st_trace s) ∧
       st_files (snd r) !! log_file_path = Some (Text "")
   end).
Proof.
  intros r r0. subst r r0.
  destruct (stream_phase_untimed w user_msg s) as [Hfst Hsnd].
  split; [exact Hfst|]. split; [exact Hsnd|].
  destruct (run_session_result w goal user_msg s) as (Hr & Hm).
  destruct (run_session_result (untimed w) goal user_msg s) as (Hr0 & Hm0).
  pose proof (artifact_error_untimed w _ _ Hsnd) as Herr.
  destruct (clock_erased_fields _ _ Hsnd) as (_ & Hf & _).
  assert (Hmo : manifest_outcome (snd (stream_phase w user_msg s)) =
                manifest_outcome (snd (stream_phase (untimed w) user_msg s))).
  { unfold manifest_outcome. by rewrite Hf. }
  split; [by rewrite Hr, Hr0, Hfst, Herr|].
  split; [by rewrite Hm, Hm0, Hfst, Herr, Hmo|].
  intros Hc Hq Hnone.
  destruct (w_stream_end w) as [|e|] eqn:Hend.
  - assert (Hterm : terminal (w_stream w) = None) by (by rewrite Hnone).
    pose proof (loop_result_exhausted w Hterm Hend) as Hloop.
    destruct (stream_phase_returns w user_msg s _ _ Hc Hq Hloop) as (s1 & Hphase & Hlog).
    rewrite Hnone in Hphase, Hlog. cbn in Hphase, Hlog.
    assert (Hok : fst (stream_phase w user_msg s) = Ok ("", true)) by (by rewrite Hphase).
    destruct (run_session_outcome w goal user_msg s _ _ Hok) as (_ & Hsucc & Hbad).
    split; [exact Hok|]. split; [|split; [exact Hsucc | exact Hbad]].
    rewrite run_session_keeps_log, Hphase. cbn [snd]. by rewrite Hlog.
  - assert (Hphase : stream_phase w user_msg s =
                     (Raise e, loop_state w [] (streaming_state w user_msg s))).
    { rewrite stream_phase_spec, Hc, Hq, Hnone. cbn zeta. unfold loop_result.
      cbn [terminal]. by rewrite Hend. }
    rewrite Hphase in Hr, Hm. cbn [fst] in Hr, Hm.
    split; [exact Hr|]. split; [exact Hm|].
    rewrite run_session_keeps_log, Hphase. apply streaming_state_log.
  - assert (Hphase : stream_phase w user_msg s =
                     (Hang, loop_state w [] (streaming_state w user_msg s))).
    { rewrite stream_phase_spec, Hc, Hq, Hnone. cbn zeta. unfold loop_result.
      cbn [terminal]. by rewrite Hend. }
    rewrite (run_session_hang w goal user_msg s _ Hphase). cbn [fst snd].
    split; [done|]. split; [|apply streaming_state_log].
    destruct (stream_phase_trace w user_msg s) as (t1 & Ht1 & Hm1 & _).
    rewrite Hphase in Ht1. cbn [snd] in Ht1.
    by rewrite Ht1, manifest_dumps_app, Hm1, app_nil_r.
Qed.

(** C1, witness: zero events, then the stream is exhausted after 2000
    seconds. *)
Lemma streaming_ignores_waits_witness :
  let w := with_stream (sample_world None [] Exhausted (λ _, None)) [] 2000000000 Exhausted in
  let r := run_session w (PStr "Add a README") "user" (sample_state host_env) in
  fst (stream_phase w "user" (sample_state host_env)) = Ok ("", true) ∧
  st_files (snd r) !! log_file_path =
    Some (Text ("--- FINAL OUTPUT ---" +:+ newline +:+ newline)) ∧
  (fst r = Ok tt → manifest_outcome (snd r) = Some (JStr "success")) ∧
  (fst r ≠ Ok tt → fst r = Exit 1 ∧ manifest_outcome (snd r) = Some (JStr "failure")).
Proof.
  exact (proj2 (proj2 (proj2 (proj2
    (streaming_ignores_waits
       (with_stream (sample_world None [] Exhausted (λ _, None)) [] 2000000000 Exhausted)
       (PStr "Add a README") "user" (sample_state host_env))))) eq_refl eq_refl eq_refl).
Defined.

(** ** Configuration *)

(** [_int_env] falls back to the default on an absent, empty or malformed
    value and never raises. *)
Lemma int_env_cases (env : gmap string string) (name : string) (default : option Z) :
  HolonConfig._int_env env name default =
  match env !! name with
  | Some value => match py_int value with Some z => Some z | None => default end
  | None => default
  end.
Proof.
  unfold HolonConfig._int_env.
  destruct (env !! name) as [[|a r]|]; done.
Qed.

Lemma idle_timeout_default (env : gmap string string) :
  env !! "HOLON_RESPONSE_IDLE_TIMEOUT_SECONDS" = None →
  HolonConfig.get_env_idle_timeout_seconds env = Some 1800.
Proof.
  intros H. unfold HolonConfig.get_env_idle_timeout_seconds. by rewrite int_env_cases, H.
Qed.

Lemma idle_timeout_is_set (env : gmap string string) :
  is_Some (HolonConfig.get_env_idle_timeout_seconds env).
Proof.
  unfold HolonConfig.get_env_idle_timeout_seconds. rewrite int_env_cases.
  destruct (env !! _) as [value|]; [destruct (py_int value)|]; eauto.
Qed.

(** ** The whole run *)

(** Without the spec file the adapter exits with status 1 before it touches
    the workspace: no command is run and no manifest is written. *)
Lemma missing_spec_exits_early (w : World) (s : State) :
  path_exists (set_dirs (λ d, {[evidence_dir]} ∪ ({[output_dir]} ∪ d)) s) spec_path = false →
  let r := run_adapter w s in
  fst r = Exit 1 ∧
  st_trace (snd r) =
    st_trace s ++ [EPrint "Holon Claude Adapter Starting..."; EMakedirs output_dir;
                   EMakedirs evidence_dir;
                   EPrint ("Error: Spec not found at " +:+ spec_path)] ∧
  st_files (snd r) = st_files s.
Proof.
  intros Hmissing r. subst r.
  unfold run_adapter, mbind, M_bind, print, makedirs, modify, get, sys_exit.
  match goal with
  | |- context [path_exists ?S spec_path] =>
      replace (path_exists S spec_path) with false
  end.
  cbn [negb fst snd st_trace st_files emit set_dirs].
  by rewrite <- !app_assoc.
Qed.

(** The first scenario of the spec: goal ["Add a README"], two text
    messages and a result without error. *)
Example scenario_success :
  let w := sample_world None
             [(1000000, AssistantMessage [TextBlock "Creating file"]);
              (2000000, AssistantMessage [TextBlock "Done"]);
              (5, ResultMessage "success" false)] Exhausted (λ _, None) in
  let r := run_adapter w (sample_state host_env) in
  fst r = Ok tt ∧
  manifest_outcome (snd r) = Some (JStr "success") ∧
  st_commits (snd r) = ["holon-baseline"] ∧
  st_files (snd r) !! summary_out =
    Some (Text (fallback_summary (PStr "Add a README") true "Creating fileDone")) ∧
  chowned (st_trace (snd r)) = [output_dir; "/holon/output/a"; "/holon/output/b"].
Proof. vm_compute. repeat split. Qed.

(** The second scenario of the spec: the result reports an error at once. *)
Example scenario_failure :
  let w := sample_world None [(5, ResultMessage "error_during_execution" true)]
             Exhausted (λ _, None) in
  let r := run_adapter w (sample_state host_env) in
  fst r = Ok tt ∧
  manifest_outcome (snd r) = Some (JStr "failure") ∧
  st_files (snd r) !! summary_out =
    Some (Text (fallback_summary (PStr "Add a README") false "")).
Proof. vm_compute. repeat split. Qed.

(** * Further properties of the adapter *)

(** ** Before the session *)

(** Creating the output directories does not make any other path exist. *)
Lemma path_exists_after_makedirs (s s' : State) (p : string) :
  st_files s' = st_files s →
  st_dirs s' = {[evidence_dir]} ∪ ({[output_dir]} ∪ st_dirs s) →
  p ≠ evidence_dir → p ≠ output_dir →
  path_exists s' p = path_exists s p.
Proof.
  intros Hf Hd He Ho. unfold path_exists. rewrite Hf, Hd. f_equal.
  apply bool_decide_ext. rewrite !elem_of_union, !elem_of_singleton. tauto.
Qed.

Lemma path_exists_file (s : State) (p : string) (c : FileContent) :
  st_files s !! p = Some c → path_exists s p = true.
Proof. intros H. unfold path_exists. rewrite H. by rewrite bool_decide_eq_true_2. Qed.

Lemma bind_raise {A B} (m : M A) (k : A → M B) (s s' : State) (e : Exn) :
  m s = (Raise e, s') → (m ≫= k) s = (Raise e, s').
Proof. intros H. unfold mbind, M_bind. by rewrite H. Qed.

Lemma bind_ok {A B} (m : M A) (k : A → M B) (s s' : State) (a : A) :
  m s = (Ok a, s') → (m ≫= k) s = k a s'.
Proof. intros H. unfold mbind, M_bind. by rewrite H. Qed.

(** Reading a file returns its text exactly when the path is a file whose
    content decodes; otherwise it raises and changes nothing. *)
Lemma read_text_cases (w : World) (path : string) (s : State) :
  (readable w s path ∧ read_text w path s = (Ok (text_of w (st_files s !! path)), s)) ∨
  (¬ readable w s path ∧ ∃ e, read_text w path s = (Raise e, s)).
Proof.
  unfold read_text, readable, mbind, M_bind, get, raise, mret, M_ret.
  destruct (st_files s !! path) as [c|] eqn:Hfile.
  - destruct (w_read_error w path) as [e|] eqn:Herr.
    + right. split; [by intros (_ & ?) | eauto].
    + left. by split.
  - right. split; [by intros ([c Hc] & _) | eauto].
Qed.

(** Loading the goal returns exactly when the spec file reads and loads
    to a mapping; otherwise it raises and changes nothing. *)
Lemma load_goal_cases (w : World) (s : State) :
  (∃ spec, loaded_spec w s = Some spec ∧ load_goal w s = (Ok (extract_goal spec), s)) ∨
  (loaded_spec w s = None ∧ ∃ e, load_goal w s = (Raise e, s)).
Proof.
  unfold load_goal, loaded_spec, read_text, mbind, M_bind, get, raise, mret, M_ret.
  destruct (st_files s !! spec_path) as [c|]; [|solve [right; eauto]].
  destruct (w_read_error w spec_path) as [e|]; [solve [right; eauto]|].
  destruct (w_yaml_load w (text_of w (Some c))) as [e|v]; [solve [right; eauto]|].
  destruct v; try solve [right; eauto]. left. eauto.
Qed.

(** [os.chdir] succeeds exactly on an existing directory. *)
Lemma chdir_cases (path : string) (s : State) :
  (path ∈ st_dirs s ∧ chdir path s = (Ok tt, emit (EChdir path) (set_cwd path s))) ∨
  ((path ∉ st_dirs s) ∧ ∃ e, chdir path s = (Raise e, s)).
Proof.
  unfold chdir, mbind, M_bind, get, raise, modify.
  case_bool_decide; [by left|]. right. split; [done|].
  case_bool_decide; eauto.
Qed.

(** What [only_prepared] means for the observations on a run. *)
Lemma only_prepared_observations (s s' : State) :
  only_prepared s s' →
  commands (st_trace s') = commands (st_trace s) ∧
  opened_paths (st_trace s') = opened_paths (st_trace s) ∧
  manifest_dumps (st_trace s') = manifest_dumps (st_trace s) ∧
  queries (st_trace s') = queries (st_trace s) ∧
  chowned (st_trace s') = chowned (st_trace s).
Proof.
  intros (_ & _ & _ & _ & _ & _ & t & -> & Ht).
  rewrite commands_app, opened_paths_app, manifest_dumps_app, queries_app, chowned_app.
  assert (commands t = [] ∧ opened_paths t = [] ∧ manifest_dumps t = [] ∧ queries t = [] ∧
          chowned t = []) as (-> & -> & -> & -> & ->); [|by rewrite !app_nil_r].
  induction Ht as [|e t He _ (IH1 & IH2 & IH3 & IH4 & IH5)]; [done|].
  unfold commands, opened_paths, manifest_dumps, queries, chowned in *.
  cbn [flat_map]. rewrite IH1, IH2, IH3, IH4, IH5. by destruct e.
Qed.

(** Rewrite the existence tests of [run_adapter] to the initial state. *)
Ltac to_initial_state s p :=
  match goal with
  | |- context [path_exists ?S p] =>
      tryif constr_eq S s then fail
      else rewrite (path_exists_after_makedirs s S p) by (reflexivity || discriminate)
  end.

(** Close a leaf of the preamble: the state is the initial one plus
    directories and printed lines. *)
Ltac prepared_leaf :=
  unfold only_prepared; cbn [fst snd];
  cbn [st_env st_files st_commits st_cwd st_clock st_dirs st_trace emit set_dirs];
  rewrite <- ?app_assoc;
  repeat (split; [reflexivity|]);
  eexists; split; [reflexivity|]; repeat constructor.

(** Close a leaf of the preamble that raises: no missing input was
    reached. *)
Ltac raised_leaf :=
  right; split;
  [ intros [?|[[? ?] [?|[? ?]]]]; first [congruence | contradiction]
  | cbn [fst]; by eexists ].

(** The preamble of [run_adapter]: when the inputs load and the workspace
    exists, the run is the baseline, the settings sync and the session,
    started from [preflight_state] with the goal of the spec file and the
    text of the user prompt; otherwise it ends before the workspace is
    touched, by [sys.exit(1)] when it reaches a missing input, and by the
    exception of the input that does not load otherwise. *)
Lemma run_adapter_cases (w : World) (s : State) :
  let r := run_adapter w s in
  (inputs_load w s ∧
   r = (workspace_baseline w;; sync_claude_settings w;;
        run_session w (spec_goal w s) (user_prompt w s)) (preflight_state w s)) ∨
  (¬ inputs_load w s ∧
   only_prepared s (snd r) ∧
   ((exits_on_missing_input w s ∧ fst r = Exit 1) ∨
    (¬ exits_on_missing_input w s ∧ ∃ e, fst r = Raise e))).
Proof.
  intros r. subst r.
  unfold run_adapter, mbind, M_bind, print, makedirs, modify, get, mret, M_ret, sys_exit.
  to_initial_state s spec_path.
  destruct (path_exists s spec_path) eqn:Hspec; cbn [negb].
  2:{ right. split; [|split].
      - intros ([d Hd] & _). unfold loaded_spec in Hd.
        destruct (st_files s !! spec_path) as [c|] eqn:Hc; [|done].
        by rewrite (path_exists_file s _ c Hc) in Hspec.
      - prepared_leaf.
      - left. split; [by left | done]. }
  match goal with
  | |- context [load_goal w ?S] =>
      destruct (load_goal_cases w S) as [(spec & Hload & Heq)|(Hload & e & Heq)];
      rewrite Heq; clear Heq; cbv beta iota;
      change (loaded_spec w S) with (loaded_spec w s) in Hload
  end.
  2:{ right. split; [|split].
      - intros ([d Hd] & _). by rewrite Hload in Hd.
      - prepared_leaf.
      - raised_leaf. }
  to_initial_state s prompt_path.
  destruct (path_exists s prompt_path) eqn:Hp; cbn [negb].
  2:{ right. split; [|split].
      - intros (_ & ([c Hc] & _) & _).
        by rewrite (path_exists_file s _ c Hc) in Hp.
      - prepared_leaf.
      - left. split; [|done]. right. split; [by rewrite Hload | by left]. }
  match goal with
  | |- context [read_text w prompt_path ?S] =>
      destruct (read_text_cases w prompt_path S) as [(Hread & Heq)|(Hread & e & Heq)];
      rewrite Heq; clear Heq; cbv beta iota;
      change (readable w S prompt_path) with (readable w s prompt_path) in Hread
  end.
  2:{ right. split; [|split].
      - intros (_ & Hr & _). by apply Hread.
      - prepared_leaf.
      - raised_leaf. }
  to_initial_state s user_prompt_path.
  destruct (path_exists s user_prompt_path) eqn:Hu; cbn [negb].
  2:{ right. split; [|split].
      - intros (_ & _ & ([c Hc] & _) & _).
        by rewrite (path_exists_file s _ c Hc) in Hu.
      - prepared_leaf.
      - left. split; [|done]. right. split; [by rewrite Hload | by right]. }
  match goal with
  | |- context [read_text w user_prompt_path ?S] =>
      destruct (read_text_cases w user_prompt_path S) as [(Hread3 & Heq)|(Hread3 & e & Heq)];
      rewrite Heq; clear Heq; cbv beta iota;
      change (readable w S user_prompt_path) with (readable w s user_prompt_path) in Hread3
  end.
  2:{ right. split; [|split].
      - intros (_ & _ & Hr & _). by apply Hread3.
      - prepared_leaf.
      - raised_leaf. }
  match goal with
  | |- context [chdir workspace_path ?S] =>
      destruct (chdir_cases workspace_path S) as [(Hws & Heq)|(Hws & e & Heq)];
      rewrite Heq; clear Heq; cbv beta iota;
      cbn [st_dirs emit set_dirs] in Hws
  end.
  2:{ right. split; [|split].
      - intros (_ & _ & _ & Hin). apply Hws. set_solver.
      - prepared_leaf.
      - raised_leaf. }
  left. split.
  - split; [by rewrite Hload|]. split; [exact Hread|]. split; [exact Hread3|].
    apply elem_of_union in Hws as [Hws|Hws]; [by apply elem_of_singleton in Hws|].
    apply elem_of_union in Hws as [Hws|Hws]; [by apply elem_of_singleton in Hws|done].
  - unfold spec_goal, user_prompt, preflight_state. rewrite Hload.
    reflexivity.
Qed.

(** With inputs that load and an existing workspace, [run_adapter] is the
    baseline, the settings sync and the session, started from
    [preflight_state] with the goal of the spec file and the text of the
    user prompt. *)
Lemma run_adapter_after_preflight (w : World) (s : State) :
  inputs_load w s →
  run_adapter w s =
  (workspace_baseline w;; sync_claude_settings w;;
   run_session w (spec_goal w s) (user_prompt w s)) (preflight_state w s).
Proof.
  intros Hload. by destruct (run_adapter_cases w s) as [(_ & ?)|(? & _)].
Qed.

(** Inputs that load are present. *)
Lemma inputs_load_present (w : World) (s : State) : inputs_load w s → inputs_present s.
Proof.
  intros ([d Hd] & ([c1 H1] & _) & ([c2 H2] & _) & _). unfold loaded_spec in Hd.
  destruct (st_files s !! spec_path) as [c|] eqn:Hc; [|done].
  by repeat split; eapply path_exists_file.
Qed.

(** X1: when one of the three input files is missing, [run_adapter] ends
    before it touches anything: no file is written or opened, no command is
    run, the working directory, the environment and the commits are as
    before, and neither a query nor a manifest is produced.  It ends by
    [sys.exit(1)] exactly when it reaches the missing file before an input
    that does not load (the files are checked and loaded in turn: spec,
    system prompt, user prompt); otherwise it ends by the exception of the
    input that did not load. *)
Theorem missing_input_exits_before_workspace (w : World) (s : State) :
  path_exists s spec_path = false ∨
  path_exists s prompt_path = false ∨
  path_exists s user_prompt_path = false →
  let r := run_adapter w s in
  (fst r = Exit 1 ↔ exits_on_missing_input w s) ∧
  (fst r ≠ Exit 1 → ∃ e, fst r = Raise e) ∧
  st_files (snd r) = st_files s ∧
  st_commits (snd r) = st_commits s ∧
  st_cwd (snd r) = st_cwd s ∧
  st_env (snd r) = st_env s ∧
  commands (st_trace (snd r)) = commands (st_trace s) ∧
  opened_paths (st_trace (snd r)) = opened_paths (st_trace s) ∧
  manifest_dumps (st_trace (snd r)) = manifest_dumps (st_trace s) ∧
  queries (st_trace (snd r)) = queries (st_trace s).
Proof.
  intros Hmissing r.
  destruct (run_adapter_cases w s) as [(Hload & _)|(_ & Hprep & Hout)].
  { apply inputs_load_present in Hload as (? & ? & ?).
    destruct Hmissing as [?|[?|?]]; congruence. }
  fold r in Hprep, Hout.
  destruct (only_prepared_observations _ _ Hprep) as (Hc & Ho & Hm & Hq & _).
  destruct Hprep as (Henv & Hfiles & Hcommits & Hcwd & _).
  repeat split; try done.
  - intros Hexit. destruct Hout as [(? & _)|(_ & e & He)]; [done|congruence].
  - intros Hreach. destruct Hout as [(_ & ?)|(? & _)]; done.
  - intros Hne. destruct Hout as [(_ & ?)|(_ & ?)]; done.
Qed.

(** X1, witness: the user prompt is missing. *)
Lemma missing_input_exits_before_workspace_witness :
  fst (run_adapter (sample_world None [] Exhausted (λ _, None))
         (set_files (delete user_prompt_path) (sample_state host_env))) = Exit 1.
Proof.
  refine (proj2 (proj1 (missing_input_exits_before_workspace
    (sample_world None [] Exhausted (λ _, None))
    (set_files (delete user_prompt_path) (sample_state host_env)) _)) _).
  - right. right. reflexivity.
  - right. split; [by eexists|]. right. split; [|reflexivity]. split; [by eexists|reflexivity].
Defined.

(** A spec file that is present but does not load hides a missing prompt:
    the run ends by the exception of the loader, not by [sys.exit(1)]. *)
Example unloadable_spec_hides_missing_prompt :
  let w := with_yaml_error (sample_world None [] Exhausted (λ _, None)) in
  let s := set_files (delete user_prompt_path) (sample_state host_env) in
  path_exists s user_prompt_path = false ∧
  fst (run_adapter w s) = Raise (mkExn "YAMLError" "could not parse the spec").
Proof. by vm_compute. Qed.

(** ** The baseline on a fresh workspace *)

Lemma subprocess_run_checked (w : World) (argv : list string) (s : State) :
  subprocess_run w argv true false s =
  if fst (w_proc w (run_count (st_trace s)) argv) =? 0
  then (Ok (w_proc w (run_count (st_trace s)) argv), emit (ERun argv) (git_effect argv s))
  else (Raise (mkExn "CalledProcessError"
                 ("Command '" +:+ py_repr (PList (map PStr argv)) +:+
                  "' returned non-zero exit status " +:+
                  pretty (fst (w_proc w (run_count (st_trace s)) argv)) +:+ ".")),
        emit (ERun argv) s).
Proof.
  unfold subprocess_run. by destruct (fst (w_proc w (run_count (st_trace s)) argv) =? 0).
Qed.

Lemma chowned_snoc_other (t : list Effect) (e : Effect) :
  match e with EChown _ _ _ => False | _ => True end →
  chowned (t ++ [e]) = chowned t.
Proof. intros He. rewrite chowned_app. destruct e; try done; apply app_nil_r. Qed.

(** X2: on a workspace without [.git], when [git init], [git add -A] and
    [git commit] succeed, the baseline step returns, appends the ignore
    patterns to [.gitignore] in the working directory (what the file held
    stays in front), creates [.git] there, records exactly one new commit,
    [holon-baseline], and has run six commands in this order: the three
    [git config], [init], [add -A], [commit]. *)
Theorem fresh_baseline_commits_once (w : World) (s : State) :
  path_exists s "/holon/workspace/.git" = false →
  (∀ n, fst (w_proc w n ["git"; "init"]) = 0) →
  (∀ n, fst (w_proc w n ["git"; "add"; "-A"]) = 0) →
  (∀ n, fst (w_proc w n ["git"; "commit"; "-m"; "holon-baseline"]) = 0) →
  let r := workspace_baseline w s in
  let ignore_file := path_join (st_cwd s) ".gitignore" in
  fst r = Ok tt ∧
  st_commits (snd r) = st_commits s ++ ["holon-baseline"] ∧
  st_files (snd r) =
    <[ignore_file := Text (text_of w (st_files s !! ignore_file) +:+ gitignore_patterns)]>
      (st_files s) ∧
  st_dirs (snd r) = {[path_join (st_cwd s) ".git"]} ∪ st_dirs s ∧
  commands (st_trace (snd r)) =
    commands (st_trace s) ++
    [["git"; "config"; "--global"; "--add"; "safe.directory"; "/holon/workspace"];
     ["git"; "config"; "--global"; "user.name"; "holon-adapter"];
     ["git"; "config"; "--global"; "user.email"; "adapter@holon.local"];
     ["git"; "init"]; ["git"; "add"; "-A"]; ["git"; "commit"; "-m"; "holon-baseline"]].
Proof.
  intros Hgit Hinit Hadd Hcommit r ignore_file. subst r ignore_file.
  unfold workspace_baseline, mbind, M_bind.
  rewrite !subprocess_run_unchecked. cbn [git_effect]. rewrite !Tauto.if_same.
  unfold get.
  replace (path_exists _ (path_join workspace_path ".git")) with false.
  cbn [negb]. unfold print, file_append, modify.
  rewrite subprocess_run_checked, Hinit. cbn [Z.eqb].
  rewrite subprocess_run_checked, Hadd. cbn [Z.eqb].
  rewrite subprocess_run_checked, Hcommit. cbn [Z.eqb].
  cbn [mret M_ret fst snd].
  cbn [git_effect String.eqb Ascii.eqb Bool.eqb st_commits st_files st_dirs st_cwd st_trace
       emit set_files set_dirs set_commits].
  repeat split.
  rewrite !commands_app. cbn [commands flat_map app]. by rewrite <- !app_assoc.
Qed.

(** X2, witness: a workspace without repository where git succeeds. *)
Lemma fresh_baseline_commits_once_witness :
  st_commits (snd (workspace_baseline (sample_world None [] Exhausted (λ _, None))
                     (sample_state host_env))) = [] ++ ["holon-baseline"].
Proof.
  exact (proj1 (proj2 (fresh_baseline_commits_once
    (sample_world None [] Exhausted (λ _, None)) (sample_state host_env)
    eq_refl (λ _, eq_refl) (λ _, eq_refl) (λ _, eq_refl)))).
Defined.

(** The baseline step on a workspace without repository raises when one
    of its three checked commands fails; by then it has written no
    manifest, opened no file to overwrite it, sent no query and changed no
    owner.  The one file it may have touched is [.gitignore] in the working
    directory, to which the ignore patterns are appended once [git init]
    has succeeded. *)
Lemma baseline_failure (w : World) (s : State) :
  path_exists s "/holon/workspace/.git" = false →
  (∀ n, fst (w_proc w n ["git"; "init"]) ≠ 0) ∨
  (∀ n, fst (w_proc w n ["git"; "add"; "-A"]) ≠ 0) ∨
  (∀ n, fst (w_proc w n ["git"; "commit"; "-m"; "holon-baseline"]) ≠ 0) →
  let ignore_file := path_join (st_cwd s) ".gitignore" in
  let init_ok := fst (w_proc w (3 + run_count (st_trace s))%nat ["git"; "init"]) =? 0 in
  ∃ e s', workspace_baseline w s = (Raise e, s') ∧
          exn_type e = "CalledProcessError" ∧
          manifest_dumps (st_trace s') = manifest_dumps (st_trace s) ∧
          opened_paths (st_trace s') = opened_paths (st_trace s) ∧
          queries (st_trace s') = queries (st_trace s) ∧
          chowned (st_trace s') = chowned (st_trace s) ∧
          st_files s' =
            (if init_ok
             then <[ignore_file :=
                      Text (text_of w (st_files s !! ignore_file) +:+ gitignore_patterns)]>
                    (st_files s)
             else st_files s).
Proof.
  intros Hgit Hfail ignore_file init_ok. subst ignore_file init_ok.
  unfold workspace_baseline, mbind, M_bind.
  rewrite !subprocess_run_unchecked. cbn [git_effect]. rewrite !Tauto.if_same.
  unfold get.
  replace (path_exists _ (path_join workspace_path ".git")) with false.
  cbn [negb]. unfold print, file_append, modify.
  assert (Hobs : ∀ (t : list Effect) (l : list Effect),
            Forall (λ e, match e with
                         | ERun _ | EPrint _ | EAppend _ _ => True
                         | _ => False
                         end) l →
            manifest_dumps (t ++ l) = manifest_dumps t ∧
            opened_paths (t ++ l) = opened_paths t ∧
            queries (t ++ l) = queries t ∧
            chowned (t ++ l) = chowned t).
  { intros t l Hl.
    rewrite manifest_dumps_app, opened_paths_app, queries_app, chowned_app.
    assert (manifest_dumps l = [] ∧ opened_paths l = [] ∧ queries l = [] ∧ chowned l = [])
      as (-> & -> & -> & ->); [|by rewrite !app_nil_r].
    induction Hl as [|e l He _ (IH1 & IH2 & IH3 & IH4)]; [done|].
    unfold manifest_dumps, opened_paths, queries, chowned in *.
    cbn [flat_map]. rewrite IH1, IH2, IH3, IH4. by destruct e. }
  assert (Hcount : run_count (st_trace
            (emit (EPrint "No git repo found in workspace. Initializing temporary baseline...")
               (emit (ERun ["git"; "config"; "--global"; "user.email"; "adapter@holon.local"])
                  (emit (ERun ["git"; "config"; "--global"; "user.name"; "holon-adapter"])
                     (emit (ERun ["git"; "config"; "--global"; "--add"; "safe.directory";
                                  "/holon/workspace"]) s)))))
          = (3 + run_count (st_trace s))%nat).
  { cbn [st_trace emit]. unfold run_count.
    rewrite !List.filter_app, !length_app. cbn. lia. }
  rewrite subprocess_run_checked, Hcount.
  destruct (fst (w_proc w _ ["git"; "init"]) =? 0) eqn:Hinit.
  2:{ eexists _, _. split; [reflexivity|]. split; [done|].
      cbn [st_trace st_files emit]. rewrite <- !app_assoc.
      repeat split; try apply Hobs; repeat constructor. }
  rewrite subprocess_run_checked.
  destruct (fst (w_proc w _ ["git"; "add"; "-A"]) =? 0) eqn:Hadd.
  2:{ eexists _, _. split; [reflexivity|]. split; [done|].
      cbn [st_trace st_files st_cwd emit set_files git_effect String.eqb Ascii.eqb Bool.eqb
           set_dirs].
      rewrite <- !app_assoc.
      repeat split; try apply Hobs; repeat constructor. }
  rewrite subprocess_run_checked.
  destruct (fst (w_proc w _ ["git"; "commit"; "-m"; "holon-baseline"]) =? 0) eqn:Hcommit.
  2:{ eexists _, _. split; [reflexivity|]. split; [done|].
      cbn [st_trace st_files st_cwd emit set_files git_effect String.eqb Ascii.eqb Bool.eqb
           set_dirs].
      rewrite <- !app_assoc.
      repeat split; try apply Hobs; repeat constructor. }
  exfalso. destruct Hfail as [H|[H|H]].
  - apply Z.eqb_eq in Hinit. by apply H in Hinit.
  - apply Z.eqb_eq in Hadd. by apply H in Hadd.
  - apply Z.eqb_eq in Hcommit. by apply H in Hcommit.
Qed.

Lemma path_exists_preflight (w : World) (s : State) (p : string) :
  p ≠ evidence_dir → p ≠ output_dir →
  path_exists (preflight_state w s) p = path_exists s p.
Proof.
  intros He Ho. by apply path_exists_after_makedirs.
Qed.

Lemma run_count_preflight (w : World) (s : State) :
  run_count (st_trace (preflight_state w s)) = run_count (st_trace s).
Proof.
  unfold preflight_state. cbn [st_trace emit set_env set_cwd set_dirs].
  unfold run_count. rewrite !List.filter_app, !length_app. cbn. lia.
Qed.

(** X3: with inputs that load, an existing workspace directory and no
    repository in it, a failure of [git init], [git add -A] or
    [git commit] is fatal: the run ends with an uncaught
    [CalledProcessError]; no session is started (no query is sent), no
    manifest is written, no file is opened to be overwritten and the
    permission normalizer does not run.  The files are as they were, but for
    [/holon/workspace/.gitignore], to which the ignore patterns have been
    appended when [git init] (the fourth command of the run) succeeded. *)
Theorem failed_baseline_is_fatal (w : World) (s : State) :
  inputs_load w s →
  path_exists s "/holon/workspace/.git" = false →
  (∀ n, fst (w_proc w n ["git"; "init"]) ≠ 0) ∨
  (∀ n, fst (w_proc w n ["git"; "add"; "-A"]) ≠ 0) ∨
  (∀ n, fst (w_proc w n ["git"; "commit"; "-m"; "holon-baseline"]) ≠ 0) →
  let r := run_adapter w s in
  let ignore_file := "/holon/workspace/.gitignore" in
  let init_ok := fst (w_proc w (3 + run_count (st_trace s))%nat ["git"; "init"]) =? 0 in
  (∃ e, fst r = Raise e ∧ exn_type e = "CalledProcessError") ∧
  manifest_dumps (st_trace (snd r)) = manifest_dumps (st_trace s) ∧
  opened_paths (st_trace (snd r)) = opened_paths (st_trace s) ∧
  queries (st_trace (snd r)) = queries (st_trace s) ∧
  chowned (st_trace (snd r)) = chowned (st_trace s) ∧
  st_files (snd r) =
    (if init_ok
     then <[ignore_file :=
              Text (text_of w (st_files s !! ignore_file) +:+
                    newline +:+ "__pycache__/" +:+ newline +:+ "*.pyc" +:+ newline +:+
                    "*.pyo" +:+ newline +:+ ".DS_Store" +:+ newline)]>
            (st_files s)
     else st_files s).
Proof.
  intros Hin Hgit Hfail r ignore_file init_ok. subst r ignore_file init_ok.
  rewrite (run_adapter_after_preflight w s Hin).
  assert (Hgit' : path_exists (preflight_state w s) "/holon/workspace/.git" = false).
  { rewrite path_exists_preflight; [done | discriminate | discriminate]. }
  destruct (baseline_failure w (preflight_state w s) Hgit' Hfail)
    as (e & s' & Hbase & Hty & Hm & Ho & Hq & Hc & Hf).
  rewrite (bind_raise _ _ _ _ _ Hbase). cbn [fst snd].
  rewrite Hm, Ho, Hq, Hc, Hf, run_count_preflight.
  split; [eauto|].
  unfold preflight_state. cbn [st_trace st_files st_cwd emit set_env set_cwd set_dirs].
  rewrite !manifest_dumps_app, !opened_paths_app, !queries_app, !chowned_app.
  cbn [manifest_dumps opened_paths queries chowned flat_map app]. rewrite !app_nil_r.
  repeat split.
Qed.

(** X3, witness: [git init] fails, and the files are as they were. *)
Lemma failed_baseline_is_fatal_witness :
  let w := with_failing_init (sample_world None [] Exhausted (λ _, None)) in
  let r := run_adapter w (sample_state host_env) in
  (∃ e, fst r = Raise e ∧ exn_type e = "CalledProcessError") ∧
  st_files (snd r) = st_files (sample_state host_env).
Proof.
  pose proof (failed_baseline_is_fatal
                (with_failing_init (sample_world None [] Exhausted (λ _, None)))
                (sample_state host_env)) as H.
  cbv zeta in H. cbv zeta.
  destruct H as (He & _ & _ & _ & _ & Hf).
  - repeat split; by eexists.
  - reflexivity.
  - left. intros n. cbn. discriminate.
  - split; [exact He | exact Hf].
Defined.

(** ** The settings sync *)

Lemma json_get_set_eq (fields : list (string * json)) (k : string) (v : json) :
  json_get (json_set fields k v) k = Some v.
Proof.
  induction fields as [|[k0 x] fields IH]; simpl.
  - by rewrite String.eqb_refl.
  - destruct (String.eqb k0 k) eqn:E; simpl; by rewrite E.
Qed.

Lemma json_get_set_ne (fields : list (string * json)) (k k' : string) (v : json) :
  k ≠ k' → json_get (json_set fields k v) k' = json_get fields k'.
Proof.
  intros Hne. induction fields as [|[k0 x] fields IH]; simpl.
  - destruct (String.eqb_spec k k'); [done | done].
  - destruct (String.eqb_spec k0 k) as [->|Hk0]; simpl.
    + by destruct (String.eqb_spec k k').
    + by rewrite IH.
Qed.

(** An assignment keeps the keys in place: a present key keeps its
    position, a new key goes to the end. *)
Lemma json_set_keys (fields : list (string * json)) (k : string) (v : json) :
  map fst (json_set fields k v) =
  if bool_decide (k ∈ map fst fields) then map fst fields else map fst fields ++ [k].
Proof.
  induction fields as [|[k0 x] fields IH]; [done|].
  cbn [json_set map fst].
  destruct (String.eqb_spec k0 k) as [->|Hk0].
  - rewrite bool_decide_eq_true_2; [done | left].
  - cbn [map fst]. rewrite IH.
    destruct (bool_decide (k ∈ map fst fields)) eqn:E.
    + apply bool_decide_eq_true in E. rewrite bool_decide_eq_true_2; [done | by right].
    + apply bool_decide_eq_false in E. rewrite bool_decide_eq_false_2; [done|].
      intros [Heq|Hin]%elem_of_cons; [by subst | done].
Qed.

Lemma sync_claude_settings_cases (w : World) (s : State) :
  sync_claude_settings w s =
  if path_exists s (w_settings_path w) then
    match st_files s !! w_settings_path w with
    | None =>
        (Ok tt, emit (EPrint ("Warning: Failed to sync Claude settings: " +:+
                              "[Errno 21] Is a directory: " +:+ repr_str (w_settings_path w))) s)
    | Some c =>
        match (match c with Json j => inr j | Text t => w_json_loads w t end) with
        | inl e => (Ok tt, emit (EPrint ("Warning: Failed to sync Claude settings: " +:+
                                         exn_msg e)) s)
        | inr (JObj fields) =>
            match default (JObj []) (json_get fields "env") with
            | JObj env0 =>
                (Ok tt,
                 emit (EPrint ("Synced environment to " +:+ w_settings_path w))
                   (json_dump_state (w_settings_path w)
                      (JObj (json_set fields "env" (JObj (synced_env (st_env s) env0))))
                      (open_write_state (w_settings_path w) s)))
            | _ => (Ok tt, emit (EPrint ("Warning: Failed to sync Claude settings: " +:+
                                         "object does not support item assignment")) s)
            end
        | inr _ => (Ok tt, emit (EPrint ("Warning: Failed to sync Claude settings: " +:+
                                         "object has no attribute 'get'")) s)
        end
    end
  else (Ok tt, s).
Proof.
  unfold sync_claude_settings, read_json, try_except, mbind, M_bind, get, raise, mret, M_ret.
  destruct (path_exists s (w_settings_path w)); [|done].
  destruct (st_files s !! w_settings_path w) as [[t|j]|]; [| |done].
  - destruct (w_json_loads w t) as [e|j]; [done|].
    destruct j as [| | |fields|]; try done.
    by destruct (default (JObj []) (json_get fields "env")).
  - destruct j as [| | |fields|]; try done.
    by destruct (default (JObj []) (json_get fields "env")).
Qed.

(** X4: the settings sync never raises and touches nothing but the
    settings file: it returns normally, every other file is as before, and
    so are the environment, the directories, the commits, the working
    directory and the clock; it runs no command. Without a settings file
    it changes nothing at all. *)
Theorem sync_touches_only_settings (w : World) (s : State) :
  let r := sync_claude_settings w s in
  fst r = Ok tt ∧
  (∀ p, p ≠ w_settings_path w → st_files (snd r) !! p = st_files s !! p) ∧
  st_env (snd r) = st_env s ∧
  st_dirs (snd r) = st_dirs s ∧
  st_commits (snd r) = st_commits s ∧
  st_cwd (snd r) = st_cwd s ∧
  st_clock (snd r) = st_clock s ∧
  commands (st_trace (snd r)) = commands (st_trace s) ∧
  queries (st_trace (snd r)) = queries (st_trace s) ∧
  (path_exists s (w_settings_path w) = false → snd r = s).
Proof.
  intros r. subst r. rewrite sync_claude_settings_cases.
  destruct (path_exists s (w_settings_path w)); [|by repeat split].
  assert (Hwarn : ∀ line,
    let s' := emit (EPrint line) s in
    (Ok tt, s').1 = Ok tt ∧
    (∀ p, p ≠ w_settings_path w → st_files (Ok tt, s').2 !! p = st_files s !! p) ∧
    st_env (Ok tt, s').2 = st_env s ∧ st_dirs (Ok tt, s').2 = st_dirs s ∧
    st_commits (Ok tt, s').2 = st_commits s ∧ st_cwd (Ok tt, s').2 = st_cwd s ∧
    st_clock (Ok tt, s').2 = st_clock s ∧
    commands (st_trace (Ok tt, s').2) = commands (st_trace s) ∧
    queries (st_trace (Ok tt, s').2) = queries (st_trace s) ∧
    (true = false → (Ok tt, s').2 = s)).
  { intros line s'. subst s'. cbn [fst snd st_files st_env st_dirs st_commits st_cwd st_clock
                                   st_trace emit].
    rewrite commands_app, queries_app. cbn. rewrite !app_nil_r. by repeat split. }
  destruct (st_files s !! w_settings_path w) as [c|]; [|apply Hwarn].
  destruct (match c with Json j => inr j | Text t => w_json_loads w t end) as [e|j];
    [apply Hwarn|].
  destruct j as [| | |fields|]; try apply Hwarn.
  destruct (default (JObj []) (json_get fields "env")); try apply Hwarn.
  cbn [fst snd st_files st_env st_dirs st_commits st_cwd st_clock st_trace emit
       json_dump_state open_write_state set_files].
  rewrite !commands_app, !queries_app. cbn [commands queries flat_map app].
  rewrite !app_nil_r.
  repeat split; try done.
  intros p Hp. by rewrite !lookup_insert_ne.
Qed.

(** X5: when the settings file loads to an object whose [env] entry is an
    object or absent, the sync rewrites the file so that: every top-level
    key other than [env] keeps its value; in [env], [IS_SANDBOX] is ["1"];
    a non-empty token (ANTHROPIC_AUTH_TOKEN, else ANTHROPIC_API_KEY) is
    stored under both token keys, and a non-empty base URL
    (ANTHROPIC_BASE_URL, else ANTHROPIC_API_URL) under the three URL keys;
    every other key of [env] keeps its value. *)
Theorem sync_writes_credentials (w : World) (s : State)
    (fields env0 : list (string * json)) :
  loaded_settings w s = Some (JObj fields) →
  default (JObj []) (json_get fields "env") = JObj env0 →
  let r := sync_claude_settings w s in
  let env := st_env s in
  ∃ fields' env',
    fst r = Ok tt ∧
    st_files (snd r) !! w_settings_path w = Some (Json (JObj fields')) ∧
    json_get fields' "env" = Some (JObj env') ∧
    (∀ k, k ≠ "env" → json_get fields' k = json_get fields k) ∧
    json_get env' "IS_SANDBOX" = Some (JStr "1") ∧
    (∀ token, env_or env "ANTHROPIC_AUTH_TOKEN" "ANTHROPIC_API_KEY" = Some token →
              token ≠ "" →
              json_get env' "ANTHROPIC_AUTH_TOKEN" = Some (JStr token) ∧
              json_get env' "ANTHROPIC_API_KEY" = Some (JStr token)) ∧
    (∀ url, env_or env "ANTHROPIC_BASE_URL" "ANTHROPIC_API_URL" = Some url →
            url ≠ "" →
            json_get env' "ANTHROPIC_BASE_URL" = Some (JStr url) ∧
            json_get env' "ANTHROPIC_API_URL" = Some (JStr url) ∧
            json_get env' "CLAUDE_CODE_API_URL" = Some (JStr url)) ∧
    (∀ k, k ∉ synced_keys → json_get env' k = json_get env0 k).
Proof.
  intros Hload Henv r env. subst r env.
  exists (json_set fields "env" (JObj (synced_env (st_env s) env0))),
         (synced_env (st_env s) env0).
  rewrite sync_claude_settings_cases.
  unfold loaded_settings in Hload.
  destruct (st_files s !! w_settings_path w) as [c|] eqn:Hfile; [|done].
  rewrite (path_exists_file s _ c Hfile).
  assert (Hc : (match c with Json j => inr j | Text t => w_json_loads w t end)
               = inr (JObj fields)).
  { destruct c as [t|j]; [|by injection Hload as ->].
    destruct (w_json_loads w t); [done | by injection Hload as ->]. }
  rewrite Hc, Henv.
  cbn [fst snd st_files emit json_dump_state open_write_state set_files].
  split; [done|]. split; [apply lookup_insert_eq|].
  split; [apply json_get_set_eq|].
  split; [intros k Hk; by apply json_get_set_ne|].
  unfold synced_env.
  split; [apply json_get_set_eq|].
  split; [|split].
  - intros token Htok Hne. rewrite Htok.
    assert (Ht : truthy (Some token) = true) by (by destruct token).
    rewrite Ht. cbn [default from_option id].
    destruct (truthy (env_or (st_env s) "ANTHROPIC_BASE_URL" "ANTHROPIC_API_URL"));
      split; rewrite ?json_get_set_ne by discriminate; apply json_get_set_eq.
  - intros url Hurl Hne. rewrite Hurl.
    assert (Ht : truthy (Some url) = true) by (by destruct url).
    rewrite Ht. cbn [default from_option id].
    repeat split; rewrite ?json_get_set_ne by discriminate; apply json_get_set_eq.
  - intros k Hk.
    assert (Hk' : ∀ k0, k0 ∈ synced_keys → k0 ≠ k).
    { intros k0 Hin ->. done. }
    rewrite json_get_set_ne by (apply Hk'; set_solver).
    destruct (truthy (env_or (st_env s) "ANTHROPIC_BASE_URL" "ANTHROPIC_API_URL"));
      destruct (truthy (env_or (st_env s) "ANTHROPIC_AUTH_TOKEN" "ANTHROPIC_API_KEY"));
      rewrite ?json_get_set_ne; try done; apply Hk'; unfold synced_keys; set_solver.
Qed.

(** X5, witness: a settings file with a theme and an [env] section, and a
    token in the environment. *)
Lemma sync_writes_credentials_witness :
  ∃ fields' env',
    fst (sync_claude_settings (sample_world None [] Exhausted (λ _, None)) settings_state)
      = Ok tt ∧
    st_files (snd (sync_claude_settings (sample_world None [] Exhausted (λ _, None))
                     settings_state))
      !! "/root/.claude/settings.json" = Some (Json (JObj fields')) ∧
    json_get fields' "env" = Some (JObj env') ∧
    json_get fields' "theme" = Some (JStr "dark") ∧
    json_get env' "IS_SANDBOX" = Some (JStr "1") ∧
    json_get env' "ANTHROPIC_AUTH_TOKEN" = Some (JStr "sk-test") ∧
    json_get env' "EDITOR" = Some (JStr "vi").
Proof.
  assert (Hload : loaded_settings (sample_world None [] Exhausted (λ _, None)) settings_state
                  = Some (JObj [("theme", JStr "dark"); ("env", JObj [("EDITOR", JStr "vi")])]))
    by (vm_compute; reflexivity).
  assert (Htok : env_or (st_env settings_state) "ANTHROPIC_AUTH_TOKEN" "ANTHROPIC_API_KEY"
                 = Some "sk-test") by (vm_compute; reflexivity).
  destruct (sync_writes_credentials (sample_world None [] Exhausted (λ _, None))
              settings_state
              [("theme", JStr "dark"); ("env", JObj [("EDITOR", JStr "vi")])]
              [("EDITOR", JStr "vi")] Hload eq_refl)
    as (fields' & env' & H1 & H2 & H3 & H4 & H5 & H6 & _ & H8).
  exists fields', env'.
  split; [exact H1|]. split; [exact H2|]. split; [exact H3|].
  split; [exact (H4 "theme" ltac:(discriminate))|]. split; [exact H5|].
  split; [exact (proj1 (H6 "sk-test" Htok ltac:(discriminate)))|].
  apply (H8 "EDITOR"). unfold synced_keys. rewrite !elem_of_cons, elem_of_nil.
  intros [H|[H|[H|[H|[H|[H|[]]]]]]]; discriminate H.
Defined.

(** ** The summary *)

(** The summary file as the streaming phase leaves it. *)
Lemma stream_phase_summary (w : World) (user_msg : string) (s s1 : State) (r : string * bool) :
  stream_phase w user_msg s = (Ok r, s1) →
  st_dirs s1 = st_dirs s ∧
  st_files s1 !! summary_out =
    match w_agent_summary w with
    | Some text => Some (Text text)
    | None => st_files s !! summary_out
    end.
Proof.
  rewrite stream_phase_spec.
  destruct (w_connect w); [done|]. destruct (w_query w); [done|]. cbn zeta.
  destruct (loop_result w (w_stream w) "" true) as [r'| | |]; try done.
  intros [= _ <-].
  destruct (loop_state_rest w (w_stream w) (streaming_state w user_msg s)) as (_ & Hd & _).
  cbn [finished_state emit set_files st_files st_dirs]. rewrite Hd.
  rewrite (loop_state_files w (w_stream w) _ "" (streaming_state_log w user_msg s)).
  split.
  - unfold streaming_state, agent_state. by destruct (w_agent_summary w).
  - rewrite !lookup_insert_ne by discriminate.
    unfold streaming_state, agent_state.
    destruct (w_agent_summary w); cbn [st_files emit set_files set_clock querying_state].
    + by rewrite lookup_insert_eq.
    + by rewrite lookup_insert_ne by discriminate.
Qed.

(** A session that returned went through artifact generation without an
    error. *)
Lemma run_session_ok_closed (w : World) (goal : pyval) (user_msg : string) (s : State) :
  fst (run_session w goal user_msg s) = Ok tt →
  ∃ result success,
    fst (stream_phase w user_msg s) = Ok (result, success) ∧
    artifact_error w (snd (stream_phase w user_msg s)) = None ∧
    snd (run_session w goal user_msg s) =
    snd (fix_permissions w output_dir
           (artifact_state w goal result success (st_clock s)
              (snd (stream_phase w user_msg s)))).
Proof.
  intros Hok.
  destruct (run_session_closed w goal user_msg s)
    as [(result & success & Hs & Herr & _ & Hr)
       |[(? & ? & ? & _ & _ & Hf & _)|[(? & _ & Hf & _)|(_ & Hf & _)]]];
    try congruence.
  by exists result, success.
Qed.

(** X6. [adapter.py], lines 233-247. When the session returns,
    [summary.md] holds the summary the agent wrote during the session;
    without one it holds the text that was read from the file it was before
    the session; only when the file does not exist at all does it get the
    fallback summary built from the goal, the outcome and the accumulated
    output. *)
Theorem summary_is_agents_or_fallback (w : World) (goal : pyval) (user_msg : string) (s : State)
    (result : string) (success : bool) :
  fst (stream_phase w user_msg s) = Ok (result, success) →
  fst (run_session w goal user_msg s) = Ok tt →
  st_files (snd (run_session w goal user_msg s)) !! summary_out =
  Some (Text (match w_agent_summary w with
              | Some text => text
              | None =>
                  if path_exists s summary_out
                  then text_of w (st_files s !! summary_out)
                  else fallback_summary goal success result
              end)).
Proof.
  intros Hstream Hok.
  destruct (run_session_ok_closed w goal user_msg s Hok) as (result' & success' & Hs & _ & Hr).
  rewrite Hstream in Hs. injection Hs as <- <-.
  rewrite Hr, fix_permissions_keeps_files, artifact_state_files, lookup_insert_eq.
  destruct (stream_phase w user_msg s) as [r s1] eqn:Hsp. cbn [fst snd] in *. subst r.
  destruct (stream_phase_summary w user_msg s s1 _ Hsp) as (Hd & Hf).
  unfold summary_text_of, path_exists. rewrite Hd, Hf.
  destruct (w_agent_summary w) as [text|]; [|done].
  by rewrite bool_decide_true by done.
Qed.

(** X6, witness: a session without a summary of the agent's, in a
    workspace without [summary.md]. *)
Lemma summary_is_agents_or_fallback_witness :
  let w := sample_world None [(5, ResultMessage "success" false)] Exhausted (λ _, None) in
  let s := sample_state ∅ in
  fst (stream_phase w "do it" s) = Ok ("", true) ∧
  fst (run_session w (PStr "Add a README") "do it" s) = Ok tt ∧
  st_files (snd (run_session w (PStr "Add a README") "do it" s)) !! summary_out =
  Some (Text (fallback_summary (PStr "Add a README") true "")).
Proof.
  intros w s.
  assert (H : fst (stream_phase w "do it" s) = Ok ("", true)) by (vm_compute; reflexivity).
  assert (H' : fst (run_session w (PStr "Add a README") "do it" s) = Ok tt)
    by (vm_compute; reflexivity).
  split; [exact H|]. split; [exact H'|].
  exact (summary_is_agents_or_fallback w (PStr "Add a README") "do it" s "" true H H').
Defined.

(** ** The fallback summary *)

Lemma replace_char_length (old new : ascii) (text : string) :
  String.length (replace_char old (String new "") text) = String.length text.
Proof.
  induction text as [|c text IH]; [done|].
  cbn [replace_char]. destruct (Ascii.eqb c old); rewrite append_cons, append_empty_l;
    cbn [String.length]; by rewrite IH.
Qed.

Lemma replace_char_removes (old new : ascii) (text : string) :
  new ≠ old → str_contains old (replace_char old (String new "") text) = false.
Proof.
  intros Hne. induction text as [|c text IH]; [done|].
  cbn [replace_char]. destruct (Ascii.eqb c old) eqn:Hc;
    rewrite append_cons, append_empty_l; cbn [str_contains].
  - apply Ascii.eqb_neq in Hne. by rewrite Hne.
  - by rewrite Hc.
Qed.

Lemma replace_char_absent (old : ascii) (new text : string) :
  str_contains old text = false → replace_char old new text = text.
Proof.
  induction text as [|c text IH]; [done|].
  cbn [str_contains replace_char]. destruct (Ascii.eqb c old); [done|].
  intros H. by rewrite append_cons, append_empty_l, IH.
Qed.

Lemma replace_char_chars (old new : ascii) (text : string) :
  list_ascii_of_string (replace_char old (String new "") text) =
  map (λ c, if Ascii.eqb c old then new else c) (list_ascii_of_string text).
Proof.
  induction text as [|c text IH]; [done|].
  cbn [replace_char list_ascii_of_string map].
  destruct (Ascii.eqb c old); rewrite append_cons, append_empty_l;
    cbn [list_ascii_of_string]; by rewrite IH.
Qed.

(** X7. [adapter.py], lines 241-244. The goal shown in the fallback
    summary is the goal's string with every line feed turned into one
    space and every other character kept, in order: it has the length of
    the goal, holds no line feed, and is the goal itself when that is a
    single line; the summary is the fixed frame around it, the outcome word
    and the accumulated output. *)
Theorem fallback_summary_goal_on_one_line (goal : pyval) (success : bool) (result : string) :
  ∃ display_goal,
    fallback_summary goal success result =
      "# Task Summary" +:+ newline +:+ newline +:+
      "Goal: " +:+ display_goal +:+ newline +:+ newline +:+
      "Outcome: " +:+ (if success then "Success" else "Failure") +:+ newline +:+ newline +:+
      "## Actions" +:+ newline +:+ result +:+ newline ∧
    list_ascii_of_string display_goal =
      map (λ c, if Ascii.eqb c (ascii_of_N 10) then " "%char else c)
          (list_ascii_of_string (py_str goal)) ∧
    String.length display_goal = String.length (py_str goal) ∧
    str_contains (ascii_of_N 10) display_goal = false ∧
    (str_contains (ascii_of_N 10) (py_str goal) = false → display_goal = py_str goal).
Proof.
  exists (replace_char (ascii_of_N 10) " " (py_str goal)).
  split; [done|]. split; [apply replace_char_chars|]. split; [apply replace_char_length|].
  split; [by apply replace_char_removes|]. apply replace_char_absent.
Qed.

(** The fallback summary of a goal of two lines. *)
Example fallback_summary_two_line_goal :
  fallback_summary (PStr ("Fix the bug" +:+ newline +:+ "and test")) false "tried" =
  "# Task Summary" +:+ newline +:+ newline +:+
  "Goal: Fix the bug and test" +:+ newline +:+ newline +:+
  "Outcome: Failure" +:+ newline +:+ newline +:+
  "## Actions" +:+ newline +:+ "tried" +:+ newline.
Proof. by vm_compute. Qed.

(** ** The patch *)



(** A patch that does not decode: the run exits with status 1 and writes
    no [diff.patch]. *)
Example undecodable_patch_is_not_written :
  let w := with_undecodable_diff
             (sample_world None [(5, ResultMessage "success" false)] Exhausted (λ _, None)) in
  let r := run_session w (PStr "Add a README") "do it" (sample_state ∅) in
  fst r = Exit 1 ∧ st_files (snd r) !! diff_path = None.
Proof. by vm_compute. Qed.

(** ** The duration in the manifest *)

Lemma loop_state_clock (w : World) (items : list (Z * Message)) :
  ∀ s, st_clock (loop_state w items s) = st_clock s + loop_elapsed w items.
Proof.
  induction items as [|[d msg] rest IH]; intros s; [done|].
  destruct msg; cbn [loop_state loop_elapsed]; rewrite ?IH; cbn; lia.
Qed.

Lemma loop_elapsed_with_result (w : World) (pre rest : list (Z * Message)) (d : Z)
    (subtype : string) (is_error : bool) :
  terminal pre = None →
  loop_elapsed w (pre ++ (d, ResultMessage subtype is_error) :: rest) = total_wait pre + d.
Proof.
  induction pre as [|[d0 m0] pre IH]; intros Hpre; [cbn; lia|].
  destruct m0; try discriminate; cbn in Hpre; cbn [app loop_elapsed];
    rewrite (IH Hpre); unfold total_wait; cbn; lia.
Qed.

Lemma loop_elapsed_exhausted (w : World) (items : list (Z * Message)) :
  terminal items = None →
  loop_elapsed w items = total_wait items + w_stream_end_wait w.
Proof.
  induction items as [|[d0 m0] items IH]; intros Hpre; [cbn; lia|].
  destruct m0; try discriminate; cbn in Hpre; cbn [loop_elapsed];
    rewrite (IH Hpre); unfold total_wait; cbn; lia.
Qed.

Lemma streaming_state_clock (w : World) (user_msg : string) (s : State) :
  st_clock (streaming_state w user_msg s) = st_clock s + w_connect_wait w + w_query_wait w.
Proof. unfold streaming_state, agent_state. by destruct (w_agent_summary w). Qed.

(** X9. [adapter.py], lines 158, 193-194 and 218. When the session
    returns, the [duration] field of the manifest is the time from before
    [client.connect] to the moment the loop was left: the connect and query
    waits plus the waits of the messages consumed. With a result in the
    stream that is the waits up to and including the first result, whatever
    follows it; with an exhausted stream it is every wait and the final
    one. *)
Theorem manifest_duration_is_session_time (w : World) (goal : pyval) (user_msg : string)
    (s : State) :
  fst (run_session w goal user_msg s) = Ok tt →
  let r := run_session w goal user_msg s in
  let duration := w_connect_wait w + w_query_wait w + loop_elapsed w (w_stream w) in
  (∃ m, st_files (snd r) !! manifest_path = Some (Json m) ∧
        json_field m "duration" = Some (JSeconds duration)) ∧
  (∀ pre d subtype is_error rest,
     w_stream w = pre ++ (d, ResultMessage subtype is_error) :: rest →
     terminal pre = None →
     duration = w_connect_wait w + w_query_wait w + total_wait pre + d) ∧
  (terminal (w_stream w) = None →
   duration = w_connect_wait w + w_query_wait w + total_wait (w_stream w) + w_stream_end_wait w).
Proof.
  intros Hok r duration. subst r duration.
  destruct (run_session_ok_closed w goal user_msg s Hok) as (result & success & Hs & _ & Hr).
  split; [|split].
  - exists (success_manifest success
              (w_connect_wait w + w_query_wait w + loop_elapsed w (w_stream w))).
    split; [|reflexivity].
    rewrite Hr, fix_permissions_keeps_files, artifact_state_files.
    rewrite !lookup_insert_ne by discriminate. rewrite lookup_insert_eq.
    destruct (stream_phase w user_msg s) as [r1 s1] eqn:Hstream. cbn [fst snd] in *. subst r1.
    rewrite stream_phase_spec in Hstream.
    destruct (w_connect w); [done|]. destruct (w_query w); [done|]. cbn zeta in Hstream.
    destruct (loop_result w (w_stream w) "" true) as [r'| | |]; try done.
    injection Hstream as _ <-.
    cbn [finished_state emit set_files st_clock].
    rewrite loop_state_clock, streaming_state_clock.
    do 3 f_equal. lia.
  - intros pre d subtype is_error rest -> Hpre.
    rewrite (loop_elapsed_with_result w pre rest d subtype is_error Hpre). lia.
  - intros Hnone. rewrite (loop_elapsed_exhausted w _ Hnone). lia.
Qed.

(** X9, witness: a result after 5 + 7 microseconds, with a later message
    that is not waited for. *)
Lemma manifest_duration_is_session_time_witness :
  let w := sample_world None [(5, AssistantMessage [TextBlock "hi"]);
                              (7, ResultMessage "success" false);
                              (11, OtherMessage "late")] Exhausted (λ _, None) in
  let s := sample_state ∅ in
  fst (run_session w (PStr "Add a README") "do it" s) = Ok tt ∧
  ∃ m, st_files (snd (run_session w (PStr "Add a README") "do it" s)) !! manifest_path =
       Some (Json m) ∧
       json_field m "duration" = Some (JSeconds 12).
Proof.
  intros w s.
  assert (H : fst (run_session w (PStr "Add a README") "do it" s) = Ok tt)
    by (vm_compute; reflexivity).
  split; [exact H|].
  exact (proj1 (manifest_duration_is_session_time w (PStr "Add a README") "do it" s H)).
Defined.

(** ** Ownership at the end of a session *)

Lemma fix_permissions_chowned (w : World) (directory : string) (s : State)
    (us gs : string) (uid gid : Z) :
  st_env s !! "HOST_UID" = Some us → py_int us = Some uid →
  st_env s !! "HOST_GID" = Some gs → py_int gs = Some gid →
  chowned (st_trace (snd (fix_permissions w directory s))) =
  chowned (st_trace s) ++ reowned w uid gid (chown_targets w directory).
Proof.
  intros Hu Hpu Hg Hpg.
  destruct (py_int_some_nonempty _ _ Hpu) as (a & u & ->).
  destruct (py_int_some_nonempty _ _ Hpg) as (b & g & ->).
  rewrite fix_permissions_cases, Hu, Hg, Hpu, Hpg. cbn [fst snd].
  rewrite st_trace_add_trace, chowned_app. f_equal.
  change (chowned (chown_effects w uid gid (chown_targets w directory) ++
                   chown_warning w uid gid (chown_targets w directory)) =
          reowned w uid gid (chown_targets w directory)).
  by rewrite chowned_app, chowned_chown_effects, chowned_chown_warning, app_nil_r.
Qed.



(** ** The evidence log after a session error *)

(** X11. [adapter.py], lines 163-188 and 252-263. What the evidence log
    holds after a session error depends on where the error came from: a
    failed connect leaves the log as it was (it is never opened); a failed
    query leaves it empty; an error raised by the stream leaves one line
    per message received, [Message: ] followed by the message's string and
    a line feed, in order, and no final-output section. In each case the
    run ends with exit status 1. *)
Theorem evidence_log_after_session_error (w : World) (goal : pyval) (user_msg : string)
    (s : State) (e : Exn) :
  session_error w e →
  let r := run_session w goal user_msg s in
  let line := λ msg, "Message: " +:+ w_msg_str w msg +:+ newline in
  fst r = Exit 1 ∧
  st_files (snd r) !! log_file_path =
    match w_connect w, w_query w with
    | Some _, _ => st_files s !! log_file_path
    | None, Some _ => Some (Text "")
    | None, None => Some (Text (concat_strings (map line (map snd (w_stream w)))))
    end.
Proof.
  intros Herr r line. subst r line. change (λ msg, _) with (log_line w).
  assert (Hstream : ∃ s1, stream_phase w user_msg s = (Raise e, s1) ∧
            st_files s1 !! log_file_path =
              match w_connect w, w_query w with
              | Some _, _ => st_files s !! log_file_path
              | None, Some _ => Some (Text "")
              | None, None =>
                  Some (Text (concat_strings (map (log_line w) (map snd (w_stream w)))))
              end).
  { rewrite stream_phase_spec.
    destruct Herr as [e Hc|e Hc Hq|e Hc Hq Hterm Hend]; rewrite Hc, ?Hq.
    - eexists. split; [reflexivity|]. done.
    - eexists. split; [reflexivity|]. cbn. by rewrite lookup_insert_eq.
    - cbn zeta. unfold loop_result. rewrite Hterm, Hend.
      eexists. split; [reflexivity|].
      rewrite (loop_state_files w (w_stream w) _ "" (streaming_state_log w user_msg s)).
      rewrite lookup_insert_eq, append_empty_l, log_lines_concat.
      by rewrite (consumed_without_result _ Hterm). }
  destruct Hstream as (s1 & Hstream & Hlog).
  rewrite (run_session_raise_closed w goal user_msg s s1 e Hstream). cbn [fst snd].
  split; [done|].
  rewrite fix_permissions_keeps_files. unfold failure_state, json_dump_state, open_write_state.
  cbn [st_files emit set_files]. by rewrite !lookup_insert_ne by discriminate.
Qed.

(** X11, witness: the stream raises after two messages. *)
Lemma evidence_log_after_session_error_witness :
  let w := sample_world None [(5, AssistantMessage [TextBlock "hi"]); (7, OtherMessage "tool")]
             (Raises connection_refused) (λ _, None) in
  let r := run_session w (PStr "Add a README") "do it" (sample_state ∅) in
  fst r = Exit 1 ∧
  st_files (snd r) !! log_file_path =
    Some (Text ("Message: " +:+ w_msg_str w (AssistantMessage [TextBlock "hi"]) +:+ newline +:+
                "Message: " +:+ w_msg_str w (OtherMessage "tool") +:+ newline)).
Proof.
  intros w.
  exact (evidence_log_after_session_error w (PStr "Add a README") "do it" (sample_state ∅)
           connection_refused (stream_error w connection_refused eq_refl eq_refl eq_refl eq_refl)).
Defined.

(** ** The phases before the session *)

Lemma same_process_refl (s : State) : same_process s s.
Proof. by repeat split. Qed.

Lemma same_process_trans (s1 s2 s3 : State) :
  same_process s1 s2 → same_process s2 s3 → same_process s1 s3.
Proof.
  intros (He & Hc & Hd & Hq & Ho) (He' & Hc' & Hd' & Hq' & Ho').
  repeat split; try congruence. set_solver.
Qed.

Lemma same_process_emit (e : Effect) (s : State) :
  match e with EQuery _ | EChown _ _ _ => False | _ => True end →
  same_process s (emit e s).
Proof.
  intros He. unfold same_process. cbn [emit st_env st_cwd st_dirs st_trace].
  rewrite queries_app, chowned_app.
  repeat split; destruct e; try done; cbn; by rewrite app_nil_r.
Qed.

Lemma same_process_set_files (f : gmap string FileContent → gmap string FileContent) (s : State) :
  same_process s (set_files f s).
Proof. by repeat split. Qed.

Lemma preparatory_ret {A} (a : A) : preparatory (mret a : M A).
Proof. intros s. split; [apply same_process_refl|done]. Qed.

Lemma preparatory_raise {A} (e : Exn) : preparatory (raise e : M A).
Proof. intros s. split; [apply same_process_refl|done]. Qed.

Lemma preparatory_bind {A B} (m : M A) (k : A → M B) :
  preparatory m → (∀ a, preparatory (k a)) → preparatory (m ≫= k).
Proof.
  intros Hm Hk s. unfold mbind, M_bind.
  destruct (Hm s) as (Hs & Hexit & Hhang).
  destruct (m s) as [[a|e|c|] s1]; cbn [fst snd] in *.
  - destruct (Hk a s1) as (Hs' & Hrest). split; [|done].
    by apply (same_process_trans s s1).
  - done.
  - by destruct (Hexit c).
  - done.
Qed.

Lemma preparatory_try_except {A} (body : M A) (handler : Exn → M A) :
  preparatory body → (∀ e, preparatory (handler e)) → preparatory (try_except body handler).
Proof.
  intros Hm Hk s. unfold try_except.
  destruct (Hm s) as (Hs & Hexit & Hhang).
  destruct (body s) as [[a|e|c|] s1]; cbn [fst snd] in *; try done.
  destruct (Hk e s1) as (Hs' & Hrest). split; [|done].
  by apply (same_process_trans s s1).
Qed.

Lemma preparatory_get : preparatory get.
Proof. intros s. split; [apply same_process_refl|done]. Qed.

Lemma preparatory_modify (f : State → State) :
  (∀ s, same_process s (f s)) → preparatory (modify f).
Proof. intros Hf s. split; [apply Hf|done]. Qed.

Lemma preparatory_print (line : string) : preparatory (print line).
Proof. apply preparatory_modify. intros s. by apply same_process_emit. Qed.

Lemma preparatory_open_write (path : string) : preparatory (open_write path).
Proof.
  apply preparatory_modify; intros s.
  eapply same_process_trans; [apply same_process_set_files | by apply same_process_emit].
Qed.

Lemma preparatory_file_append (w : World) (path text : string) :
  preparatory (file_append w path text).
Proof.
  apply preparatory_modify; intros s.
  eapply same_process_trans; [apply same_process_set_files | by apply same_process_emit].
Qed.

Lemma preparatory_json_dump (path : string) (doc : json) : preparatory (json_dump path doc).
Proof.
  apply preparatory_modify; intros s.
  eapply same_process_trans; [apply same_process_set_files | by apply same_process_emit].
Qed.

Lemma preparatory_run (w : World) (argv : list string) (check text : bool) :
  preparatory (subprocess_run w argv check text).
Proof.
  intros s. unfold subprocess_run. cbn zeta.
  assert (Hgit : same_process s (git_effect argv s)).
  { unfold git_effect. repeat (destruct argv as [|? argv]; try apply same_process_refl).
    - destruct (String.eqb _ "init"); [|apply same_process_refl].
      repeat split. cbn. set_solver.
    - destruct (String.eqb _ "commit"); [|apply same_process_refl]. by repeat split. }
  assert (Hs : same_process s
                 (emit (ERun argv)
                    (if fst (w_proc w (run_count (st_trace s)) argv) =? 0
                     then git_effect argv s else s))).
  { destruct (fst (w_proc w (run_count (st_trace s)) argv) =? 0).
    - eapply same_process_trans; [exact Hgit | by apply same_process_emit].
    - by apply same_process_emit. }
  destruct (if text then w_decode_error w (run_count (st_trace s)) argv else None); [done|].
  by destruct (check && negb (fst (w_proc w (run_count (st_trace s)) argv) =? 0)).
Qed.

Create HintDb prep discriminated.

#[local] Hint Resolve preparatory_ret preparatory_raise preparatory_get preparatory_print
  preparatory_run preparatory_open_write preparatory_file_append preparatory_json_dump : prep.

(** Take a sequence of preparatory steps apart. *)
Ltac prep_steps :=
  repeat first [ solve [auto with prep] | apply preparatory_bind; [|intros ?] ].

Lemma workspace_baseline_preparatory (w : World) : preparatory (workspace_baseline w).
Proof.
  unfold workspace_baseline. prep_steps.
  destruct (negb _); prep_steps.
Qed.

Lemma read_json_preparatory (w : World) (path : string) : preparatory (read_json w path).
Proof.
  unfold read_json. prep_steps.
  destruct (st_files _ !! path) as [[t|j]|]; prep_steps.
  destruct (w_json_loads w t); prep_steps.
Qed.

Lemma sync_claude_settings_preparatory (w : World) : preparatory (sync_claude_settings w).
Proof.
  unfold sync_claude_settings. prep_steps. cbn zeta.
  destruct (path_exists _ (w_settings_path w)); prep_steps.
  apply preparatory_try_except; [|intros e; prep_steps].
  apply preparatory_bind; [apply read_json_preparatory | intros settings].
  destruct settings; prep_steps.
  destruct (default (JObj []) (json_get fields "env")); prep_steps.
Qed.

(** A session keeps the environment, the working directory and the
    directories, never ends by an exception, and sends the user message
    once the connection and the query call succeeded. *)
Lemma run_session_frame (w : World) (goal : pyval) (user_msg : string) (s : State) :
  let r := run_session w goal user_msg s in
  st_env (snd r) = st_env s ∧
  st_cwd (snd r) = st_cwd s ∧
  st_dirs (snd r) = st_dirs s ∧
  (∀ e, fst r ≠ Raise e) ∧
  (fst r = Ok tt → w_connect w = None ∧ w_query w = None) ∧
  queries (st_trace (snd r)) =
    queries (st_trace s) ++
    match w_connect w, w_query w with
    | None, None => [user_msg]
    | _, _ => []
    end.
Proof.
  intros r. subst r.
  destruct (stream_phase_frame w user_msg s) as (He & Hd & _ & _ & _ & _ & Hq).
  pose proof (stream_phase_cwd w user_msg s) as Hc.
  assert (Hok : ∀ r, fst (stream_phase w user_msg s) = Ok r →
                     w_connect w = None ∧ w_query w = None).
  { intros r. rewrite stream_phase_spec.
    destruct (w_connect w); [done|]. by destruct (w_query w). }
  destruct (run_session_closed w goal user_msg s)
    as [(result & success & Hs & _ & Hf & ->)
       |[(result & success & e & Hs & _ & Hf & ->)|[(e & _ & Hf & ->)|(_ & Hf & ->)]]];
    rewrite Hf.
  - destruct (fix_permissions_rest w output_dir
                (artifact_state w goal result success (st_clock s)
                   (snd (stream_phase w user_msg s)))) as (-> & -> & -> & _ & ->).
    destruct (artifact_state_rest w goal result success (st_clock s)
                (snd (stream_phase w user_msg s))) as (-> & -> & -> & _ & _ & ->).
    repeat split; try done. all: by destruct (Hok _ Hs).
  - destruct (fix_permissions_rest w output_dir
                (failure_state e (failed_artifacts_state w success (st_clock s)
                                    (snd (stream_phase w user_msg s)))))
      as (-> & -> & -> & _ & ->).
    destruct (failure_state_rest e (failed_artifacts_state w success (st_clock s)
                                      (snd (stream_phase w user_msg s))))
      as (-> & -> & -> & _ & _ & ->).
    destruct (failed_artifacts_state_rest w success (st_clock s)
                (snd (stream_phase w user_msg s))) as (-> & -> & -> & _ & _ & -> & _).
    by repeat split.
  - destruct (fix_permissions_rest w output_dir
                (failure_state e (snd (stream_phase w user_msg s)))) as (-> & -> & -> & _ & ->).
    destruct (failure_state_rest e (snd (stream_phase w user_msg s)))
      as (-> & -> & -> & _ & _ & ->).
    by repeat split.
  - by repeat split.
Qed.

(** ** What a run leaves of the process *)

Lemma preflight_state_rest (w : World) (s : State) :
  st_env (preflight_state w s) = <["IS_SANDBOX" := "1"]> (st_env s) ∧
  st_cwd (preflight_state w s) = workspace_path ∧
  st_dirs (preflight_state w s) = {[evidence_dir]} ∪ ({[output_dir]} ∪ st_dirs s) ∧
  queries (st_trace (preflight_state w s)) = queries (st_trace s).
Proof.
  unfold preflight_state. cbn [st_env st_cwd st_dirs st_trace emit set_env set_cwd set_dirs].
  rewrite <- !app_assoc, queries_app. cbn. by rewrite app_nil_r.
Qed.

(** From the preflight on, a run keeps the environment, the working
    directory and the directories it found, and its only query is the one
    of the session. *)
Lemma run_adapter_frame (w : World) (s : State) :
  inputs_load w s →
  let p := preflight_state w s in
  let r := run_adapter w s in
  st_env (snd r) = st_env p ∧
  st_cwd (snd r) = st_cwd p ∧
  st_dirs p ⊆ st_dirs (snd r) ∧
  (fst r = Ok tt → w_connect w = None ∧ w_query w = None) ∧
  (queries (st_trace (snd r)) = queries (st_trace p) ∨
   (w_connect w = None ∧
    queries (st_trace (snd r)) = queries (st_trace p) ++ [user_prompt w s])) ∧
  (fst r = Ok tt → queries (st_trace (snd r)) = queries (st_trace p) ++ [user_prompt w s]).
Proof.
  intros Hin p r. subst r. rewrite (run_adapter_after_preflight w s Hin). fold p.
  generalize p. clear p. intros p.
  destruct (workspace_baseline_preparatory w p) as ((He1 & Hc1 & Hd1 & Hq1 & _) & Hx1 & Hh1).
  destruct (workspace_baseline w p) as [[[]|e|c|] s1] eqn:Hb; cbn [fst snd] in *.
  2:{ rewrite (bind_raise _ _ _ _ _ Hb). cbn [fst snd].
      repeat split; try done. by left. }
  2:{ by destruct (Hx1 c). }
  2:{ done. }
  rewrite (bind_ok _ _ _ _ _ Hb).
  destruct (sync_claude_settings_preparatory w s1) as ((He2 & Hc2 & Hd2 & Hq2 & _) & Hx2 & Hh2).
  destruct (sync_claude_settings w s1) as [[[]|e|c|] s2] eqn:Hs; cbn [fst snd] in *.
  2:{ rewrite (bind_raise _ _ _ _ _ Hs). cbn [fst snd].
      repeat split; try congruence; try done; [by etrans|]. left. congruence. }
  2:{ by destruct (Hx2 c). }
  2:{ done. }
  rewrite (bind_ok _ _ _ _ _ Hs).
  destruct (run_session_frame w (spec_goal w s) (user_prompt w s) s2)
    as (He3 & Hc3 & Hd3 & _ & Hok & Hq3).
  repeat split; try congruence.
  - rewrite Hd3. by etrans.
  - by apply Hok.
  - by apply Hok.
  - rewrite Hq3, Hq2, Hq1.
    destruct (w_connect w); [left; by rewrite app_nil_r|].
    destruct (w_query w); [left; by rewrite app_nil_r|]. by right.
  - intros Hr. destruct (Hok Hr) as (Hconn & Hquery).
    by rewrite Hq3, Hq2, Hq1, Hconn, Hquery.
Qed.

(** A run that returns had inputs that load. *)
Lemma run_adapter_ok_loads (w : World) (s : State) :
  fst (run_adapter w s) = Ok tt → inputs_load w s.
Proof.
  intros Hok.
  destruct (run_adapter_cases w s) as [(? & _)|(_ & _ & [(_ & Hf)|(_ & e & Hf)])];
    [done | congruence | congruence].
Qed.

(** X12. [adapter.py], lines 45-47 and 93-96, over the whole of
    [run_adapter]. When the spec file loads to a mapping, the two prompt
    files can be read and the workspace directory exists, then whatever
    happens later (a fatal baseline, a session error, a patch that does
    not decode, a stalled stream) the run leaves the process in the
    workspace directory with [IS_SANDBOX=1] as the only change to its
    environment. When one of these inputs fails, the run ends with the
    environment and the working directory it started with. In both cases
    the output and evidence directories exist next to every directory that
    was there before. *)
Theorem run_keeps_sandbox_environment (w : World) (s : State) :
  let r := run_adapter w s in
  (inputs_load w s →
   st_env (snd r) = <["IS_SANDBOX" := "1"]> (st_env s) ∧ st_cwd (snd r) = workspace_path) ∧
  (¬ inputs_load w s →
   st_env (snd r) = st_env s ∧ st_cwd (snd r) = st_cwd s ∧ fst r ≠ Ok tt) ∧
  output_dir ∈ st_dirs (snd r) ∧
  evidence_dir ∈ st_dirs (snd r) ∧
  st_dirs s ⊆ st_dirs (snd r).
Proof.
  intros r. subst r.
  destruct (run_adapter_cases w s) as [(Hin & _)|(Hnot & Hprep & Hout)].
  - destruct (run_adapter_frame w s Hin) as (He & Hc & Hd & _).
    destruct (preflight_state_rest w s) as (He' & Hc' & Hd' & _).
    rewrite He, Hc, He', Hc'. rewrite Hd' in Hd.
    split; [done|]. split; [done|]. split; [|split].
    + apply Hd, elem_of_union_r, elem_of_union_l. by apply elem_of_singleton.
    + apply Hd, elem_of_union_l. by apply elem_of_singleton.
    + intros d Hdir. by apply Hd, elem_of_union_r, elem_of_union_r.
  - destruct Hprep as (He & _ & _ & Hc & _ & Hd & _).
    rewrite He, Hc, Hd.
    split; [done|]. split; [|split; [|split]].
    + intros _. repeat split. destruct Hout as [(_ & Hf)|(_ & e & Hf)]; by rewrite Hf.
    + apply elem_of_union_r, elem_of_union_l. by apply elem_of_singleton.
    + apply elem_of_union_l. by apply elem_of_singleton.
    + intros d Hdir. by apply elem_of_union_r, elem_of_union_r.
Qed.

(** X12, witness: the connection is refused, the run stays in the
    workspace with [IS_SANDBOX=1]. *)
Lemma run_keeps_sandbox_environment_witness :
  let w := sample_world (Some connection_refused) [] Exhausted (λ _, None) in
  let r := run_adapter w (sample_state host_env) in
  st_env (snd r) = <["IS_SANDBOX" := "1"]> host_env ∧
  st_cwd (snd r) = workspace_path ∧
  output_dir ∈ st_dirs (snd r) ∧
  evidence_dir ∈ st_dirs (snd r) ∧
  st_dirs (sample_state host_env) ⊆ st_dirs (snd r).
Proof.
  intros w.
  assert (Hin : inputs_load w (sample_state host_env)) by (repeat split; by eexists).
  destruct (run_keeps_sandbox_environment w (sample_state host_env))
    as (Hload & _ & Ho & He & Hd).
  destruct (Hload Hin) as (Henv & Hcwd).
  exact (conj Henv (conj Hcwd (conj Ho (conj He Hd)))).
Defined.

(** X13. [adapter.py], lines 88-89 and 171. With the three inputs present
    a run sends at most one query, and only after a successful connect;
    the prompt of that query is the text of the user prompt file, and a
    run that returns normally has sent exactly that one. *)
Theorem run_sends_user_prompt_once (w : World) (s : State) :
  inputs_present s →
  let r := run_adapter w s in
  let prompt := text_of w (st_files s !! user_prompt_path) in
  (queries (st_trace (snd r)) = queries (st_trace s) ∨
   (w_connect w = None ∧ queries (st_trace (snd r)) = queries (st_trace s) ++ [prompt])) ∧
  (fst r = Ok tt → queries (st_trace (snd r)) = queries (st_trace s) ++ [prompt]).
Proof.
  intros _ r prompt. subst r prompt.
  destruct (run_adapter_cases w s) as [(Hin & _)|(_ & Hprep & Hout)].
  - destruct (run_adapter_frame w s Hin) as (_ & _ & _ & _ & Hq & Hok).
    destruct (preflight_state_rest w s) as (_ & _ & _ & Hq').
    rewrite Hq' in Hq, Hok. by split.
  - destruct (only_prepared_observations _ _ Hprep) as (_ & _ & _ & Hq & _).
    split; [by left|].
    intros Hok. destruct Hout as [(_ & Hf)|(_ & e & Hf)]; congruence.
Qed.

(** X13, witness: a run that returns has sent the user prompt. *)
Lemma run_sends_user_prompt_once_witness :
  let w := sample_world None [(5, ResultMessage "success" false)] Exhausted (λ _, None) in
  let s := set_dirs (λ d, {["/holon/workspace/.git"]} ∪ d) (sample_state host_env) in
  queries (st_trace (snd (run_adapter w s))) = ["user"].
Proof.
  intros w s.
  assert (Hin : inputs_present s) by (by vm_compute).
  assert (Hok : fst (run_adapter w s) = Ok tt) by (vm_compute; reflexivity).
  exact (proj2 (run_sends_user_prompt_once w s Hin) Hok).
Defined.

Lemma printed_app (t1 t2 : list Effect) : printed (t1 ++ t2) = printed t1 ++ printed t2.
Proof. apply flat_map_app. Qed.

(** ** The traversal *)

Lemma Tree_forall_ind (P : Tree → Prop) :
  (∀ n, P (File n)) →
  (∀ n children, Forall P children → P (Dir n children)) →
  ∀ t, P t.
Proof.
  intros Hfile Hdir. fix IH 1. intros [n|n children]; [apply Hfile|].
  apply Hdir. induction children as [|c children IHc]; constructor; [apply IH | exact IHc].
Qed.

(** The entries of one level, sub-directories first, are the children. *)
Lemma level_entries (top : string) (children : list Tree) :
  Permutation (map (path_join top) (dir_names children) ++
               map (path_join top) (file_names children))
              (map (entry_path top) children).
Proof.
  induction children as [|[n|n sub] children IH]; [done| |].
  - cbn [dir_names file_names flat_map app map entry_path] in *.
    rewrite <- IH. by rewrite <- Permutation_middle.
  - cbn [dir_names file_names flat_map app map entry_path] in *.
    by rewrite <- IH.
Qed.

Lemma flat_map_cons_split {A B} (f : A → B) (g : A → list B) (l : list A) :
  Permutation (flat_map (λ x, f x :: g x) l) (map f l ++ flat_map g l).
Proof.
  induction l as [|x l IH]; [done|].
  cbn [flat_map map app]. rewrite IH.
  rewrite (app_assoc (g x)), (Permutation_app_comm (g x)), <- app_assoc. done.
Qed.

Lemma flat_map_permutation {A B} (f g : A → list B) (l : list A) :
  Forall (λ x, Permutation (f x) (g x)) l → Permutation (flat_map f l) (flat_map g l).
Proof.
  induction 1 as [|x l Hx _ IH]; [done|]. cbn [flat_map]. by rewrite Hx, IH.
Qed.

Lemma flat_map_nested {A B C} (f : A → list B) (g : B → list C) (l : list A) :
  flat_map g (flat_map f l) = flat_map (λ x, flat_map g (f x)) l.
Proof.
  induction l as [|x l IH]; [done|]. cbn [flat_map]. by rewrite flat_map_app, IH.
Qed.

(** What [os.walk] reports below an entry is what the tree holds below
    it. *)
Lemma walk_tree_entries (top : string) (t : Tree) :
  Permutation (entry_path top t :: flat_map walked_entries (walk_tree top t))
              (tree_paths top t).
Proof.
  revert top. induction t as [n|n children IH] using Tree_forall_ind; intros top; [done|].
  cbn [entry_path walk_tree tree_paths flat_map walked_entries]. constructor.
  rewrite <- app_assoc, app_assoc, level_entries.
  rewrite flat_map_nested, <- flat_map_cons_split.
  apply flat_map_permutation.
  eapply Forall_impl; [exact IH|]. intros t Ht. apply Ht.
Qed.

(** X14. [adapter.py], lines 28-36, and [fs_helpers.py], lines 99-108.
    The traversal of the permission normalizers reaches the directory
    itself and every file and directory below it, at any depth, exactly
    once each, and nothing else: its targets are a rearrangement of the
    directory followed by the entries of its tree. *)
Theorem traversal_reaches_every_entry_once (w : World) (directory : string) :
  Permutation (chown_targets w directory)
              (directory :: flat_map (tree_paths directory) (w_tree w directory)).
Proof.
  unfold chown_targets. constructor.
  fold walked_entries.
  change (λ entry : string * list string * list string,
            let (p, files) := entry in
            let (root, dirs) := p in
            map (path_join root) dirs ++ map (path_join root) files)
    with walked_entries.
  unfold os_walk. cbn [flat_map walked_entries].
  rewrite <- app_assoc, app_assoc, level_entries.
  rewrite flat_map_nested, <- flat_map_cons_split.
  apply flat_map_permutation, Forall_forall. intros t _. apply walk_tree_entries.
Qed.

(** ** The two permission normalizers *)

Lemma permission_fixer_from_env (w : World) (directory : string) (s : State)
    (us gs : string) (uid gid : Z) :
  st_env s !! "HOST_UID" = Some us → py_int us = Some uid →
  st_env s !! "HOST_GID" = Some gs → py_int gs = Some gid →
  PermissionFixer.fix_permissions w directory None None s =
  PermissionFixer.fix_permissions w directory (Some uid) (Some gid) s.
Proof.
  intros Hu Hpu Hg Hpg.
  destruct (py_int_some_nonempty _ _ Hpu) as (a & u & ->).
  destruct (py_int_some_nonempty _ _ Hpg) as (b & g & ->).
  unfold PermissionFixer.fix_permissions, mbind, M_bind, get, mret, M_ret, int_.
  rewrite Hu, Hg. simpl (default _ _). simpl (truthy _). cbv iota. rewrite Hpu. simpl. by rewrite Hpg.
Qed.

(** X15. [fs_helpers.py], lines 79-112, against [adapter.py], lines 12-38.
    With a host identity in the environment that parses, the normalizer of
    [fs_helpers.py] called without arguments behaves as if it had been
    given that identity, and it agrees with the normalizer of [adapter.py]:
    both return normally, re-own the same entries in the same order and
    leave the files alone. They differ in what they print only: the
    helper writes nothing to standard output. *)
Theorem normalizers_agree_on_valid_identity (w : World) (directory : string) (s : State)
    (us gs : string) (uid gid : Z) :
  st_env s !! "HOST_UID" = Some us → py_int us = Some uid →
  st_env s !! "HOST_GID" = Some gs → py_int gs = Some gid →
  let a := fix_permissions w directory s in
  let b := PermissionFixer.fix_permissions w directory None None s in
  b = PermissionFixer.fix_permissions w directory (Some uid) (Some gid) s ∧
  fst a = Ok tt ∧ fst b = Ok tt ∧
  chowned (st_trace (snd b)) = chowned (st_trace (snd a)) ∧
  st_files (snd b) = st_files (snd a) ∧
  printed (st_trace (snd b)) = printed (st_trace s).
Proof.
  intros Hu Hpu Hg Hpg a b. subst a b.
  rewrite (permission_fixer_from_env w directory s us gs uid gid Hu Hpu Hg Hpg).
  split; [done|].
  rewrite (fix_permissions_chowned w directory s us gs uid gid Hu Hpu Hg Hpg).
  rewrite fix_permissions_keeps_files.
  destruct (fix_permissions_frame w directory s) as (t & -> & _).
  rewrite permission_fixer_with_ids. cbn [fst snd].
  rewrite st_trace_add_trace, chowned_app, printed_app.
  rewrite chowned_app, chowned_chown_effects, printed_app.
  split; [done|]. split; [done|]. split; [|split; [done|]].
  - f_equal. destruct (first_chown_error w uid gid (chown_targets w directory));
      cbn; by rewrite app_nil_r.
  - replace (printed (chown_effects w uid gid (chown_targets w directory))) with (@nil string).
    + destruct (first_chown_error w uid gid (chown_targets w directory));
        cbn; by rewrite app_nil_r.
    + unfold chown_effects, printed.
      induction (reowned w uid gid (chown_targets w directory)); [done|]. by cbn.
Qed.

Lemma normalizers_agree_on_valid_identity_witness :
  let w := sample_world None [] Exhausted a_fails in
  let s := sample_state host_env in
  chowned (st_trace (snd (PermissionFixer.fix_permissions w output_dir None None s))) =
  chowned (st_trace (snd (fix_permissions w output_dir s))).
Proof.
  intros w s.
  assert (Hp : py_int "1000" = Some 1000) by (vm_compute; reflexivity).
  assert (He : host_env !! "HOST_UID" = Some "1000" ∧ host_env !! "HOST_GID" = Some "1000")
    by (vm_compute; split; reflexivity).
  exact (proj1 (proj2 (proj2 (proj2
           (normalizers_agree_on_valid_identity w output_dir s "1000" "1000" 1000 1000
              (proj1 He) Hp (proj2 He) Hp))))).
Defined.

(** X16. [fs_helpers.py], lines 88-96. Identities passed as arguments win
    over the environment, which is then not read at all: whatever
    [HOST_UID] and [HOST_GID] hold, even values that are no integers, the
    call returns normally and re-owns the traversal's entries up to the
    first failing [chown] for the given identity. *)
Theorem explicit_identity_ignores_environment (w : World) (directory : string)
    (uid gid : Z) (s : State) (env : gmap string string) :
  let r := PermissionFixer.fix_permissions w directory (Some uid) (Some gid)
             (set_env (λ _, env) s) in
  fst r = Ok tt ∧
  st_env (snd r) = env ∧
  st_files (snd r) = st_files s ∧
  chowned (st_trace (snd r)) =
    chowned (st_trace s) ++ reowned w uid gid (chown_targets w directory).
Proof.
  intros r. subst r. rewrite permission_fixer_with_ids. cbn [fst snd].
  rewrite st_trace_add_trace, !chowned_app, chowned_chown_effects.
  repeat split. cbn [set_env st_trace]. f_equal.
  destruct (first_chown_error w uid gid (chown_targets w directory)); cbn; by rewrite app_nil_r.
Qed.

(** ** [config.py] *)

(** X17. [config.py], lines 133-149, against [adapter.py], lines 12-38.
    The normalizer of [adapter.py] re-owns entries exactly when the two
    host identity accessors of [HolonConfig] both yield a number, and then
    with these numbers: an absent, empty or non-numeric [HOST_UID] or
    [HOST_GID] makes the accessor return [None] and the normalizer touch
    no owner. In every case the normalizer returns normally. *)
Theorem identity_accessors_decide_normalizer (w : World) (directory : string) (s : State) :
  let r := fix_permissions w directory s in
  fst r = Ok tt ∧
  chowned (st_trace (snd r)) =
    chowned (st_trace s) ++
    match HolonConfig.get_env_host_uid (st_env s), HolonConfig.get_env_host_gid (st_env s) with
    | Some uid, Some gid => reowned w uid gid (chown_targets w directory)
    | _, _ => []
    end.
Proof.
  intros r. subst r.
  unfold HolonConfig.get_env_host_uid, HolonConfig.get_env_host_gid.
  rewrite !int_env_cases, fix_permissions_cases.
  destruct (st_env s !! "HOST_UID") as [[|a u]|]; cbn [fst snd].
  - change (py_int "") with (@None Z). split; [done|]. by rewrite app_nil_r.
  - destruct (st_env s !! "HOST_GID") as [[|b g]|]; cbn [fst snd].
    + change (py_int "") with (@None Z). split; [done|].
      destruct (py_int (String a u)); by rewrite app_nil_r.
    + destruct (py_int (String a u)) as [uid|], (py_int (String b g)) as [gid|];
        cbn [fst snd]; (split; [done|]);
        rewrite st_trace_add_trace, chowned_app; f_equal.
      change (chowned (chown_effects w uid gid (chown_targets w directory) ++
                       chown_warning w uid gid (chown_targets w directory)) =
              reowned w uid gid (chown_targets w directory)).
      by rewrite chowned_app, chowned_chown_effects, chowned_chown_warning, app_nil_r.
    + split; [done|]. destruct (py_int (String a u)); by rewrite app_nil_r.
  - split; [done|]. by rewrite app_nil_r.
Qed.

(** X18. [config.py], lines 93-103 and 113-115. The accessors built on
    [or] skip empty values. The base URL is [ANTHROPIC_BASE_URL] when that
    is set and not empty, else [ANTHROPIC_API_URL] when that is set and
    not empty, else [https://api.anthropic.com]; so it is never empty. The
    token is [ANTHROPIC_AUTH_TOKEN] when that is set and not empty, and
    otherwise whatever [ANTHROPIC_API_KEY] holds, be it unset or empty.
    The log level is the value of [LOG_LEVEL], empty or not, and
    [progress] only when the variable is unset. *)
Theorem accessors_skip_empty_values (env : gmap string string) :
  let base_url := HolonConfig.get_env_base_url env in
  let token := HolonConfig.get_env_auth_token env in
  (∀ a u, env !! "ANTHROPIC_BASE_URL" = Some (String a u) → base_url = String a u) ∧
  (unset_or_empty (env !! "ANTHROPIC_BASE_URL") →
   ∀ a u, env !! "ANTHROPIC_API_URL" = Some (String a u) → base_url = String a u) ∧
  (unset_or_empty (env !! "ANTHROPIC_BASE_URL") →
   unset_or_empty (env !! "ANTHROPIC_API_URL") →
   base_url = "https://api.anthropic.com") ∧
  base_url ≠ "" ∧
  (∀ a t, env !! "ANTHROPIC_AUTH_TOKEN" = Some (String a t) → token = Some (String a t)) ∧
  (unset_or_empty (env !! "ANTHROPIC_AUTH_TOKEN") → token = env !! "ANTHROPIC_API_KEY") ∧
  HolonConfig.get_env_log_level env =
    match env !! "LOG_LEVEL" with
    | Some level => level
    | None => "progress"
    end.
Proof.
  intros base_url token. subst base_url token.
  unfold HolonConfig.get_env_base_url, HolonConfig.get_env_auth_token,
    HolonConfig.get_env_log_level, unset_or_empty.
  split; [|split; [|split; [|split; [|split; [|split]]]]].
  - by intros a u ->.
  - intros [->| ->] a u ->; done.
  - intros [->| ->] [->| ->]; done.
  - destruct (env !! "ANTHROPIC_BASE_URL") as [[|a u]|]; cbn; try done;
      destruct (env !! "ANTHROPIC_API_URL") as [[|b v]|]; by cbn.
  - by intros a t ->.
  - intros [->| ->]; done.
  - by destruct (env !! "LOG_LEVEL").
Qed.

(** An empty token variable gives way to the API key; an empty log level
    stays empty. *)
Example accessors_on_empty_values :
  let env : gmap string string :=
    <["ANTHROPIC_AUTH_TOKEN" := ""]> (<["ANTHROPIC_API_KEY" := "sk-key"]>
      (<["ANTHROPIC_BASE_URL" := ""]> (<["LOG_LEVEL" := ""]> ∅))) in
  HolonConfig.get_env_auth_token env = Some "sk-key" ∧
  HolonConfig.get_env_base_url env = "https://api.anthropic.com" ∧
  HolonConfig.get_env_log_level env = "".
Proof. by vm_compute. Qed.

(** X19. [config.py], lines 117-131 and 141-149. The four duration
    accessors return an integer in every environment, never [None] and
    never an exception; the value differs from the default (300, 60, 1800
    and 7200 seconds) only when the variable holds an integer literal, and
    then it is that integer, whatever its sign. *)
Theorem duration_accessors_return_int (env : gmap string string) :
  Forall (λ entry : (gmap string string → option Z) * string * Z,
            let '(accessor, name, fallback) := entry in
            ∃ z, accessor env = Some z ∧
                 (z ≠ fallback → ∃ text, env !! name = Some text ∧ py_int text = Some z))
    [(HolonConfig.get_env_timeout_seconds, "HOLON_QUERY_TIMEOUT_SECONDS", 300);
     (HolonConfig.get_env_heartbeat_seconds, "HOLON_HEARTBEAT_SECONDS", 60);
     (HolonConfig.get_env_idle_timeout_seconds, "HOLON_RESPONSE_IDLE_TIMEOUT_SECONDS", 1800);
     (HolonConfig.get_env_total_timeout_seconds, "HOLON_RESPONSE_TOTAL_TIMEOUT_SECONDS", 7200)].
Proof.
  assert (H : ∀ name fallback,
            ∃ z, HolonConfig._int_env env name (Some fallback) = Some z ∧
                 (z ≠ fallback → ∃ text, env !! name = Some text ∧ py_int text = Some z)).
  { intros name fallback. rewrite int_env_cases.
    destruct (env !! name) as [text|]; [destruct (py_int text) as [z|] eqn:Hp|].
    - exists z. split; [done|]. intros _. by exists text.
    - exists fallback. by split.
    - exists fallback. by split. }
  repeat constructor; apply H.
Qed.

(** ** [network_helpers.py] and [subprocess_helpers.py] *)

(** X20. [network_helpers.py], lines 16-31. The connectivity test never
    raises and has no effect on the process: it returns [True] exactly
    when the request came back with status 200, and [False] for any other
    status and for any exception of the request. *)
Theorem connectivity_test_never_raises (urlopen : string → Z → Exn + Z) (url : string)
    (timeout : Z) (s : State) :
  ∃ reachable,
    NetworkClient.test_connectivity urlopen url timeout s = (Ok reachable, s) ∧
    (reachable = true ↔ urlopen url timeout = inr 200).
Proof.
  unfold NetworkClient.test_connectivity, try_except, raise, mret, M_ret.
  destruct (urlopen url timeout) as [e|status].
  - exists false. by split.
  - exists (status =? 200). split; [done|]. rewrite Z.eqb_eq. split; [by intros ->|by intros [= ->]].
Qed.

(** X21. [subprocess_helpers.py], lines 28-77. Which git helpers can
    fail: [run_git_config] and [run_git_add] return normally whatever the
    exit codes; [run_git_init] and [run_git_commit] raise
    [CalledProcessError] exactly when git exits with a non-zero code;
    [run_git_diff_cached], the one helper that asks for text, returns what
    git printed whatever the exit code, unless that output does not
    decode, in which case it raises the decoding error. [run_git_config]
    starts its three commands in order even when one of them fails, and
    [run_git_add] stages everything only when it gets no file list: an
    empty list runs a bare [git add]. *)
Theorem git_helpers_failure_policy (w : World) (s : State) :
  (∀ workspace,
     fst (SubprocessRunner.run_git_config w workspace s) = Ok tt ∧
     commands (st_trace (snd (SubprocessRunner.run_git_config w workspace s))) =
       commands (st_trace s) ++
       [["git"; "config"; "--global"; "--add"; "safe.directory"; workspace];
        ["git"; "config"; "--global"; "user.name"; "holon-adapter"];
        ["git"; "config"; "--global"; "user.email"; "adapter@holon.local"]]) ∧
  (∀ files,
     (∃ r, fst (SubprocessRunner.run_git_add w files s) = Ok r) ∧
     commands (st_trace (snd (SubprocessRunner.run_git_add w files s))) =
       commands (st_trace s) ++ [["git"; "add"] ++ default ["-A"] files]) ∧
  (let argv := ["git"; "diff"; "--cached"; "--patch"; "--binary"; "--full-index"] in
   fst (SubprocessRunner.run_git_diff_cached w s) =
     match w_decode_error w (run_count (st_trace s)) argv with
     | Some e => Raise e
     | None => Ok (w_proc w (run_count (st_trace s)) argv)
     end ∧
   commands (st_trace (snd (SubprocessRunner.run_git_diff_cached w s))) =
     commands (st_trace s) ++ [argv]) ∧
  (match fst (SubprocessRunner.run_git_init w s) with
   | Ok r => fst r = 0
   | Raise e => exn_type e = "CalledProcessError" ∧
                fst (w_proc w (run_count (st_trace s)) ["git"; "init"]) ≠ 0
   | _ => False
   end) ∧
  (∀ message,
     match fst (SubprocessRunner.run_git_commit w message s) with
     | Ok r => fst r = 0
     | Raise e => exn_type e = "CalledProcessError" ∧
                  fst (w_proc w (run_count (st_trace s)) ["git"; "commit"; "-m"; message]) ≠ 0
     | _ => False
     end).
Proof.
  assert (Hchecked : ∀ argv,
            match fst (subprocess_run w argv true false s) with
            | Ok r => fst r = 0
            | Raise e => exn_type e = "CalledProcessError" ∧
                         fst (w_proc w (run_count (st_trace s)) argv) ≠ 0
            | _ => False
            end).
  { intros argv. rewrite subprocess_run_checked.
    destruct (fst (w_proc w (run_count (st_trace s)) argv) =? 0) eqn:Hrc; cbn [fst].
    - by apply Z.eqb_eq.
    - split; [done|]. by apply Z.eqb_neq. }
  assert (Hkeep : ∀ (b : bool) argv s0,
            st_trace (if b then git_effect argv s0 else s0) = st_trace s0).
  { intros [] argv s0; [|done]. unfold git_effect.
    repeat (destruct argv as [|? argv]; try done).
    - by destruct (String.eqb _ "init").
    - by destruct (String.eqb _ "commit"). }
  split; [|split; [|split; [|split]]].
  - intros workspace.
    unfold SubprocessRunner.run_git_config, SubprocessRunner.run, mbind, M_bind.
    rewrite !subprocess_run_unchecked. cbn [fst snd mret M_ret].
    split; [done|].
    repeat (progress cbn [st_trace emit] || rewrite commands_app || rewrite Hkeep).
    by rewrite <- !app_assoc.
  - intros files.
    unfold SubprocessRunner.run_git_add, SubprocessRunner.run. cbn zeta.
    rewrite subprocess_run_unchecked. cbn [fst snd st_trace emit].
    split; [eauto|]. rewrite commands_app. f_equal.
    + destruct (_ =? 0); [|done]. unfold git_effect.
      destruct files as [[|f1 [|f2 [|f3 fs]]]|]; try done; cbn [app];
        by destruct (String.eqb "add" _).
    + by destruct files.
  - cbv zeta. unfold SubprocessRunner.run_git_diff_cached, SubprocessRunner.run.
    rewrite subprocess_run_text. cbv zeta.
    destruct (w_decode_error w (run_count (st_trace s)) _); cbn [fst snd st_trace emit];
      (split; [done|]); by rewrite commands_app, Hkeep.
  - apply Hchecked.
  - intros message. apply Hchecked.
Qed.

(** ** More on the settings sync *)

(** X22. [adapter.py], lines 117-141. A settings file that cannot be
    synced is left exactly as it was: when the file does not load, does
    not hold an object, or holds an [env] entry that is no object, the
    sync prints one warning and returns; no file is opened for writing, so
    the settings are not truncated. *)
Theorem unsyncable_settings_left_alone (w : World) (s : State) :
  path_exists s (w_settings_path w) = true →
  (∀ fields env0, loaded_settings w s = Some (JObj fields) →
                  default (JObj []) (json_get fields "env") ≠ JObj env0) →
  let r := sync_claude_settings w s in
  fst r = Ok tt ∧
  st_files (snd r) = st_files s ∧
  opened_paths (st_trace (snd r)) = opened_paths (st_trace s) ∧
  ∃ msg, st_trace (snd r) =
         st_trace s ++ [EPrint ("Warning: Failed to sync Claude settings: " +:+ msg)].
Proof.
  intros Hexists Hbad r. subst r. rewrite sync_claude_settings_cases, Hexists.
  assert (Hwarn : ∀ msg,
    let r := (Ok tt, emit (EPrint ("Warning: Failed to sync Claude settings: " +:+ msg)) s) in
    fst r = Ok tt ∧ st_files (snd r) = st_files s ∧
    opened_paths (st_trace (snd r)) = opened_paths (st_trace s) ∧
    ∃ msg, st_trace (snd r) =
           st_trace s ++ [EPrint ("Warning: Failed to sync Claude settings: " +:+ msg)]).
  { intros msg. cbn. rewrite opened_paths_app. cbn. rewrite app_nil_r. eauto. }
  unfold loaded_settings in Hbad.
  destruct (st_files s !! w_settings_path w) as [c|]; [|apply Hwarn].
  destruct c as [t|j].
  - destruct (w_json_loads w t) as [e|j]; [apply Hwarn|].
    destruct j as [| | |fields|]; try apply Hwarn.
    destruct (default (JObj []) (json_get fields "env")) as [| | |env0|] eqn:Henv;
      try apply Hwarn.
    by destruct (Hbad fields env0).
  - destruct j as [| | |fields|]; try apply Hwarn.
    destruct (default (JObj []) (json_get fields "env")) as [| | |env0|] eqn:Henv;
      try apply Hwarn.
    by destruct (Hbad fields env0).
Qed.

Lemma unsyncable_settings_left_alone_witness :
  let w := sample_world None [] Exhausted (λ _, None) in
  let s := set_files (<["/root/.claude/settings.json" := Text "{"]>) (sample_state ∅) in
  st_files (snd (sync_claude_settings w s)) = st_files s.
Proof.
  intros w s.
  assert (Hexists : path_exists s (w_settings_path w) = true) by (vm_compute; reflexivity).
  assert (Hbad : ∀ fields env0, loaded_settings w s = Some (JObj fields) →
                                default (JObj []) (json_get fields "env") ≠ JObj env0).
  { intros fields env0 Hload. vm_compute in Hload. discriminate Hload. }
  exact (proj1 (proj2 (unsyncable_settings_left_alone w s Hexists Hbad))).
Defined.

Lemma json_set_same (fields : list (string * json)) (k : string) (v : json) :
  json_get fields k = Some v → json_set fields k v = fields.
Proof.
  induction fields as [|[k0 x] fields IH]; [done|]. cbn [json_get json_set].
  destruct (String.eqb k0 k); [by intros [= ->]|]. intros H. by rewrite IH.
Qed.

Lemma synced_env_idempotent (env : gmap string string) (env0 : list (string * json)) :
  synced_env env (synced_env env env0) = synced_env env env0.
Proof.
  set (E := synced_env env env0).
  assert (Hs : json_get E "IS_SANDBOX" = Some (JStr "1")) by apply json_get_set_eq.
  unfold synced_env at 1. cbn zeta.
  destruct (truthy (env_or env "ANTHROPIC_AUTH_TOKEN" "ANTHROPIC_API_KEY")) eqn:Htok;
    destruct (truthy (env_or env "ANTHROPIC_BASE_URL" "ANTHROPIC_API_URL")) eqn:Hurl;
    repeat (rewrite json_set_same;
            [|rewrite ?json_get_set_ne by discriminate; try exact Hs;
              subst E; unfold synced_env; rewrite Htok, Hurl;
              rewrite ?json_get_set_ne by discriminate; apply json_get_set_eq]);
    done.
Qed.

(** X23. [adapter.py], lines 117-141. The settings sync is idempotent:
    after a sync that wrote the file, a second sync in the same
    environment writes the very same document, so it leaves every file as
    the first one left it. *)
Theorem sync_twice_is_sync_once (w : World) (s : State) (fields env0 : list (string * json)) :
  loaded_settings w s = Some (JObj fields) →
  default (JObj []) (json_get fields "env") = JObj env0 →
  let s1 := snd (sync_claude_settings w s) in
  let r := sync_claude_settings w s1 in
  fst r = Ok tt ∧ st_files (snd r) = st_files s1.
Proof.
  intros Hload Henv s1 r. subst r s1.
  assert (Hfirst : sync_claude_settings w s =
            (Ok tt,
             emit (EPrint ("Synced environment to " +:+ w_settings_path w))
               (json_dump_state (w_settings_path w)
                  (JObj (json_set fields "env" (JObj (synced_env (st_env s) env0))))
                  (open_write_state (w_settings_path w) s)))).
  { rewrite sync_claude_settings_cases.
    unfold loaded_settings in Hload.
    destruct (st_files s !! w_settings_path w) as [c|] eqn:Hfile; [|done].
    rewrite (path_exists_file s _ c Hfile).
    assert (Hc : (match c with Json j => inr j | Text t => w_json_loads w t end)
                 = inr (JObj fields)).
    { destruct c as [t|j]; [|by injection Hload as ->].
      destruct (w_json_loads w t); [done | by injection Hload as ->]. }
    by rewrite Hc, Henv. }
  rewrite Hfirst. cbn [snd].
  set (doc := JObj (json_set fields "env" (JObj (synced_env (st_env s) env0)))).
  set (s1 := emit _ _).
  assert (Hfile : st_files s1 !! w_settings_path w = Some (Json doc)).
  { subst s1. cbn [st_files emit json_dump_state open_write_state set_files].
    apply lookup_insert_eq. }
  rewrite sync_claude_settings_cases, (path_exists_file s1 _ _ Hfile), Hfile.
  subst doc. cbn iota. rewrite json_get_set_eq. cbn [default from_option id].
  cbn [fst snd st_files emit json_dump_state open_write_state set_files].
  split; [done|].
  replace (st_env s1) with (st_env s) by done.
  rewrite synced_env_idempotent, (json_set_same _ _ _ (json_get_set_eq fields "env" _)).
  rewrite !insert_insert_eq. subst s1.
  cbn [st_files emit json_dump_state open_write_state set_files].
  by rewrite !insert_insert_eq.
Qed.

Lemma sync_twice_is_sync_once_witness :
  let w := sample_world None [] Exhausted (λ _, None) in
  let s1 := snd (sync_claude_settings w settings_state) in
  let r := sync_claude_settings w s1 in
  fst r = Ok tt ∧ st_files (snd r) = st_files s1.
Proof.
  intros w.
  assert (Hload : loaded_settings w settings_state =
                  Some (JObj [("theme", JStr "dark"); ("env", JObj [("EDITOR", JStr "vi")])]))
    by (vm_compute; reflexivity).
  exact (sync_twice_is_sync_once w settings_state _ [("EDITOR", JStr "vi")] Hload eq_refl).
Defined.

(** ** Commits *)

Lemma workspace_baseline_commits (w : World) (s : State) :
  let r := workspace_baseline w s in
  (path_exists s "/holon/workspace/.git" = true → st_commits (snd r) = st_commits s) ∧
  (path_exists s "/holon/workspace/.git" = false → fst r = Ok tt →
   st_commits (snd r) = st_commits s ++ ["holon-baseline"]) ∧
  (st_commits (snd r) = st_commits s ∨
   st_commits (snd r) = st_commits s ++ ["holon-baseline"]).
Proof.
  intros r. subst r.
  destruct (path_exists s "/holon/workspace/.git") eqn:Hgit.
  { rewrite (workspace_baseline_with_git w s Hgit). cbn [fst snd].
    split; [done|]. split; [done|]. by left. }
  unfold workspace_baseline, mbind, M_bind.
  rewrite !subprocess_run_unchecked. cbn [git_effect]. rewrite !Tauto.if_same.
  unfold get.
  replace (path_exists _ (path_join workspace_path ".git")) with false.
  cbn [negb]. unfold print, file_append, modify.
  rewrite subprocess_run_checked.
  destruct (fst (w_proc w _ ["git"; "init"]) =? 0).
  2:{ split; [done|]. split; [done|]. by left. }
  rewrite subprocess_run_checked.
  destruct (fst (w_proc w _ ["git"; "add"; "-A"]) =? 0).
  2:{ split; [done|]. split; [done|]. by left. }
  rewrite subprocess_run_checked.
  destruct (fst (w_proc w _ ["git"; "commit"; "-m"; "holon-baseline"]) =? 0).
  2:{ split; [done|]. split; [done|]. by left. }
  split; [done|]. split; [done|]. by right.
Qed.

Lemma sync_claude_settings_commits (w : World) (s : State) :
  st_commits (snd (sync_claude_settings w s)) = st_commits s.
Proof.
  rewrite sync_claude_settings_cases.
  destruct (path_exists s (w_settings_path w)); [|done].
  destruct (st_files s !! w_settings_path w) as [c|]; [|done].
  destruct (match c with Json j => inr j | Text t => w_json_loads w t end) as [e|j]; [done|].
  destruct j as [| | |fields|]; try done.
  by destruct (default (JObj []) (json_get fields "env")).
Qed.

Lemma run_session_commits (w : World) (goal : pyval) (user_msg : string) (s : State) :
  st_commits (snd (run_session w goal user_msg s)) = st_commits s.
Proof.
  destruct (stream_phase_frame w user_msg s) as (_ & _ & Hc & _).
  assert (Hfix : ∀ s0, st_commits (snd (fix_permissions w output_dir s0)) = st_commits s0).
  { intros s0. by destruct (fix_permissions_frame w output_dir s0) as (t & -> & _). }
  destruct (run_session_closed w goal user_msg s)
    as [(result & success & _ & _ & _ & ->)
       |[(result & success & e & _ & _ & _ & ->)|[(e & _ & _ & ->)|(_ & _ & ->)]]];
    rewrite ?Hfix; [| | |done].
  - by destruct (artifact_state_rest w goal result success (st_clock s)
                   (snd (stream_phase w user_msg s))) as (_ & _ & _ & -> & _).
  - destruct (failure_state_rest e (failed_artifacts_state w success (st_clock s)
                                      (snd (stream_phase w user_msg s))))
      as (_ & _ & _ & -> & _).
    by destruct (failed_artifacts_state_rest w success (st_clock s)
                   (snd (stream_phase w user_msg s))) as (_ & _ & _ & -> & _).
  - by destruct (failure_state_rest e (snd (stream_phase w user_msg s)))
      as (_ & _ & _ & -> & _).
Qed.

(** X24. [adapter.py], lines 103-113 and 198. With the three inputs
    present, the only commit a run ever makes is the baseline commit: on a
    workspace that has its [.git] the commits are left as they were (the
    changes of the session are staged by [git add -A], never committed);
    on a workspace without one, a run that returns normally has added
    exactly the commit [holon-baseline], and a run that does not has added
    that commit or none. *)
Theorem only_commit_is_the_baseline (w : World) (s : State) :
  inputs_present s →
  let r := run_adapter w s in
  (path_exists s "/holon/workspace/.git" = true → st_commits (snd r) = st_commits s) ∧
  (path_exists s "/holon/workspace/.git" = false → fst r = Ok tt →
   st_commits (snd r) = st_commits s ++ ["holon-baseline"]) ∧
  (st_commits (snd r) = st_commits s ∨
   st_commits (snd r) = st_commits s ++ ["holon-baseline"]).
Proof.
  intros _ r. subst r.
  destruct (run_adapter_cases w s) as [(Hin & _)|(_ & Hprep & Hout)].
  2:{ destruct Hprep as (_ & _ & Hc & _).
      split; [done|]. split; [|by left].
      intros _ Hok. destruct Hout as [(_ & Hf)|(_ & e & Hf)]; congruence. }
  rewrite (run_adapter_after_preflight w s Hin).
  assert (Hgit : path_exists (preflight_state w s) "/holon/workspace/.git" =
                 path_exists s "/holon/workspace/.git").
  { rewrite path_exists_preflight; [done | discriminate | discriminate]. }
  assert (Hcommits : st_commits (preflight_state w s) = st_commits s) by done.
  pose proof (workspace_baseline_commits w (preflight_state w s)) as Hbase.
  cbn zeta in Hbase. rewrite Hgit, Hcommits in Hbase.
  destruct (workspace_baseline_preparatory w (preflight_state w s)) as (_ & Hx & Hh).
  destruct (workspace_baseline w (preflight_state w s)) as [[[]|e|c|] s1] eqn:Hb;
    cbn [fst snd] in *.
  2:{ rewrite (bind_raise _ _ _ _ _ Hb). cbn [fst snd].
      destruct Hbase as (H1 & _ & H3). by repeat split. }
  2:{ by destruct (Hx c). }
  2:{ done. }
  rewrite (bind_ok _ _ _ _ _ Hb).
  assert (Hrest : st_commits
                    (snd ((sync_claude_settings w;;
                           run_session w (spec_goal w s) (user_prompt w s)) s1)) =
                  st_commits s1).
  { pose proof (sync_claude_settings_commits w s1) as Hsync.
    destruct (sync_claude_settings_preparatory w s1) as (_ & Hx2 & Hh2).
    destruct (sync_claude_settings w s1) as [[[]|e|c|] s2] eqn:Hs; cbn [fst snd] in *.
    - rewrite (bind_ok _ _ _ _ _ Hs). by rewrite run_session_commits.
    - by rewrite (bind_raise _ _ _ _ _ Hs).
    - by destruct (Hx2 c).
    - done. }
  rewrite Hrest. destruct Hbase as (H1 & H2 & H3).
  split; [done|]. split; [|done]. intros Hnogit _. by apply H2.
Qed.

(** X24, witness: a run on a workspace without repository that returns. *)
Lemma only_commit_is_the_baseline_witness :
  let w := sample_world None [(5, ResultMessage "success" false)] Exhausted (λ _, None) in
  st_commits (snd (run_adapter w (sample_state host_env))) = ["holon-baseline"].
Proof.
  intros w.
  assert (Hin : inputs_present (sample_state host_env)) by (by vm_compute).
  assert (Hgit : path_exists (sample_state host_env) "/holon/workspace/.git" = false)
    by (vm_compute; reflexivity).
  assert (Hok : fst (run_adapter w (sample_state host_env)) = Ok tt)
    by (vm_compute; reflexivity).
  exact (proj1 (proj2 (only_commit_is_the_baseline w (sample_state host_env) Hin)) Hgit Hok).
Defined.

(** ** How a run ends *)








